(** * Z-Wave host driver core: verification of [Driver.ts]

    A shallow embedding of the parts of
    [packages/zwave-js/src/lib/driver/Driver.ts] that decide the
    specification's statements about the driver: option validation, the
    decapsulation loop, the wake-up queue reducers, the handlers for
    missing node acknowledgements and for decode errors, the Transport
    Service session registry and the dead-node guard of [sendMessage].
    Beyond these, it covers the retry loops of [openSerialport] and
    [ensureSerialAPI], the registry of request handlers and the dispatch
    of application commands in [handleRequest], [shouldDiscardCC],
    [encapsulateCommands], [assemblePartialCCs], the network cache, the
    command class versions, the settling of a transaction in
    [sendMessage], the timers of [debounceSendNodeToSleep] and [destroy].

    Conventions.
    - JavaScript objects become records, classes tested with [instanceof]
      become constructors of an enumeration, [undefined] becomes [None].
    - Numbers that the driver only compares or divides as lengths, ids and
      millisecond counts are integers of [Z].
    - A method that mutates the driver returns the new driver; what it
      writes to the serial port, to the loggers, to the send thread or to a
      node is appended to a trace of [Effect]s in program order.
    - A [throw] is the [Throw] result of the [Completion] type. *)

From Stdlib Require Import ZArith Lia Sorted.
From Equations Require Import Equations.
From stdpp Require Import base option list gmap strings pretty.

Set Warnings "-register-all".
Open Scope Z_scope.

(** ** Enumerations of the core packages *)

(** [CommandClasses]: the command classes that the driver names, and a few
    application-level ones. *)
Module CommandClasses.
Inductive t : Set :=
| NoOperation
| Basic
| BinarySwitch
| TransportService
| CRC16Encapsulation
| DeviceResetLocally
| MultiChannel
| Supervision
| WakeUp
| MultiCommand
| Security
| Security2
| Version.

#[global] Instance eq_dec : EqDecision t.
Proof. solve_decision. Defined.
End CommandClasses.

(** Modelled from the spec: the [EncapsulationFlags] bit mask of
    [@zwave-js/core], which is not part of the sources at hand. The driver
    names three members, [Supervision], [Security] and [CRC16]; they are
    given one bit each, in that order. *)
Module EncapsulationFlags.
Definition None : Z := 0.
Definition Supervision : Z := Z.shiftl 1 0.
Definition Security : Z := Z.shiftl 1 1.
Definition CRC16 : Z := Z.shiftl 1 2.
End EncapsulationFlags.

(** Modelled from the spec (section 4.1, highest first): [MessagePriority]. *)
Module MessagePriority.
Inductive t : Set :=
| Nonce
| Supervision
| Controller
| Ping
| MultistepController
| Handshake
| PreTransmitHandshake
| NodeQuery
| Normal
| Poll
| WakeUp.

#[global] Instance eq_dec : EqDecision t.
Proof. solve_decision. Defined.
End MessagePriority.

(** [NodeStatus] of [node/_Types]. *)
Module NodeStatus.
Inductive t : Set := Unknown | Asleep | Awake | Dead | Alive.

#[global] Instance eq_dec : EqDecision t.
Proof. solve_decision. Defined.
End NodeStatus.

(** The members of [ZWaveErrorCodes] that [Driver.ts] and the
    specification's error catalogue (section 7) name. *)
Module ZWaveErrorCodes.
Inductive t : Set :=
| PacketFormat_Truncated
| PacketFormat_Invalid
| PacketFormat_Checksum
| PacketFormat_InvalidPayload
| Driver_NotReady
| Driver_InvalidOptions
| Driver_NoPriority
| Driver_NotSupported
| Driver_NoSecurity
| Driver_Failed
| Controller_MessageDropped
| Controller_MessageExpired
| Controller_NodeTimeout
| Controller_ResponseNOK
| Controller_CallbackNOK
| Controller_NodeRemoved
| Deserialization_NotImplemented
| CC_NotImplemented
| CC_NotSupported
| Security2CC_NotInitialized
| Security2CC_NoSPAN
| Security2CC_CannotDecode
| Argument_Invalid.

#[global] Instance eq_dec : EqDecision t.
Proof. solve_decision. Defined.
End ZWaveErrorCodes.

(** The single-byte frames of the serial protocol. *)
Module MessageHeaders.
Inductive t : Set := SOF | ACK | NAK | CAN.

#[global] Instance eq_dec : EqDecision t.
Proof. solve_decision. Defined.

(** Their values on the wire (section 6). *)
Definition byte (h : t) : Z :=
  match h with SOF => 0x01 | ACK => 0x06 | NAK => 0x15 | CAN => 0x18 end.
End MessageHeaders.

(** An error value: a [ZWaveError] carries a code, any other [Error] only
    its message. *)
Inductive Error : Set :=
| ZWaveError (message : string) (code : ZWaveErrorCodes.t)
| OtherError (message : string).

(** The outcome of a call that may throw. *)
Inductive Completion (A : Type) : Type :=
| Return (a : A)
| Throw (e : Error).
Arguments Return {A} a.
Arguments Throw {A} e.

(** ** Command classes and messages *)

(** The classes of command objects that the driver tells apart with
    [instanceof]. *)
Inductive CCClass : Set :=
| NoOperationCC
| WakeUpCCNoMoreInformation
| Security2CCNonceReport
| SecurityCCCommandEncapsulationNonceGet
| TransportServiceCCFirstSegment
| TransportServiceCCSubsequentSegment
| SupervisionCCReport
| InvalidCC
| OtherCC.

#[global] Instance CCClass_eq_dec : EqDecision CCClass.
Proof. solve_decision. Defined.

(** The fields every command carries. *)
Record CCFields : Set := mkCC {
  ccClass : CCClass;
  ccId : CommandClasses.t;
  nodeId : Z;
  endpointIndex : Z;
  encapsulationFlags : Z;
}.

(** A command is a leaf, owns one inner command ([encapsulated] is a
    command) or owns a list of them ([encapsulated] is an array). *)
Inductive CommandClass : Set :=
| Leaf (cc : CCFields)
| Encapsulating (cc : CCFields) (encapsulated : CommandClass)
| MultiEncapsulating (cc : CCFields) (encapsulated : list CommandClass).

Definition fields (c : CommandClass) : CCFields :=
  match c with
  | Leaf cc | Encapsulating cc _ | MultiEncapsulating cc _ => cc
  end.

Definition isEncapsulatingCommandClass (c : CommandClass) : bool :=
  match c with Encapsulating _ _ => true | _ => false end.

Definition isMultiEncapsulatingCommandClass (c : CommandClass) : bool :=
  match c with MultiEncapsulating _ _ => true | _ => false end.

Definition withFields (f : CCFields -> CCFields) (c : CommandClass) : CommandClass :=
  match c with
  | Leaf cc => Leaf (f cc)
  | Encapsulating cc e => Encapsulating (f cc) e
  | MultiEncapsulating cc l => MultiEncapsulating (f cc) l
  end.

(** [c.encapsulationFlags = flags] *)
Definition assignEncapsulationFlags (flags : Z) : CommandClass -> CommandClass :=
  withFields (fun cc =>
    mkCC (ccClass cc) (ccId cc) (nodeId cc) (endpointIndex cc) flags).

(** Modelled from the spec: [CommandClass.setEncapsulationFlag], declared in
    [@zwave-js/cc]; setting a flag ORs it into the mask, clearing it masks
    it out. *)
Definition setEncapsulationFlag (flag : Z) (active : bool) (c : CommandClass)
  : CommandClass :=
  let old := encapsulationFlags (fields c) in
  assignEncapsulationFlags
    (if active then Z.lor old flag else Z.land old (Z.lnot flag)) c.

(** The classes of message objects that the driver tells apart. *)
Inductive MessageClass : Set :=
| SendDataRequest
| SendDataBridgeRequest
| SendDataMulticastRequest
| SendDataMulticastBridgeRequest
| ApplicationCommandRequest
| BridgeApplicationCommandRequest
| OtherMessage.

#[global] Instance MessageClass_eq_dec : EqDecision MessageClass.
Proof. solve_decision. Defined.

(** A message: its class, the result of [getNodeId()], whether it has a
    numeric [nodeId] property of its own ([isNodeQuery]), the command it
    contains if it is a command class container, its function type, the
    result of [getDefaultPriority] and, for the SendData family, the number
    of send attempts. *)
Record Message : Set := mkMessage {
  msgClass : MessageClass;
  functionType : Z;
  getNodeId : option Z;
  isNodeQuery : bool;
  command : option CommandClass;
  getDefaultPriority : option MessagePriority.t;
  maxSendAttempts : Z;
}.

(** Modelled from the spec (glossary, SendData): [isSendData] of
    [SendDataShared.ts]; the singlecast and multicast SendData requests and
    their bridge variants. *)
Definition isSendData (msg : Message) : bool :=
  match msgClass msg with
  | SendDataRequest | SendDataBridgeRequest
  | SendDataMulticastRequest | SendDataMulticastBridgeRequest => true
  | _ => false
  end.

Definition isCommandClassContainer (msg : Message) : bool :=
  match command msg with Some _ => true | None => false end.

(** Modelled from the spec: [messageIsPing] of [@zwave-js/cc]; a ping is a
    message that contains a No Operation command. *)
Definition messageIsPing (msg : Message) : bool :=
  match command msg with
  | Some c => bool_decide (ccClass (fields c) = NoOperationCC)
  | None => false
  end.

Definition setCommand (c : CommandClass) (msg : Message) : Message :=
  mkMessage (msgClass msg) (functionType msg) (getNodeId msg) (isNodeQuery msg)
            (Some c) (getDefaultPriority msg) (maxSendAttempts msg).

(** ** Log entries *)

Inductive LogLevel : Set := LError | LWarn | LInfo | LVerbose | LDebug.

Inductive LogEntry : Type :=
| DriverPrint (message : string) (level : LogLevel)
| DriverLogMessage (msg : Message) (tags : list string)
| ControllerLogNode (node : Z) (message : string) (level : LogLevel).

(** ** Decapsulation: [unwrapCommands] *)

(** Number of singly encapsulating layers above the core of a command. *)
Fixpoint depth (c : CommandClass) : nat :=
  match c with
  | Encapsulating _ e => S (depth e)
  | _ => O
  end.

Definition multipleCommandClassesWarning : LogEntry :=
  DriverPrint
    "Received a command that contains multiple CommandClasses. This is not supported yet! Discarding the message..."
    LWarn.

(** The [while] loop of [unwrapCommands] on [msg.command]: the command that
    the message holds when the loop ends, and what was logged. *)
Equations? unwrapLoop (command : CommandClass) : CommandClass * list LogEntry
  by wf (depth command) lt :=
  unwrapLoop (Encapsulating cc encapsulated) :=
    let unwrapped := encapsulated in
    (* Copy the encapsulation flags and add the current encapsulation *)
    let unwrapped := assignEncapsulationFlags (encapsulationFlags cc) unwrapped in
    let unwrapped :=
      match ccId cc with
      | CommandClasses.Supervision =>
          setEncapsulationFlag EncapsulationFlags.Supervision true unwrapped
      | CommandClasses.Security2
      | CommandClasses.Security =>
          setEncapsulationFlag EncapsulationFlags.Security true unwrapped
      | CommandClasses.CRC16Encapsulation =>
          setEncapsulationFlag EncapsulationFlags.CRC16 true unwrapped
      | _ => unwrapped
      end in
    unwrapLoop unwrapped;
  unwrapLoop (MultiEncapsulating cc encapsulated) :=
    (* isArray(unwrapped): warn and return, msg.command is left as it is *)
    (MultiEncapsulating cc encapsulated, [multipleCommandClassesWarning]);
  unwrapLoop (Leaf cc) := (Leaf cc, []).
Proof.
  repeat match goal with x := _ |- _ => subst x end.
  destruct (ccId cc), encapsulated; simpl; lia.
Qed.

Definition unwrapCommands (msg : Message) : Message * list LogEntry :=
  match command msg with
  | Some c => let '(c', log) := unwrapLoop c in (setCommand c' msg, log)
  | None => (msg, [])
  end.

(** ** Transactions and reducers *)

(** The fields of a [Transaction] that the driver reads or writes. *)
Record Transaction : Set := mkTransaction {
  message : Message;
  priority : MessagePriority.t;
  tag : option string;
  changeNodeStatusOnTimeout : bool;
  pauseSendThread : bool;
  requestWakeUpOnDemand : bool;
}.

(** [TransactionReducerResult]: what a reducer answers for one transaction. *)
Inductive TransactionReducerResult : Set :=
| Keep
| Drop
| Reject (message : string) (code : ZWaveErrorCodes.t)
| Resolve (message : option Message)
| Requeue (priority : option MessagePriority.t) (tag : option string).

Definition TransactionReducer : Set := Transaction -> TransactionReducerResult.

(** Checks if a message is allowed to go into the wakeup queue:
    [switch (true)] returns [false] at the first case that holds. *)
Definition mayMoveToWakeupQueue (transaction : Transaction) : bool :=
  let msg := message transaction in
  (* Pings, nonces and Supervision Reports will block the send queue until
     wakeup, so they must be dropped *)
  if messageIsPing msg then false
  else if bool_decide (priority transaction = MessagePriority.Nonce) then false
  else if bool_decide (priority transaction = MessagePriority.Supervision) then false
  (* We also don't want to immediately send the node to sleep when it wakes up *)
  else if match command msg with
          | Some c => bool_decide (ccClass (fields c) = WakeUpCCNoMoreInformation)
          | None => false
          end then false
  (* compat queries because they will be recreated when the node wakes up *)
  else if bool_decide (tag transaction = Some "compat") then false
  else true.

(** The reducer that [moveMessagesToWakeupQueue(nodeId)] builds and sends to
    the send thread. *)
Definition moveMessagesToWakeupQueue_reducer (nodeId : Z) : TransactionReducer :=
  let reject := Reject "The node is asleep" ZWaveErrorCodes.Controller_MessageDropped in
  let requeue := Requeue (Some MessagePriority.WakeUp) None in
  let requeueAndTagAsInterview :=
    Requeue (Some MessagePriority.WakeUp) (Some "interview") in
  fun transaction =>
    let msg := message transaction in
    if negb (bool_decide (getNodeId msg = Some nodeId)) then Keep
    (* Drop all messages that are not allowed in the wakeup queue.
       For all other messages, change the priority to wakeup *)
    else if mayMoveToWakeupQueue transaction
    then if bool_decide (priority transaction = MessagePriority.NodeQuery)
         then requeueAndTagAsInterview
         else requeue
    else reject.



(** ** The send thread *)

(** How a transaction's promise was settled. *)
Inductive Settlement : Set :=
| Rejected (e : Error)
| Resolved (message : option Message).

(** Modelled from the spec (section 4.1): the context of the send thread
    machine, [SendThreadMachine.ts], which is not part of the sources at
    hand. It owns the queue of transactions, the active transactions, and
    settles the promises of the transactions it removes. *)
Record SendThread : Set := mkSendThread {
  queue : list Transaction;
  activeTransactions : list Transaction;
  settled : list (Transaction * Settlement);
}.

(** Modelled from the spec (section 4.1): position of a priority in the
    list of priorities, highest first. *)
Definition priorityRank (p : MessagePriority.t) : nat :=
  match p with
  | MessagePriority.Nonce => 0
  | MessagePriority.Supervision => 1
  | MessagePriority.Controller => 2
  | MessagePriority.Ping => 3
  | MessagePriority.MultistepController => 4
  | MessagePriority.Handshake => 5
  | MessagePriority.PreTransmitHandshake => 6
  | MessagePriority.NodeQuery => 7
  | MessagePriority.Normal => 8
  | MessagePriority.Poll => 9
  | MessagePriority.WakeUp => 10
  end%nat.

(** Modelled from the spec (section 4.1): the queue is ordered by priority,
    ties break by enqueue order. *)
Fixpoint enqueue (t : Transaction) (q : list Transaction) : list Transaction :=
  match q with
  | [] => [t]
  | u :: q' =>
      if (priorityRank (priority t) <? priorityRank (priority u))%nat
      then t :: u :: q'
      else u :: enqueue t q'
  end.

Definition applyRequeue (p : option MessagePriority.t) (g : option string)
    (t : Transaction) : Transaction :=
  mkTransaction (message t)
    (match p with Some p' => p' | None => priority t end)
    (match g with Some _ => g | None => tag t end)
    (changeNodeStatusOnTimeout t) (pauseSendThread t) (requestWakeUpOnDemand t).

(** Modelled from the spec (section 4.1): the [reduce] event applies the
    reducer to every queued and every active transaction. A transaction
    that the reducer keeps stays where it is; one that it drops, rejects or
    resolves leaves the send thread, the last two with their promise
    settled; one that it requeues leaves its place and is enqueued again
    with its new priority and tag. *)
Definition keptBy (reducer : TransactionReducer) (t : Transaction) : bool :=
  match reducer t with Keep => true | _ => false end.

Definition requeuedBy (reducer : TransactionReducer) (t : Transaction)
  : option Transaction :=
  match reducer t with Requeue p g => Some (applyRequeue p g t) | _ => None end.

Definition settledBy (reducer : TransactionReducer) (t : Transaction)
  : option (Transaction * Settlement) :=
  match reducer t with
  | Reject m c => Some (t, Rejected (ZWaveError m c))
  | Resolve m => Some (t, Resolved m)
  | _ => None
  end.

Definition sendThread_reduce (reducer : TransactionReducer) (s : SendThread)
  : SendThread :=
  let all := queue s ++ activeTransactions s in
  mkSendThread
    (fold_left (fun q t => enqueue t q) (omap (requeuedBy reducer) all)
               (List.filter (keptBy reducer) (queue s)))
    (List.filter (keptBy reducer) (activeTransactions s))
    (settled s ++ omap (settledBy reducer) all).

(** Modelled from the spec (section 4.1): the [add] event enqueues the
    transaction. *)
Definition sendThread_add (t : Transaction) (s : SendThread) : SendThread :=
  mkSendThread (enqueue t (queue s)) (activeTransactions s) (settled s).

(** Checks if there are any pending transactions that match the given
    predicate. *)
Definition hasPendingTransactions_in (predicate : Transaction -> bool)
    (s : SendThread) : bool :=
  if existsb predicate (queue s) then true
  else existsb predicate (activeTransactions s).

(** ** Nodes, controller and security manager *)

(** [InterviewStage] of [node/_Types], in the order of the interview. *)
Module InterviewStage.
Inductive t : Set :=
| None
| ProtocolInfo
| NodeInfo
| CommandClasses
| OverwriteConfig
| Complete.

Definition rank (s : t) : Z :=
  match s with
  | None => 0
  | ProtocolInfo => 1
  | NodeInfo => 2
  | CommandClasses => 3
  | OverwriteConfig => 4
  | Complete => 5
  end.

Definition ltb (a b : t) : bool := rank a <? rank b.
End InterviewStage.

(** Modelled from the spec (section 3): the state of the S2 singlecast
    nonce of a peer. *)
Module SPANState.
Inductive t : Set := None | LocalEI | RemoteEI | Continue.

#[global] Instance eq_dec : EqDecision t.
Proof. solve_decision. Defined.
End SPANState.

Module KEXFailType.
Inductive t : Set := BootstrappingCanceled | OtherFailure.
End KEXFailType.

(** The fields of a [ZWaveNode] that the driver reads or writes. *)
Record ZWaveNode : Set := mkNode {
  id : Z;
  status : NodeStatus.t;
  canSleep : bool;
  keepAwake : bool;
  interviewStage : InterviewStage.t;
  supportedCCs : list CommandClasses.t;
  commandsDroppedRX : Z;
}.

Definition supportsCC (cc : CommandClasses.t) (node : ZWaveNode) : bool :=
  bool_decide (cc ∈ supportedCCs node).

Definition setStatus (s : NodeStatus.t) (node : ZWaveNode) : ZWaveNode :=
  mkNode (id node) s (canSleep node) (keepAwake node) (interviewStage node)
         (supportedCCs node) (commandsDroppedRX node).

(** [node.incrementStatistics("commandsDroppedRX")] *)
Definition incrementCommandsDroppedRX (node : ZWaveNode) : ZWaveNode :=
  mkNode (id node) (status node) (canSleep node) (keepAwake node)
         (interviewStage node) (supportedCCs node) (commandsDroppedRX node + 1).

(** [node.addCC(cc, { isSupported: true, ... })] *)
Definition addCC (cc : CommandClasses.t) (node : ZWaveNode) : ZWaveNode :=
  mkNode (id node) (status node) (canSleep node) (keepAwake node)
         (interviewStage node)
         (if supportsCC cc node then supportedCCs node else cc :: supportedCCs node)
         (commandsDroppedRX node).

Record ZWaveController : Type := mkController {
  nodes : gmap Z ZWaveNode;
  bootstrappingS2NodeId : option Z;
  supportedFunctionTypes : list Z;
  messagesDroppedRX : Z;
}.

Definition isFunctionSupported (functionType : Z) (c : ZWaveController) : bool :=
  bool_decide (functionType ∈ supportedFunctionTypes c).

Record SecurityManager2 : Type := mkSecurityManager2 {
  tempKeys : gset Z;
  spanTable : gmap Z SPANState.t;
}.

(** Modelled from the spec (section 3): [getSPANState]; a peer without an
    entry has no SPAN. *)
Definition getSPANState (peer : Z) (sm : SecurityManager2) : SPANState.t :=
  default SPANState.None (spanTable sm !! peer).

(** ** Transport Service sessions *)

(** The result of a division of two non-negative integers followed by
    [Math.ceil] or [Math.floor]: an integer, or what JavaScript yields for a
    zero divisor. *)
Inductive JSNumber : Set := Num (z : Z) | Infinity | NaN.

(** [Math.ceil(a / b)] *)
Definition Math_ceil_div (a b : Z) : JSNumber :=
  if b =? 0 then (if a =? 0 then NaN else Infinity)
  else Num (- ((- a) / b)).

(** [Math.floor(a / b)] *)
Definition Math_floor_div (a b : Z) : JSNumber :=
  if b =? 0 then (if a =? 0 then NaN else Infinity)
  else Num (a / b).

(** The two Transport Service commands that carry a segment. *)
Inductive TransportServiceCC : Set :=
| FirstSegment (nodeId sessionId datagramSize : Z) (partialDatagram : list Z)
| SubsequentSegment (nodeId sessionId datagramSize datagramOffset : Z)
                    (partialDatagram : list Z).

Definition ts_nodeId (c : TransportServiceCC) : Z :=
  match c with FirstSegment n _ _ _ | SubsequentSegment n _ _ _ _ => n end.

Definition ts_sessionId (c : TransportServiceCC) : Z :=
  match c with FirstSegment _ s _ _ | SubsequentSegment _ s _ _ _ => s end.

(** An event sent to the state machine of an RX session. *)
Inductive RXEvent : Set := segment (index : JSNumber).

(** A running interpreter of the RX state machine: the machine's
    parameters, whether it was stopped, and the events sent to it. The
    machine itself ([TransportServiceMachine.ts]) is not part of the sources
    at hand. *)
Record TransportServiceRXInterpreter : Set := mkInterpreter {
  for_session : Z;
  numSegments : JSNumber;
  missingSegmentTimeout : Z;
  stopped : bool;
  received : list RXEvent;
}.

(** Modelled from the spec (section 4.3): the timeout
    [TransportServiceTimeouts.requestMissingSegmentR2], about 800 ms. *)
Definition requestMissingSegmentR2 : Z := 800.

(** A session refers to its interpreter by its address in the driver's
    store of interpreters: a stopped interpreter that is no longer in any
    session map still exists. *)
Record TransportServiceSession : Set := mkSession {
  fragmentSize : Z;
  interpreter : nat;
}.

Record Sessions : Type := mkSessions {
  transportService : gmap Z TransportServiceSession;
  supervision : gmap Z nat;
}.

(** ** The driver *)

(** Commands that the driver hands to [sendCommand] from the handlers below. *)
Inductive OutgoingCC : Set :=
| TransportServiceCCSegmentWait (nodeId pendingSegments : Z).

(** What a method does to the world outside the driver's own fields. *)
Inductive Effect : Type :=
| Log (entry : LogEntry)
| SerialWrite (data : list Z)
| Emit (event : string)
| CancelSecureBootstrapS2 (reason : KEXFailType.t)
| NodePing (nodeId : Z)
| SendCommand (cc : OutgoingCC) (attempts : Z) (priority : MessagePriority.t)
| SetExpirationTimeout (transaction : Transaction) (ms : Z)
| SendSupervisionReportNoSupport (nodeId sessionId : Z)
| Destroy.

Record Driver : Type := mkDriver {
  _wasStarted : bool;
  _isOpen : bool;
  wasDestroyed : bool;
  (** [Some open] when there is a serial port object, open or not *)
  serial : option bool;
  _controller : option ZWaveController;
  _securityManager2 : option SecurityManager2;
  sendThread : SendThread;
  nodeSessions : gmap Z Sessions;
  interpreters : list TransportServiceRXInterpreter;
  _nodesReady : gset Z;
  _nodesReadyEventEmitted : bool;
  effects : list Effect;
}.

Definition setController (c : option ZWaveController) (d : Driver) : Driver :=
  mkDriver (_wasStarted d) (_isOpen d) (wasDestroyed d) (serial d) c
           (_securityManager2 d) (sendThread d) (nodeSessions d) (interpreters d)
           (_nodesReady d) (_nodesReadyEventEmitted d) (effects d).

Definition setSendThread (s : SendThread) (d : Driver) : Driver :=
  mkDriver (_wasStarted d) (_isOpen d) (wasDestroyed d) (serial d) (_controller d)
           (_securityManager2 d) s (nodeSessions d) (interpreters d)
           (_nodesReady d) (_nodesReadyEventEmitted d) (effects d).

Definition setNodeSessions (m : gmap Z Sessions) (d : Driver) : Driver :=
  mkDriver (_wasStarted d) (_isOpen d) (wasDestroyed d) (serial d) (_controller d)
           (_securityManager2 d) (sendThread d) m (interpreters d)
           (_nodesReady d) (_nodesReadyEventEmitted d) (effects d).

Definition setInterpreters (l : list TransportServiceRXInterpreter) (d : Driver)
  : Driver :=
  mkDriver (_wasStarted d) (_isOpen d) (wasDestroyed d) (serial d) (_controller d)
           (_securityManager2 d) (sendThread d) (nodeSessions d) l
           (_nodesReady d) (_nodesReadyEventEmitted d) (effects d).


Definition perform (e : Effect) (d : Driver) : Driver :=
  mkDriver (_wasStarted d) (_isOpen d) (wasDestroyed d) (serial d) (_controller d)
           (_securityManager2 d) (sendThread d) (nodeSessions d) (interpreters d)
           (_nodesReady d) (_nodesReadyEventEmitted d) (effects d ++ [e]).

Definition performAll (es : list Effect) (d : Driver) : Driver :=
  fold_left (fun d e => perform e d) es d.

(** [this.sendThread.send({ type: "reduce", reducer })] *)
Definition sendThread_send_reduce (reducer : TransactionReducer) (d : Driver)
  : Driver :=
  setSendThread (sendThread_reduce reducer (sendThread d)) d.

(** [this.sendThread.send({ type: "add", transaction })] *)
Definition sendThread_send_add (transaction : Transaction) (d : Driver) : Driver :=
  setSendThread (sendThread_add transaction (sendThread d)) d.

Definition hasPendingTransactions (predicate : Transaction -> bool) (d : Driver)
  : bool :=
  hasPendingTransactions_in predicate (sendThread d).

(** Writes the node back into the controller's map (a node is an object
    that the handlers mutate in place). *)
Definition updateNode (node : ZWaveNode) (d : Driver) : Driver :=
  match _controller d with
  | Some c =>
      setController
        (Some (mkController (<[id node := node]> (nodes c))
                            (bootstrappingS2NodeId c) (supportedFunctionTypes c)
                            (messagesDroppedRX c))) d
  | None => d
  end.

(** The [controller] getter throws while there is no controller. *)
Definition controller (d : Driver) : Completion ZWaveController :=
  match _controller d with
  | Some c => Return c
  | None => Throw (ZWaveError "The controller is not yet ready!"
                              ZWaveErrorCodes.Driver_NotReady)
  end.

Definition getNodeUnsafe (msg : Message) (d : Driver)
  : Completion (option ZWaveNode) :=
  match getNodeId msg with
  | Some nodeId =>
      match controller d with
      | Return c => Return (nodes c !! nodeId)
      | Throw e => Throw e
      end
  | None => Return None
  end.

(** Ensures that the driver is ready to communicate (serial port open and
    not destroyed). *)
Definition ensureReady (d : Driver) : Completion unit :=
  if negb (_wasStarted d) || negb (_isOpen d) || wasDestroyed d
  then Throw (ZWaveError "The driver is not ready or has been destroyed"
                         ZWaveErrorCodes.Driver_NotReady)
  else Return tt.

(** Modelled from the spec (section 6): [writeAsync] of the serial port,
    which is not part of the sources at hand; a closed port refuses the
    write with the error that the receive handler looks for. *)
Definition serialPortNotOpen : Error := OtherError "The serial port is not open!".

(** Sends a raw datagram to the serialport (if that is open):
    [this.serial?.writeAsync(data)]. *)
Definition writeSerial (data : list Z) (d : Driver) : Completion Driver :=
  match serial d with
  | None => Return d
  | Some true => Return (perform (SerialWrite data) d)
  | Some false => Throw serialPortNotOpen
  end.

(** Sends a low-level message like ACK, NAK or CAN immediately. *)
Definition writeHeader (header : MessageHeaders.t) (d : Driver) : Completion Driver :=
  writeSerial [MessageHeaders.byte header] d.

(** ** Node power state and the wake-up queue *)


(** Moves all messages for a given node into the wakeup queue. *)
Definition moveMessagesToWakeupQueue (nodeId : Z) (d : Driver) : Driver :=
  (* Apply the reducer to the send thread *)
  sendThread_send_reduce (moveMessagesToWakeupQueue_reducer nodeId) d.













(** ** Decode errors *)

Definition FunctionType_SendData : Z := 0x13.

(** Modelled from the spec (sections 4.2 and 8, scenario 4): [sendNonce] of
    the Security 2 API in [@zwave-js/cc], which is not part of the sources
    at hand; it enqueues an S2 Nonce Report for the node at [Nonce]
    priority, and a failure to deliver it does not change the node's
    status. *)
Definition nonceReportTransaction (nodeId : Z) : Transaction :=
  mkTransaction
    (mkMessage SendDataRequest FunctionType_SendData (Some nodeId) false
       (Some (Leaf (mkCC Security2CCNonceReport CommandClasses.Security2 nodeId 0
                         EncapsulationFlags.None)))
       (Some MessagePriority.Normal) 1)
    MessagePriority.Nonce None false false false.

Definition sendNonce (nodeId : Z) (d : Driver) : Driver :=
  sendThread_send_add (nonceReportTransaction nodeId) d.

(** The predicate [isS2NonceReport] of [handleSecurityS2DecodeError]. *)
Definition isS2NonceReport (nodeId : Z) (t : Transaction) : bool :=
  bool_decide (getNodeId (message t) = Some nodeId)
  && match command (message t) with
     | Some c => bool_decide (ccClass (fields c) = Security2CCNonceReport)
     | None => false
     end.

Definition handleSecurityS2DecodeError (e : Error) (msg : option Message)
    (d : Driver) : Completion (bool * Driver) :=
  match e, msg with
  | OtherError _, _ => Return (false, d)
  | ZWaveError _ code, Some m =>
      if (bool_decide (code = ZWaveErrorCodes.Security2CC_NoSPAN)
          || bool_decide (code = ZWaveErrorCodes.Security2CC_CannotDecode))
         && isCommandClassContainer m
      then
        (* Decoding the command failed because no SPAN has been established
           with the other node *)
        match getNodeId m, _controller d with
        | Some nodeId, Some c =>
            match nodes c !! nodeId with
            (* If the node isn't known, ignore this error *)
            | None => Return (false, d)
            | Some node =>
                (* Before we can send anything, ACK the command *)
                match writeHeader MessageHeaders.ACK d with
                | Throw ee => Throw ee
                | Return d =>
                    let d := perform (Log (DriverLogMessage m [])) d in
                    let node := incrementCommandsDroppedRX node in
                    (* We might receive this before the node has been
                       interviewed. If that case, we need to mark Security
                       S2 as supported *)
                    let node :=
                      if InterviewStage.ltb (interviewStage node) InterviewStage.NodeInfo
                      then addCC CommandClasses.Security2 node
                      else node in
                    let d := updateNode node d in
                    let message : string :=
                      if bool_decide (code = ZWaveErrorCodes.Security2CC_CannotDecode)
                      then "Message authentication failed"
                      else "No SPAN is established yet" in
                    let d :=
                      if bool_decide (bootstrappingS2NodeId c = Some nodeId) then
                        (* The node is currently being bootstrapped. *)
                        if match _securityManager2 d with
                           | Some sm => bool_decide (nodeId ∈ tempKeys sm)
                           | None => false
                           end
                        then
                          (* The DSK has been verified, so we should be able
                             to decode this command. If this is the first
                             attempt, we need to request a nonce first *)
                          if match _securityManager2 d with
                             | Some sm =>
                                 bool_decide (getSPANState nodeId sm = SPANState.None)
                             | None => false
                             end
                          then
                            let d := perform (Log (ControllerLogNode nodeId
                                       (message +:+ ", cannot decode command. Requesting a nonce...")
                                       LVerbose)) d in
                            (* Send the node our nonce *)
                            sendNonce nodeId d
                          else
                            (* Us repeatedly not being able to decode the
                               command means we need to abort the
                               bootstrapping process because the PIN is
                               wrong *)
                            let d := perform (Log (ControllerLogNode nodeId
                                       (message +:+ ", cannot decode command. Aborting the S2 bootstrapping process...")
                                       LError)) d in
                            perform (CancelSecureBootstrapS2
                                       KEXFailType.BootstrappingCanceled) d
                        else
                          perform (Log (ControllerLogNode nodeId
                            "Ignoring KEXSet because the DSK has not been verified yet"
                            LVerbose)) d
                      else if negb (hasPendingTransactions (isS2NonceReport nodeId) d) then
                        let d := perform (Log (ControllerLogNode nodeId
                                   (message +:+ ", cannot decode command. Requesting a nonce...")
                                   LVerbose)) d in
                        (* Send the node our nonce *)
                        sendNonce nodeId d
                      else
                        perform (Log (ControllerLogNode nodeId
                          (message +:+ ", cannot decode command.") LVerbose)) d in
                    Return (true, d)
                end
            end
        | _, _ => Return (false, d)
        end
      else Return (false, d)
  | ZWaveError _ _, None => Return (false, d)
  end.

(** [needle] occurs in [s]: the regular expressions that the driver tests
    error messages with are plain words. *)
Fixpoint occursIn (needle s : string) : bool :=
  if String.prefix needle s then true
  else match s with
       | EmptyString => false
       | String _ s' => occursIn needle s'
       end.

(** Handles a decoding error and returns the desired reply to the stick,
    together with what it logged; [Throw] passes the error on. The reason
    and the hex dump that the last warning appends are left out of the
    log text. *)
Definition handleDecodeError (e : Error) (data : list Z) (msg : option Message)
  : list LogEntry * Completion MessageHeaders.t :=
  match e with
  | ZWaveError message code =>
      match code with
      | ZWaveErrorCodes.PacketFormat_Invalid
      | ZWaveErrorCodes.PacketFormat_Checksum
      | ZWaveErrorCodes.PacketFormat_Truncated =>
          ([DriverPrint "Dropping message because it contains invalid data" LWarn],
           Return MessageHeaders.NAK)
      | ZWaveErrorCodes.Deserialization_NotImplemented
      | ZWaveErrorCodes.CC_NotImplemented =>
          ([DriverPrint
              ("Dropping message because it could not be deserialized: " +:+ message)
              LWarn],
           Return MessageHeaders.ACK)
      | ZWaveErrorCodes.Driver_NotReady =>
          ([DriverPrint
              "Dropping message because the driver is not ready to handle it yet."
              LWarn],
           Return MessageHeaders.ACK)
      | ZWaveErrorCodes.PacketFormat_InvalidPayload =>
          (match msg with
           | Some m =>
               [DriverPrint "Dropping message with invalid payload" LWarn;
                DriverLogMessage m []]
           | None => [DriverPrint "Dropping message with invalid payload" LWarn]
           end,
           Return MessageHeaders.ACK)
      | ZWaveErrorCodes.Driver_NoSecurity
      | ZWaveErrorCodes.Security2CC_NotInitialized =>
          ([DriverPrint
              "Dropping message because network keys are not set or the driver is not yet ready to receive secure messages."
              LWarn],
           Return MessageHeaders.ACK)
      (* Pass all other errors through *)
      | _ => ([], Throw e)
      end
  | OtherError message =>
      if occursIn "database is not open" message then
        (* The JSONL-DB is not open yet *)
        ([DriverPrint
            "Dropping message because the driver is not ready to handle it yet."
            LWarn],
         Return MessageHeaders.ACK)
      else ([], Throw e)
  end.

Definition errorMessage (e : Error) : string :=
  match e with ZWaveError m _ | OtherError m => m end.

Section Dispatcher.
(** [SupervisionCC.getSessionId] and the Supervision API's [sendReport]
    belong to [@zwave-js/cc], which is not part of the sources at hand:
    the session id found in a command, and the error that sending the
    report to a node for a session throws, if any. *)
Variable SupervisionCC_getSessionId : CommandClass -> option Z.
Variable sendReport_error : Z -> Z -> option Error.

(** [endpoint.createAPI(CommandClasses.Supervision, false).sendReport] with
    [status: SupervisionStatus.NoSupport]. *)
Definition sendReport_NoSupport (nodeId sessionId : Z) (d : Driver)
  : Driver * option Error :=
  (perform (SendSupervisionReportNoSupport nodeId sessionId) d,
   sendReport_error nodeId sessionId).

Definition incrementMessagesDroppedRX (c : ZWaveController) (d : Driver) : Driver :=
  setController
    (Some (mkController (nodes c) (bootstrappingS2NodeId c)
             (supportedFunctionTypes c) (messagesDroppedRX c + 1))) d.

(** The [try] block inside the [catch (e)] of [serialport_onData]: the
    driver at its end, or at the point where it threw together with the
    error thrown. *)
Definition decodeFailure_try (e : Error) (data : list Z) (msg : option Message)
    (d : Driver) : Driver * option Error :=
  match handleSecurityS2DecodeError e msg d with
  | Throw ee => (d, Some ee)
  | Return (true, d) => (d, None)
  | Return (false, d) =>
      let '(log, response) := handleDecodeError e data msg in
      let d := performAll (map Log log) d in
      match response with
      | Throw ee => (d, Some ee)
      | Return response =>
          match writeHeader response d with
          | Throw ee => (d, Some ee)
          | Return d =>
              match _controller d, msg with
              | Some c, Some m =>
                  match command m with
                  | Some cmd =>
                      match getNodeUnsafe m d with
                      | Throw ee => (d, Some ee)
                      | Return node =>
                          let d := match node with
                                   | Some n => updateNode (incrementCommandsDroppedRX n) d
                                   | None => d
                                   end in
                          (* Figure out if the command was received with
                             supervision encapsulation *)
                          match SupervisionCC_getSessionId cmd with
                          | Some supervisionSessionId =>
                              if bool_decide (ccClass (fields cmd) = InvalidCC)
                              then
                                (* If it was, we need to notify the sender
                                   that we couldn't decode the command *)
                                match node with
                                | Some n =>
                                    sendReport_NoSupport (id n) supervisionSessionId d
                                | None => (d, None)
                                end
                              else (d, None)
                          | None => (d, None)
                          end
                      end
                  | None => (incrementMessagesDroppedRX c d, None)
                  end
              | Some c, None => (incrementMessagesDroppedRX c d, None)
              | None, _ => (d, None)
              end
          end
      end
  end.

(** What [serialport_onData] does with a frame whose decoding threw [e]:
    the [catch (e)] block with its inner [try] and [catch (ee)], and the
    assignment [msg = undefined] after it. The result is the message that
    is left to forward to the send thread ([None] for [undefined]) and
    the driver; [Throw] would be an exception that leaves
    [serialport_onData]. *)
Definition serialport_onData_decodeFailure (e : Error) (data : list Z)
    (msg : option Message) (d : Driver) : Completion (option Message * Driver) :=
  match decodeFailure_try e data msg d with
  | (d, None) => Return (None, d)
  | (d, Some ee) =>
      if occursIn "serial port is not open" (errorMessage ee) then
        Return (None, perform Destroy (perform (Emit "error") d))
      else
        (* Print something, so we know what is wrong *)
        Return (None, perform (Log (DriverPrint (errorMessage ee) LError)) d)
  end.
End Dispatcher.

(** ** Transport Service *)

Definition ensureNodeSessions (nodeId : Z) (d : Driver) : Sessions * Driver :=
  match nodeSessions d !! nodeId with
  | Some s => (s, d)
  | None =>
      let s := mkSessions ∅ ∅ in
      (s, setNodeSessions (<[nodeId := s]> (nodeSessions d)) d)
  end.

(** [interpreter.stop()] on the interpreter at an address. *)
Definition stopInterpreter (a : nat) (d : Driver) : Driver :=
  match interpreters d !! a with
  | Some i =>
      setInterpreters
        (<[a := mkInterpreter (for_session i) (numSegments i)
                 (missingSegmentTimeout i) true (received i)]> (interpreters d)) d
  | None => d
  end.

(** [interpreter.send(ev)] on the interpreter at an address. *)
Definition sendToInterpreter (a : nat) (ev : RXEvent) (d : Driver) : Driver :=
  match interpreters d !! a with
  | Some i =>
      setInterpreters
        (<[a := mkInterpreter (for_session i) (numSegments i)
                 (missingSegmentTimeout i) (stopped i) (received i ++ [ev])]>
           (interpreters d)) d
  | None => d
  end.

Definition setTransportService (nodeId : Z)
    (m : gmap Z TransportServiceSession) (d : Driver) : Driver :=
  match nodeSessions d !! nodeId with
  | Some s =>
      setNodeSessions (<[nodeId := mkSessions m (supervision s)]> (nodeSessions d)) d
  | None => d
  end.

(** Is called when a Transport Service command is received. *)
Definition handleTransportServiceCommand (command : TransportServiceCC)
    (d : Driver) : Driver :=
  let '(nodeSessions, d) := ensureNodeSessions (ts_nodeId command) d in
  (* If this command belongs to an existing session, just forward it to the
     state machine *)
  let transportSession := transportService nodeSessions !! ts_sessionId command in
  match command with
  | FirstSegment nodeId sessionId datagramSize partialDatagram =>
      (* This is the first message in a sequence. Create or re-initialize
         the session *)
      let d := match transportSession with
               | Some session => stopInterpreter (interpreter session) d
               | None => d
               end in
      (* nodeSessions.transportService.clear() *)
      let d := setTransportService nodeId ∅ d in
      let d := perform (Log (ControllerLogNode nodeId
                 ("Beginning Transport Service RX session #" +:+ pretty sessionId +:+ "...")
                 LDebug)) d in
      let RXStateMachine :=
        mkInterpreter sessionId
          (Math_ceil_div datagramSize (Z.of_nat (length partialDatagram)))
          requestMissingSegmentR2 false [] in
      (* interpret(RXStateMachine).start() *)
      let interpreter := length (interpreters d) in
      let d := setInterpreters (interpreters d ++ [RXStateMachine]) d in
      (* nodeSessions.transportService.set(command.sessionId, ...) on the
         map that was just cleared *)
      setTransportService nodeId
        (<[sessionId := mkSession (Z.of_nat (length partialDatagram)) interpreter]> ∅) d
  | SubsequentSegment nodeId sessionId datagramSize datagramOffset partialDatagram =>
      (* This is a subsequent message in a sequence. Just forward it to the
         state machine if there is one *)
      match transportSession with
      | Some session =>
          sendToInterpreter (interpreter session)
            (segment (Math_floor_div datagramOffset (fragmentSize session))) d
      | None =>
          (* This belongs to a session we don't know... tell the sending
             node to try again *)
          perform (SendCommand (TransportServiceCCSegmentWait nodeId 0) 1
                     MessagePriority.Nonce) d
      end
  end.

(** ** Option validation: [checkOptions] *)

Module Timeouts.
Record t : Set := mk {
  ack : Z;
  byte : Z;
  response : Z;
  report : Z;
  nonce : Z;
  sendDataCallback : Z;
  refreshValue : Z;
  refreshValueAfterTransition : Z;
  serialAPIStarted : Z;
}.
End Timeouts.

Module Attempts.
Record t : Set := mk {
  openSerialPort : Z;
  controller : Z;
  sendData : Z;
  nodeInterview : Z;
}.
End Attempts.

(** The value of [options.inclusionUserCallbacks]: a falsy value
    ([undefined], [null], ...), a truthy value that is not an object, or an
    object, of which the test reads whether each of the three properties is
    a function. *)
Inductive InclusionUserCallbacks : Set :=
| Falsy
| NotAnObject
| CallbacksObject (grantSecurityClasses validateDSKAndEnterPIN abort : bool).

Inductive Throttle : Set := slow | normal | fast.

Record ZWaveOptions : Set := mkOptions {
  timeouts : Timeouts.t;
  attempts : Attempts.t;
  enableSoftReset : bool;
  (** [Object.entries(options.securityKeys)], when the keys are given *)
  securityKeys : option (list (string * list Z));
  cacheDir : string;
  throttle : Throttle;
  inclusionUserCallbacks : InclusionUserCallbacks;
}.

Definition InvalidOptions (message : string) : Completion unit :=
  Throw (ZWaveError message ZWaveErrorCodes.Driver_InvalidOptions).

(** [keys.findIndex(p)]: the index of the first element that satisfies [p],
    or -1. *)
Fixpoint findIndex {A : Type} (p : A -> bool) (l : list A) : Z :=
  match l with
  | [] => -1
  | x :: l' =>
      if p x then 0
      else let r := findIndex p l' in if r =? -1 then -1 else r + 1
  end.

(** [k.equals(key)] on buffers. *)
Definition Buffer_equals (k key : list Z) : bool := bool_decide (k = key).

(** The [for] loop over [keys], from index [i] on; [rest] holds
    [keys[i]], [keys[i+1]], ... *)
Fixpoint checkSecurityKeys (keys : list (string * list Z)) (i : Z)
    (rest : list (string * list Z)) : Completion unit :=
  match rest with
  | [] => Return tt
  | (secClass, key) :: rest' =>
      if negb (Z.of_nat (length key) =? 16) then
        InvalidOptions ("The security key for class " +:+ secClass
                        +:+ " must be a buffer with length 16!")
      else if negb (findIndex (fun '(_, k) => Buffer_equals k key) keys =? i) then
        InvalidOptions ("The security key for class " +:+ secClass
                        +:+ " was used multiple times!")
      else checkSecurityKeys keys (i + 1) rest'
  end.

Section CheckOptions.
(** [MAX_SEND_ATTEMPTS] is declared in [SendDataMessages.ts], which is not
    part of the sources at hand. *)
Variable MAX_SEND_ATTEMPTS : Z.

(** Ensures that the options are valid. *)
Definition checkOptions (options : ZWaveOptions) : Completion unit :=
  if Timeouts.ack (timeouts options) <? 1 then
    InvalidOptions "The ACK timeout must be positive!"
  else if Timeouts.byte (timeouts options) <? 1 then
    InvalidOptions "The BYTE timeout must be positive!"
  else if (Timeouts.response (timeouts options) <? 500)
          || (Timeouts.response (timeouts options) >? 20000) then
    InvalidOptions "The Response timeout must be between 500 and 20000 milliseconds!"
  else if (Timeouts.report (timeouts options) <? 500)
          || (Timeouts.report (timeouts options) >? 10000) then
    InvalidOptions "The Report timeout must be between 500 and 10000 milliseconds!"
  else if (Timeouts.nonce (timeouts options) <? 3000)
          || (Timeouts.nonce (timeouts options) >? 20000) then
    InvalidOptions "The Nonce timeout must be between 3000 and 20000 milliseconds!"
  else if Timeouts.sendDataCallback (timeouts options) <? 10000 then
    InvalidOptions "The Send Data Callback timeout must be at least 10000 milliseconds!"
  else if (Timeouts.serialAPIStarted (timeouts options) <? 1000)
          || (Timeouts.serialAPIStarted (timeouts options) >? 30000) then
    InvalidOptions
      "The Serial API started timeout must be between 1000 and 30000 milliseconds!"
  else
    match match securityKeys options with
          | Some keys => checkSecurityKeys keys 0 keys
          | None => Return tt
          end with
    | Throw e => Throw e
    | Return _ =>
        if (Attempts.controller (attempts options) <? 1)
           || (Attempts.controller (attempts options) >? 3) then
          InvalidOptions "The Controller attempts must be between 1 and 3!"
        else if (Attempts.sendData (attempts options) <? 1)
                || (Attempts.sendData (attempts options) >? MAX_SEND_ATTEMPTS) then
          InvalidOptions ("The SendData attempts must be between 1 and "
                          +:+ pretty MAX_SEND_ATTEMPTS +:+ "!")
        else if (Attempts.nodeInterview (attempts options) <? 1)
                || (Attempts.nodeInterview (attempts options) >? 10) then
          InvalidOptions "The Node interview attempts must be between 1 and 10!"
        else
          match inclusionUserCallbacks options with
          | Falsy => Return tt
          | NotAnObject => InvalidOptions "The inclusionUserCallbacks must be an object!"
          | CallbacksObject grantSecurityClasses validateDSKAndEnterPIN abort =>
              if negb grantSecurityClasses || negb validateDSKAndEnterPIN || negb abort
              then InvalidOptions
                     "The inclusionUserCallbacks must contain the following functions: grantSecurityClasses, validateDSKAndEnterPIN, abort!"
              else Return tt
          end
    end.
End CheckOptions.

(** The timeouts and attempts of [defaultOptions]. *)
Definition defaultTimeouts : Timeouts.t :=
  Timeouts.mk 1000 150 10000 1000 5000 65000 5000 1000 5000.

Definition defaultAttempts : Attempts.t := Attempts.mk 10 3 3 5.

Definition defaultOptions : ZWaveOptions :=
  mkOptions defaultTimeouts defaultAttempts true None "cache" normal Falsy.

(** ** Sending: the part of [sendMessage] up to the queueing *)

Module SendMessageOptions.
Record t : Set := mk {
  priority : option MessagePriority.t;
  supportCheck : option bool;
  changeNodeStatusOnMissingACK : option bool;
  pauseSendThread : option bool;
  requestWakeUpOnDemand : option bool;
  tag : option string;
  expire : option Z;
}.
End SendMessageOptions.

Section SendMessage.
(** [node.ping()] belongs to [node/Node.ts], which is not part of the
    sources at hand: whether the node with this id answers the ping. *)
Variable ping : Z -> bool.

(** The first part of [sendMessage], after [ensureReady]: the node that
    the message is for, if any, behind the guard for dead nodes. *)
Definition sendMessage_guard (msg : Message) (d : Driver)
  : Driver * Completion (option ZWaveNode) :=
  (* Don't send messages to dead nodes *)
  if isNodeQuery msg || isCommandClassContainer msg then
    match getNodeUnsafe msg d with
    | Throw e => (d, Throw e)
    | Return node =>
        match node with
        | Some n =>
            if negb (messageIsPing msg) && bool_decide (status n = NodeStatus.Dead)
            then
              (* Instead of throwing immediately, try to ping the node
                 first - if it responds, continue *)
              let d := perform (NodePing (id n)) d in
              if negb (ping (id n)) then
                (d, Throw (ZWaveError
                             ("The message cannot be sent because node "
                              +:+ pretty (id n) +:+ " is dead")
                             ZWaveErrorCodes.Controller_MessageDropped))
              else (d, Return node)
            else (d, Return node)
        | None => (d, Return node)
        end
    end
  else (d, Return None).

(** The second part of [sendMessage]: priority, support check, wake-up
    queue, and the queueing of the transaction. A new [Transaction]
    ([Transaction.ts] is not part of the sources at hand) is taken to
    change the node status on a timeout and not to pause the send thread
    unless the options say otherwise. *)
Definition sendMessage_queue (msg : Message) (options : SendMessageOptions.t)
    (node : option ZWaveNode) (d : Driver) : Driver * Completion Transaction :=
  let priority :=
    match SendMessageOptions.priority options with
    | Some p => Some p
    | None => getDefaultPriority msg
    end in
  match priority with
  | None =>
      (d, Throw (ZWaveError
                   "No default priority has been defined, so you have to provide one for your message"
                   ZWaveErrorCodes.Driver_NoPriority))
  | Some priority =>
      let supportCheck := default true (SendMessageOptions.supportCheck options) in
      if supportCheck
         && match _controller d with
            | Some c => negb (isFunctionSupported (functionType msg) c)
            | None => false
            end
      then (d, Throw (ZWaveError "Your hardware does not support the function"
                                 ZWaveErrorCodes.Driver_NotSupported))
      else
        (* When sending a message to a node that is known to be sleeping,
           the priority must be WakeUp, so the message gets deprioritized
           in comparison with messages to awake nodes. However there are a
           few exceptions... *)
        let '(priority, tag) :=
          if match node with
             | Some n =>
                 negb (messageIsPing msg)
                 && canSleep n
                 && (supportsCC CommandClasses.WakeUp n
                     || InterviewStage.ltb (interviewStage n) InterviewStage.NodeInfo)
             | None => false
             end
             && negb (bool_decide (msgClass msg = SendDataMulticastRequest))
             && negb (bool_decide (msgClass msg = SendDataMulticastBridgeRequest))
             && negb (bool_decide (priority = MessagePriority.Nonce))
             && negb (bool_decide (priority = MessagePriority.Supervision))
          then
            (MessagePriority.WakeUp,
             if bool_decide (priority = MessagePriority.NodeQuery)
             (* Remember that this transaction was part of an interview *)
             then Some "interview"
             else SendMessageOptions.tag options)
          else (priority, SendMessageOptions.tag options) in
        (* Create the transaction and configure its options *)
        let transaction :=
          mkTransaction msg priority tag
            (default true (SendMessageOptions.changeNodeStatusOnMissingACK options))
            (bool_decide (SendMessageOptions.pauseSendThread options = Some true))
            (default false (SendMessageOptions.requestWakeUpOnDemand options)) in
        (* And queue it *)
        let d := sendThread_send_add transaction d in
        (* If the transaction should expire, start the timeout *)
        let d :=
          match SendMessageOptions.expire options with
          | Some ms =>
              if ms =? 0 then d
              else perform (SetExpirationTimeout transaction ms) d
          | None => d
          end in
        (d, Return transaction)
  end.

(** Sends a message to the Z-Wave stick: the driver when the message has
    been queued or the call has thrown, and the transaction queued or the
    error thrown. What follows the queueing awaits the result of the
    transaction and belongs to the send thread. *)
Definition sendMessage (msg : Message) (options : SendMessageOptions.t)
    (d : Driver) : Driver * Completion Transaction :=
  match ensureReady d with
  | Throw e => (d, Throw e)
  | Return _ =>
      match sendMessage_guard msg d with
      | (d, Throw e) => (d, Throw e)
      | (d, Return node) => sendMessage_queue msg options node d
      end
  end.
End SendMessage.

(** ** Waiting for a device after a firmware update *)

(** [getConservativeWaitTimeAfterFirmwareUpdate(advertisedWaitTime)]: the
    time in seconds to actually wait after a firmware upgrade;
    [!advertisedWaitTime] holds for [undefined] and for [0]. *)
Definition getConservativeWaitTimeAfterFirmwareUpdate
    (advertisedWaitTime : option Z) : Z :=
  match advertisedWaitTime with
  | None => 5
  | Some advertisedWaitTime =>
      (* Wait at least 5 seconds *)
      if advertisedWaitTime =? 0 then 5
      else if advertisedWaitTime <? 20 then advertisedWaitTime + 5
      else if advertisedWaitTime <? 60 then advertisedWaitTime + 10
      else advertisedWaitTime + 30
  end.

(** ** Opening the serial port: [openSerialport] *)

(** What [openSerialport] does, in program order. *)
Inductive SerialportStep : Type :=
| SerialOpen
| Wait (ms : Z)
| SerialportLog (entry : LogEntry).

Section OpenSerialport.

(** [await this.serial.open()] at the given call, counted from 1: the error
    it rejects with, if it does. *)
Variable serial_open : Z -> option Error.

(** [getErrorMessage] of [@zwave-js/shared], which is not part of the
    sources at hand. *)
Variable getErrorMessage : option Error -> string.

(** The [for] loop from [attempt] on; [fuel] bounds the number of rounds.
    The result tells whether the function returned from inside the loop, and
    [lastError]. *)
Fixpoint openSerialport_loop (openSerialPort : Z) (fuel : nat) (attempt : Z)
    (lastError : option Error) : bool * option Error * list SerialportStep :=
  match fuel with
  | O => (false, lastError, [])
  | S fuel =>
      if attempt <=? openSerialPort then
        match serial_open attempt with
        | None => (true, lastError, [SerialOpen])
        | Some e =>
            let lastError := Some e in
            let waiting :=
              if attempt <? openSerialPort then [Wait 1000] else [] in
            let '(returned, lastError, steps) :=
              openSerialport_loop openSerialPort fuel (attempt + 1) lastError in
            (returned, lastError, SerialOpen :: waiting ++ steps)
        end
      else (false, lastError, [])
  end.

(** [openSerialport()] with [this.options.attempts.openSerialPort] given;
    the loop makes at most that many rounds. *)
Definition openSerialport (openSerialPort : Z)
  : Completion unit * list SerialportStep :=
  let '(returned, lastError, steps) :=
    openSerialport_loop openSerialPort (Z.to_nat openSerialPort) 1 None in
  if returned : bool then (Return tt, steps)
  else
    let message :=
      "Failed to open the serial port: " +:+ getErrorMessage lastError in
    (Throw (ZWaveError message ZWaveErrorCodes.Driver_Failed),
     steps ++ [SerialportLog (DriverPrint message LError)]).

End OpenSerialport.

(** ** Request handlers *)

(** A registered handler: [invoke] is the callback, an object with an
    identity, and [oneTime] tells whether it is removed after its first
    successful invocation. *)
Record RequestHandlerEntry : Set := mkRequestHandlerEntry {
  invoke : nat;
  oneTime : bool;
}.

(** An entry of [this.awaitedMessages]: its promise, an object with an
    identity, and its predicate. *)
Record AwaitedMessageEntry : Type := mkAwaitedMessageEntry {
  awaitedMessageId : nat;
  awaitedMessagePredicate : Message -> bool;
}.

(** What registering handlers and handling a request do besides changing
    the registry; the methods of nodes and of the controller belong to
    [Node.ts] and [Controller.ts], which are not part of the sources at
    hand. *)
Inductive HandlerStep : Type :=
| HandlerLog (entry : LogEntry)
| Invoke (handler : nat) (msg : Message)
(* [node.markAsAlive()] *)
| RequestMarkAsAlive (nodeId : Z)
(* [entry.promise.resolve(msg)] *)
| ResolveAwaitedMessage (entry : nat) (msg : Message)
(* [this.controllerLog.logNode(msg.getNodeId()!, ...)] *)
| HandlerLogNode (nodeId : option Z) (message : string) (level : LogLevel)
(* [msgExpectingUpdate.prematureNodeUpdate = msg] *)
| RememberPrematureNodeUpdate (msgExpectingUpdate msg : Message)
(* [node.securityClasses.set(SecurityClass.S0_Legacy, true)] *)
| AssumeS0 (nodeId : Z)
(* [void node.refreshInfo()] *)
| RefreshInfo (nodeId : Z)
(* [this.controller.handleApplicationUpdateRequest(msg)] *)
| HandleApplicationUpdateRequest (msg : Message).

(** [this.requestHandlers] together with the trace of what was done. *)
Record RequestHandlers : Type := mkRequestHandlers {
  requestHandlers : gmap Z (list RequestHandlerEntry);
  handlerSteps : list HandlerStep;
}.

Section RequestHandlers.

(** [FunctionType[fnType]] and [num2hex], for the log lines. *)
Variable FunctionType_name : Z -> string.
Variable num2hex : Z -> string.

(** What the callback answers for a message, after awaiting it; callbacks
    that throw, or that register or unregister handlers themselves, are
    outside the model. *)
Variable handlerResult : nat -> Message -> bool.

Definition registerRequestHandler (fnType : Z) (handler : nat) (oneTime : bool)
    (d : RequestHandlers) : RequestHandlers :=
  let handlers := default [] (requestHandlers d !! fnType) in
  let entry := mkRequestHandlerEntry handler oneTime in
  let handlers := handlers ++ [entry] in
  mkRequestHandlers
    (<[fnType := handlers]> (requestHandlers d))
    (handlerSteps d ++
     [HandlerLog (DriverPrint
        ("added" +:+ (if oneTime then " one-time" else "")
         +:+ " request handler for " +:+ FunctionType_name fnType
         +:+ " (" +:+ num2hex fnType +:+ ")...
" +:+ pretty (length handlers) +:+ " registered") LInfo)]).

(** The [for] loop of [unregisterRequestHandler]: [entry] is initialised
    with [handlers[i]] where [i] is declared, before the first round, and
    is not assigned again. *)
Fixpoint unregisterRequestHandler_loop (handler : nat)
    (entry : option RequestHandlerEntry) (fuel : nat) (i : nat)
    (handlers : list RequestHandlerEntry) : list RequestHandlerEntry :=
  match fuel with
  | O => handlers
  | S fuel =>
      if (i <? length handlers)%nat then
        (* remove the handler if it was found *)
        if bool_decide (invoke <$> entry = Some handler)
        then delete i handlers
        else unregisterRequestHandler_loop handler entry fuel (S i) handlers
      else handlers
  end.

Definition unregisterRequestHandler (fnType : Z) (handler : nat)
    (d : RequestHandlers) : RequestHandlers :=
  let handlers := default [] (requestHandlers d !! fnType) in
  let handlers :=
    unregisterRequestHandler_loop handler (handlers !! 0%nat) (length handlers)
                                  0%nat handlers in
  mkRequestHandlers
    (<[fnType := handlers]> (requestHandlers d))
    (handlerSteps d ++
     [HandlerLog (DriverPrint
        ("removed request handler for " +:+ FunctionType_name fnType
         +:+ " (" +:+ pretty fnType +:+ ")...
" +:+ pretty (length handlers) +:+ " left") LInfo)]).

(** The loop of [handleRequest] through all handlers, from index [i] on:
    the handlers afterwards and what was done. *)
Fixpoint invokeHandlers (msg : Message) (fuel : nat) (i : nat)
    (handlers : list RequestHandlerEntry)
  : list RequestHandlerEntry * list HandlerStep :=
  match fuel with
  | O => (handlers, [])
  | S fuel =>
      match handlers !! i with
      | None => (handlers, [])
      | Some handler =>
          let invoking :=
            [HandlerLog (DriverPrint ("  invoking handler #" +:+ pretty i) LInfo);
             Invoke (invoke handler) msg] in
          if handlerResult (invoke handler) msg then
            let handled :=
              [HandlerLog (DriverPrint "    the message was handled" LInfo)] in
            if oneTime handler then
              (delete i handlers,
               invoking ++ handled ++
               [HandlerLog (DriverPrint
                  "  one-time handler was successfully called, removing it..."
                  LInfo)])
            else
              (* don't invoke any more handlers *)
              (handlers, invoking ++ handled)
          else
            let '(handlers, steps) := invokeHandlers msg fuel (S i) handlers in
            (handlers, invoking ++ steps)
      end
  end.

(** The last branch of [handleRequest], where [handleRequest] below
    arrives with a request that no waiter has taken and that is neither an
    application command nor an application update: the [else] that looks
    up the handlers for the function type, and the loop through them. *)
Definition handleRequest_handlers (msg : Message) (d : RequestHandlers)
  : RequestHandlers :=
  let d :=
    mkRequestHandlers (requestHandlers d)
      (handlerSteps d ++
       [HandlerLog (DriverPrint
          ("handling request " +:+ FunctionType_name (functionType msg)
           +:+ " (" +:+ pretty (functionType msg) +:+ ")") LInfo)]) in
  match requestHandlers d !! functionType msg with
  | Some ((_ :: _) as handlers) =>
      let registered :=
        HandlerLog (DriverPrint
          ("  " +:+ pretty (length handlers) +:+ " handler"
           +:+ (if bool_decide (length handlers <> 1%nat) then "s" else "")
           +:+ " registered!") LInfo) in
      let '(handlers', steps) := invokeHandlers msg (length handlers) 0%nat handlers in
      mkRequestHandlers
        (<[functionType msg := handlers']> (requestHandlers d))
        (handlerSteps d ++ registered :: steps)
  | _ =>
      mkRequestHandlers (requestHandlers d)
        (handlerSteps d ++
         [HandlerLog (DriverPrint "  no handlers registered!" LWarn)])
  end.

(** From [Transaction.ts] and [Message.ts]: the message that a transaction
    is sending at the moment, if any, whether a sent message expects a node
    update, and whether a received message is that update. *)
Variable getCurrentMessage : Transaction -> option Message.
Variable expectsNodeUpdate : Message -> bool.
Variable isExpectedNodeUpdate : Message -> Message -> bool.

(** From [Node.ts]: [node.isSecure], which is [true], [false] or unknown.
    From [@zwave-js/cc]: [isEncapsulatedWith], which follows the references
    from a command to the wrappers that it was taken out of; a command of
    the model holds no such reference, so the function is given the command
    as it was received as well, out of which [unwrapCommands] took the
    command that it asks about. *)
Variable isSecure : ZWaveNode -> option bool.
Variable isEncapsulatedWith :
  CommandClass -> CommandClass -> CommandClasses.t -> bool.

(** [msg instanceof ApplicationUpdateRequest], a class of
    [ApplicationUpdateRequest.ts]. *)
Variable isApplicationUpdateRequest : Message -> bool.

Definition addSteps (steps : list HandlerStep) (d : RequestHandlers)
  : RequestHandlers :=
  mkRequestHandlers (requestHandlers d) (handlerSteps d ++ steps).

(** How [handleRequest] ends: it returns, or it is in its branch for
    application commands, which [handleRequest_applicationCommand] embeds,
    with the command that the message holds then. *)
Inductive RequestOutcome : Type :=
| RequestReturned (d : RequestHandlers)
| RequestForNode (command : CommandClass) (d : RequestHandlers).

(** Is called when a Request-type message was received.
    [_controllerInterviewed] is the driver's field of that name,
    [awaitedMessages] are the entries of [this.awaitedMessages], and
    [driver] is read only. *)
Definition handleRequest (_controllerInterviewed : bool)
    (awaitedMessages : list AwaitedMessageEntry) (msg : Message)
    (driver : Driver) (d : RequestHandlers) : Completion RequestOutcome :=
  match (if isNodeQuery msg || isCommandClassContainer msg
         then getNodeUnsafe msg driver else Return None) with
  | Throw e => Throw e
  | Return node =>
      let d :=
        match node with
        | Some node =>
            (* We have received an unsolicited message from a dead node,
               bring it back to life *)
            if bool_decide (status node = NodeStatus.Dead)
            then addSteps [RequestMarkAsAlive (id node)] d
            else d
        | None => d
        end in
      (* Check if we have a dynamic handler waiting for this message *)
      match List.find (fun entry => awaitedMessagePredicate entry msg)
                      awaitedMessages with
      | Some entry =>
          (* resolve the promise - this will remove the entry from the list *)
          Return (RequestReturned
                    (addSteps [ResolveAwaitedMessage (awaitedMessageId entry) msg] d))
      | None =>
          (* It could also be that this is the node's response for a CC that
             we sent, but where the ACK is delayed *)
          let msgExpectingUpdate :=
            if isCommandClassContainer msg then
              let pendingMessages :=
                omap getCurrentMessage (activeTransactions (sendThread driver)) in
              List.find (fun sentMsg => expectsNodeUpdate sentMsg
                                        && isExpectedNodeUpdate sentMsg msg)
                        pendingMessages
            else None in
          match msgExpectingUpdate with
          | Some msgExpectingUpdate =>
              (* Found a message that is still in progress but expects this
                 message in response. Remember the message there. *)
              Return (RequestReturned
                        (addSteps
                           [HandlerLogNode (getNodeId msg)
                              "received expected response prematurely, remembering it..."
                              LVerbose;
                            RememberPrematureNodeUpdate msgExpectingUpdate msg] d))
          | None =>
              let unwrapped : Completion (Message * RequestHandlers) :=
                match command msg with
                | Some received =>
                    (* For further actions, we are only interested in the
                       innermost CC *)
                    let '(msg, log) := unwrapCommands msg in
                    let d := addSteps (map HandlerLog log) d in
                    match getNodeUnsafe msg driver with
                    | Throw e => Throw e
                    | Return node =>
                        (* If we receive an encrypted message but assume the
                           node is insecure, change our assumption *)
                        Return
                          (msg,
                           match node, command msg with
                           | Some node, Some command =>
                               if bool_decide (isSecure node = Some false)
                                  && (bool_decide (ccId (fields command)
                                                   = CommandClasses.Security)
                                      || isEncapsulatedWith received command
                                           CommandClasses.Security)
                               then
                                 (* Force a new interview *)
                                 addSteps [AssumeS0 (id node); RefreshInfo (id node)] d
                               else d
                           | _, _ => d
                           end)
                    end
                | None => Return (msg, d)
                end in
              match unwrapped with
              | Throw e => Throw e
              | Return (msg, d) =>
                  (* Otherwise go through the static handlers *)
                  if bool_decide (msgClass msg = ApplicationCommandRequest)
                     || bool_decide (msgClass msg = BridgeApplicationCommandRequest)
                  then
                    (* we handle ApplicationCommandRequests differently
                       because they are handled by the nodes directly *)
                    match command msg with
                    | Some command => Return (RequestForNode command d)
                    | None =>
                        (* [msg.command.nodeId] of a request without a
                           command *)
                        Throw (OtherError
                                 "Cannot read properties of undefined (reading 'nodeId')")
                    end
                  else if isApplicationUpdateRequest msg then
                    (* Make sure we're ready to handle this command *)
                    match ensureReady driver with
                    | Throw e => Throw e
                    | Return _ =>
                        if negb _controllerInterviewed then
                          Throw (ZWaveError "The controller is not ready yet"
                                            ZWaveErrorCodes.Driver_NotReady)
                        else
                          match controller driver with
                          | Throw e => Throw e
                          | Return _ =>
                              Return (RequestReturned
                                        (addSteps [HandleApplicationUpdateRequest msg] d))
                          end
                    end
                  else Return (RequestReturned (handleRequest_handlers msg d))
              end
          end
      end
  end.

End RequestHandlers.


(** ** Commands that must be secure: [shouldDiscardCC] *)

(** [SecurityClass] of [@zwave-js/core], which is not part of the sources at
    hand; the driver names [None], [Temporary] and [S0_Legacy]. *)
Module SecurityClass.
Inductive t : Set :=
| Temporary
| None
| S2_Unauthenticated
| S2_Authenticated
| S2_AccessControl
| S0_Legacy.

#[global] Instance eq_dec : EqDecision t.
Proof. solve_decision. Defined.
End SecurityClass.

Section ShouldDiscardCC.

(** [node.getHighestSecurityClass()] and [node.isCCSecure(ccId)] of
    [Node.ts], which is not part of the sources at hand. *)
Variable getHighestSecurityClass : ZWaveNode -> option SecurityClass.t.
Variable node_isCCSecure : ZWaveNode -> CommandClasses.t -> bool.

(** The [while (true)] loop of [shouldDiscardCC]: [isSecure],
    [requiresSecurity] and [cc] when it breaks. *)
Fixpoint shouldDiscardCC_loop (node : ZWaveNode) (isSecure : bool)
    (cc : CommandClass) : bool * bool * CommandClass :=
  match cc with
  | Encapsulating f encapsulated =>
      let isSecure :=
        if bool_decide (ccId f = CommandClasses.Security)
           || bool_decide (ccId f = CommandClasses.Security2)
        then true else isSecure in
      shouldDiscardCC_loop node isSecure encapsulated
  | MultiEncapsulating f encapsulated =>
      (isSecure,
       existsb (fun cmd => node_isCCSecure node (ccId (fields cmd))) encapsulated,
       cc)
  | Leaf f =>
      (isSecure,
       node_isCCSecure node (ccId f)
       && negb (bool_decide (ccId f = CommandClasses.Security))
       && negb (bool_decide (ccId f = CommandClasses.Security2)),
       cc)
  end.

(** Checks whether a CC may be handled or should be ignored. *)
Definition shouldDiscardCC (cc : CommandClass) (d : Driver)
  : Completion (bool * Driver) :=
  match controller d with
  | Throw e => Throw e
  | Return c =>
      match nodes c !! nodeId (fields cc) with
      | None =>
          (* Node does not exist, don't accept the CC *)
          Return (true,
                  perform (Log (ControllerLogNode (nodeId (fields cc))
                                  "is unknown - discarding received command..."
                                  LWarn)) d)
      | Some node =>
          match getHighestSecurityClass node with
          | Some SecurityClass.None | Some SecurityClass.Temporary =>
              Return (false, d)
          | _ =>
              let '(isSecure, requiresSecurity, cc) :=
                shouldDiscardCC_loop node false cc in
              if requiresSecurity && negb isSecure then
                (* none found, don't accept the CC *)
                Return (true,
                        perform (Log (ControllerLogNode (nodeId (fields cc))
                                        "command must be encrypted but was received without Security encapsulation - discarding it..."
                                        LWarn)) d)
              else Return (false, d)
          end
      end
  end.

End ShouldDiscardCC.

(** ** Encapsulation: [encapsulateCommands] *)

Section EncapsulateCommands.

(** The static methods [requiresEncapsulation] and [encapsulate] of the
    encapsulating command classes of [@zwave-js/cc], which is not part of
    the sources at hand. *)
Variables SupervisionCC_requiresEncapsulation MultiChannelCC_requiresEncapsulation
  CRC16CC_requiresEncapsulation Security2CC_requiresEncapsulation
  SecurityCC_requiresEncapsulation : CommandClass -> bool.
Variables SupervisionCC_encapsulate MultiChannelCC_encapsulate CRC16CC_encapsulate
  Security2CC_encapsulate SecurityCC_encapsulate : CommandClass -> CommandClass.

(** [command.getNode(this)] and [node.getHighestSecurityClass()]. *)
Variable getNode : CommandClass -> option ZWaveNode.
Variable getHighestSecurityClass : ZWaveNode -> option SecurityClass.t.

(** What [encapsulateCommands(msg)] assigns to [msg.command]. *)
Definition encapsulateCommand (command : CommandClass) (d : Driver)
  : CommandClass :=
  (* 3. *)
  let command :=
    if SupervisionCC_requiresEncapsulation command
    then SupervisionCC_encapsulate command else command in
  (* 4. *)
  let command :=
    if MultiChannelCC_requiresEncapsulation command
    then MultiChannelCC_encapsulate command else command in
  (* 5. *)
  if CRC16CC_requiresEncapsulation command then CRC16CC_encapsulate command
  else
    (* When a node supports S2 and has a valid security class, the command
       must be S2-encapsulated *)
    let command :=
      match getNode command with
      | Some node =>
          if supportsCC CommandClasses.Security2 node then
            let securityClass := getHighestSecurityClass node in
            if (bool_decide (securityClass <> None
                             /\ securityClass <> Some SecurityClass.S0_Legacy)
                || match _securityManager2 d with
                   | Some sm => bool_decide (id node ∈ tempKeys sm)
                   | None => false
                   end)
               && Security2CC_requiresEncapsulation command
            then Security2CC_encapsulate command
            else command
          else command
      | None => command
      end in
    if SecurityCC_requiresEncapsulation command
    then SecurityCC_encapsulate command else command.

Definition encapsulateCommands (msg : Message) (d : Driver) : Message :=
  match command msg with
  | Some c => setCommand (encapsulateCommand c d) msg
  | None => msg
  end.

End EncapsulateCommands.


(** ** The network cache: [cacheGet], [cacheSet], [cachePurge] *)

Section NetworkCache.

(** The values of the cache, raw or revived. *)
Variable V : Type.

(** [this._networkCache], a database from keys to values. *)
Definition NetworkCache : Type := option (gmap string V).

(** The [networkCache] getter throws while there is no cache. *)
Definition networkCache (_networkCache : NetworkCache)
  : Completion (gmap string V) :=
  match _networkCache with
  | Some db => Return db
  | None => Throw (ZWaveError "The network cache was not yet initialized!"
                              ZWaveErrorCodes.Driver_NotReady)
  end.

(** Helper function to read and convert potentially existing values from the
    network cache; [reviver] is [options?.reviver] when that is a function,
    and may throw or answer [undefined]. *)
Definition cacheGet (cacheKey : string)
    (reviver : option (V -> Completion (option V))) (_networkCache : NetworkCache)
  : Completion (option V) :=
  match networkCache _networkCache with
  | Throw e => Throw e
  | Return db =>
      let ret := db !! cacheKey in
      match ret, reviver with
      | Some value, Some reviver =>
          match reviver value with
          | Return ret => Return ret
          | Throw _ => (* ignore, invalid entry *) Return ret
          end
      | _, _ => Return ret
      end
  end.

(** Helper function to convert values and write them to the network cache;
    [serializer] is [options?.serializer] when that is a function. *)
Definition cacheSet (cacheKey : string) (value : option V)
    (serializer : option (V -> Completion (option V)))
    (_networkCache : NetworkCache) : Completion NetworkCache :=
  let value :=
    match value, serializer with
    | Some v, Some serializer => serializer v
    | _, _ => Return value
    end in
  match value with
  | Throw e => Throw e
  | Return None =>
      match networkCache _networkCache with
      | Throw e => Throw e
      | Return db => Return (Some (delete cacheKey db))
      end
  | Return (Some value) =>
      match networkCache _networkCache with
      | Throw e => Throw e
      | Return db => Return (Some (<[cacheKey := value]> db))
      end
  end.

(** [this.networkCache.keys()] *)
Definition networkCache_keys (db : gmap string V) : list string :=
  (map_to_list db).*1.

Definition cachePurge (prefix : string) (_networkCache : NetworkCache)
  : Completion NetworkCache :=
  match networkCache _networkCache with
  | Throw e => Throw e
  | Return db =>
      Return (Some (fold_left
                      (fun db key =>
                         if String.prefix prefix key then delete key db else db)
                      (networkCache_keys db) db))
  end.

End NetworkCache.

Arguments networkCache {V}.
Arguments cacheGet {V}.
Arguments cacheSet {V}.
Arguments cachePurge {V}.
Arguments networkCache_keys {V}.

(** ** Command class versions *)

Section CCVersions.

(** Endpoints and the version queries of [Node.ts] and [Endpoint.ts], and
    [getImplementedVersion] of [@zwave-js/cc], which are not part of the
    sources at hand. *)
Variable Endpoint : Type.
Variable node_getEndpoint : ZWaveNode -> Z -> option Endpoint.
Variable endpoint_getCCVersion : Endpoint -> CommandClasses.t -> Z.
Variable node_getCCVersion : ZWaveNode -> CommandClasses.t -> Z.
Variable getImplementedVersion : CommandClasses.t -> JSNumber.

(** Retrieves the maximum version of a command class the given endpoint
    supports. *)
Definition getSupportedCCVersionForEndpoint (cc : CommandClasses.t)
    (nodeId endpointIndex : Z) (d : Driver) : Z :=
  match _controller d with
  | None => 0
  | Some c =>
      match nodes c !! nodeId with
      | None => 0
      | Some node =>
          match node_getEndpoint node endpointIndex with
          | Some endpoint => endpoint_getCCVersion endpoint cc
          | None =>
              (* fall back to the root endpoint *)
              node_getCCVersion node cc
          end
      end
  end.

(** [Math.min] of an integer and a number. *)
Definition Math_min (a : Z) (b : JSNumber) : JSNumber :=
  match b with
  | Num b => Num (Z.min a b)
  | Infinity => Num a
  | NaN => NaN
  end.

(** Retrieves the maximum version of a command class that can be used to
    communicate with a node. *)
Definition getSafeCCVersionForNode (cc : CommandClasses.t)
    (nodeId endpointIndex : Z) (d : Driver) : Completion JSNumber :=
  let supportedVersion :=
    getSupportedCCVersionForEndpoint cc nodeId endpointIndex d in
  let notImplemented :=
    Throw (ZWaveError "Cannot retrieve the version of a CC that is not implemented"
                      ZWaveErrorCodes.CC_NotSupported) in
  if supportedVersion =? 0 then
    (* Unknown, use the highest implemented version *)
    let implementedVersion := getImplementedVersion cc in
    match implementedVersion with
    | Num 0 | Infinity => notImplemented
    | _ => Return implementedVersion
    end
  else
    (* For supported versions find the maximum version supported by both
       the node and this library *)
    let implementedVersion := getImplementedVersion cc in
    match implementedVersion with
    | Num 0 | Infinity => notImplemented
    | _ => Return (Math_min supportedVersion implementedVersion)
    end.

End CCVersions.

Arguments getSupportedCCVersionForEndpoint {Endpoint}.
Arguments getSafeCCVersionForNode {Endpoint}.


(** ** Results of Serial API commands *)

(** Function types of [@zwave-js/serial] that the driver names when it
    looks at a result. *)
Definition FunctionType_ApplicationCommand : Z := 0x04.
Definition FunctionType_SendDataMulticast : Z := 0x14.
Definition FunctionType_BridgeApplicationCommand : Z := 0xa8.
Definition FunctionType_SendDataBridge : Z := 0xa9.
Definition FunctionType_SendDataMulticastBridge : Z := 0xab.

(** What the driver asks of a node, of the controller or of the caller
    while it settles a transaction; the methods belong to [Node.ts] and
    [Controller.ts], which are not part of the sources at hand. *)
Inductive SettleStep : Type :=
| NodeIncrementStatistics (nodeId : Z) (counter : string)
| NodeUpdateRTT (nodeId : Z) (msg : Message)
| OnTXReport (result : Message)
| NodeUpdateRouteStatistics (nodeId : Z) (result : Message)
| SetImmediateDebounceSendNodeToSleep (nodeId : Z)
| NodeMarkAsAwake (nodeId : Z)
| NodeMarkAsAlive (nodeId : Z)
| ControllerIncrementStatistics (counter : string)
| ClearExpirationTimeout.

(** [e.context] of a [ZWaveError]: a message, or something else. *)
Inductive ErrorContext : Type :=
| ContextMessage (msg : Message)
| ContextOther (text : string).

(** An error with which the promise of a transaction rejects: the error,
    its [context] and its [transactionSource]. *)
Record TransactionError : Type := mkTransactionError {
  thrown : Error;
  context : option ErrorContext;
  transactionSource : option string;
}.

Section SettleTransaction.

(** The type guards and result methods of [@zwave-js/serial]; [undefined]
    passes none of the guards. *)
Variable isTransmitReport : Message -> bool.
Variable hasTXReport : Message -> bool.
Variable isSendDataTransmitReport : Message -> bool.
Variable isSuccessIndicator : Message -> bool.
Variable isOK : Message -> bool.

(** Gets called whenever any Serial API command succeeded or a SendData
    command had a negative callback; [onTXReport] tells whether the options
    have the callback. *)
Definition handleSerialAPICommandResult (msg : Message)
    (priority : MessagePriority.t) (onTXReport : bool) (result : option Message)
    (d : Driver) : Completion (list SettleStep) :=
  (* Update statistics *)
  match getNodeUnsafe msg d with
  | Throw e => Throw e
  | Return node =>
      if isSendData msg || isNodeQuery msg then
        match node with
        | None => (* This shouldn't happen, but just in case *) Return []
        | Some node =>
            let success :=
              match result with
              | Some report => negb (isTransmitReport report && negb (isOK report))
              | None => true
              end in
            (* If this is a transmit report, use it to update statistics *)
            let statistics :=
              match result with
              | Some report =>
                  if isTransmitReport report then
                    (if negb (isOK report)
                     then [NodeIncrementStatistics (id node) "commandsDroppedTX"]
                     else [NodeIncrementStatistics (id node) "commandsTX";
                           NodeUpdateRTT (id node) msg])
                    ++
                    (* Notify listeners about the status report if one was
                       received *)
                    (if hasTXReport report
                     then (if onTXReport then [OnTXReport report] else [])
                          ++ [NodeUpdateRouteStatistics (id node) report]
                     else [])
                  else []
              | None => []
              end in
            (* Track and potentially update the status of the node when
               communication succeeds *)
            let tracking :=
              if success then
                if canSleep node then
                  (* Do not update the node status when we only responded
                     to a nonce request *)
                  if negb (bool_decide (priority = MessagePriority.Nonce))
                     && negb (bool_decide (priority = MessagePriority.Supervision))
                  then
                    (* If the node is not meant to be kept awake, try to
                       send it back to sleep *)
                    (if negb (keepAwake node)
                     then [SetImmediateDebounceSendNodeToSleep (id node)]
                     else [])
                    (* The node must be awake because it answered *)
                    ++ [NodeMarkAsAwake (id node)]
                  else []
                else if negb (bool_decide (status node = NodeStatus.Alive))
                then
                  (* The node status was unknown or dead - in either case
                     it must be alive because it answered *)
                  [NodeMarkAsAlive (id node)]
                else []
              else [] in
            Return (statistics ++ tracking)
        end
      else
        Return (match _controller d with
                | Some _ => [ControllerIncrementStatistics "messagesTX"]
                | None => []
                end)
  end.

(** [sendMessage] from the point where the promise of the transaction
    settles, with [result] or with an error: what the call returns or
    throws, and what it does before. [stack] is the stack of the
    transaction and [expirationTimeout] tells whether the transaction had
    one. *)
Definition sendMessage_settle (msg : Message) (priority : MessagePriority.t)
    (node : option ZWaveNode) (stack : string) (expirationTimeout : bool)
    (settled : option Message + TransactionError) (d : Driver)
  : (option Message + TransactionError) * list SettleStep :=
  let finally :=
    (* The transaction was handled, so it can no longer expire *)
    if expirationTimeout then [ClearExpirationTimeout] else [] in
  match settled with
  | inl result =>
      (* If this was a successful non-nonce message to a sleeping node, make
         sure it goes to sleep again *)
      let maybeSendToSleep :=
        if isSendData msg then
          (* For SendData messages, make sure the message is not a nonce *)
          negb (bool_decide (priority = MessagePriority.Nonce))
          && negb (bool_decide (priority = MessagePriority.Supervision))
          (* And that the result is either a response from the node or a
             transmit report indicating success *)
          && match result with
             | Some result =>
                 bool_decide (functionType result
                              = FunctionType_BridgeApplicationCommand)
                 || bool_decide (functionType result
                                 = FunctionType_ApplicationCommand)
                 || (isSendDataTransmitReport result && isOK result)
             | None => false
             end
        else
          (* For other messages to the node, just check for successful
             completion *)
          isNodeQuery msg
          && match result with
             | Some result => isSuccessIndicator result && isOK result
             | None => false
             end in
      let sleep :=
        match node with
        | Some node =>
            if maybeSendToSleep && canSleep node && negb (keepAwake node)
            then [SetImmediateDebounceSendNodeToSleep (id node)]
            else []
        | None => []
        end in
      (inl result, sleep ++ finally)
  | inr e =>
      match thrown e with
      | ZWaveError message code =>
          let passThrough :=
            match context e with
            | Some (ContextMessage response) =>
                (* If a controller command failed (that is not SendData),
                   pass the response/callback through *)
                if (bool_decide (code = ZWaveErrorCodes.Controller_ResponseNOK)
                    || bool_decide (code = ZWaveErrorCodes.Controller_CallbackNOK))
                   && negb (bool_decide (functionType response
                                         = FunctionType_SendData))
                   && negb (bool_decide (functionType response
                                         = FunctionType_SendDataMulticast))
                   && negb (bool_decide (functionType response
                                         = FunctionType_SendDataBridge))
                   && negb (bool_decide (functionType response
                                         = FunctionType_SendDataMulticastBridge))
                then Some response
                else None
            | _ => None
            end in
          match passThrough with
          | Some response =>
              (inl (Some response),
               match _controller d with
               | Some _ => [ControllerIncrementStatistics "messagesDroppedTX"]
               | None => []
               end ++ finally)
          | None =>
              let statistics :=
                if bool_decide (code = ZWaveErrorCodes.Controller_NodeTimeout)
                then
                  (* If the node failed to respond in time, remember this
                     for the statistics *)
                  match node with
                  | Some node =>
                      [NodeIncrementStatistics (id node) "timeoutResponse"]
                  | None => []
                  end
                else [] in
              (* Enrich errors with the transaction's stack instead of the
                 internal stack *)
              match transactionSource e with
              | None | Some EmptyString =>
                  (inr (mkTransactionError (ZWaveError message code) (context e)
                                           (Some stack)),
                   statistics ++ finally)
              | Some _ => (inr e, statistics ++ finally)
              end
          end
      | OtherError _ => (inr e, finally)
      end
  end.

End SettleTransaction.


(** ** Sending nodes back to sleep: [debounceSendNodeToSleep] *)

(** [this.sendNodeToSleepTimers] and the timers of the runtime that the
    driver has set with [setTimeout] and that have neither fired nor been
    cleared: a handle stands for the callback that sends the node with the
    given id to sleep, after the given delay. [noMoreInformation] lists the
    nodes that were told that there is no more information for them. *)
Record SleepTimers : Type := mkSleepTimers {
  sendNodeToSleepTimers : gmap Z nat;
  pendingTimeouts : gmap nat (Z * Z);
  nextTimeout : nat;
  noMoreInformation : list Z;
}.

(** [setTimeout(callback, ms)] answers a fresh handle; [clearTimeout]
    forgets the timer of a handle. *)
Definition setTimeout (nodeId ms : Z) (s : SleepTimers) : nat * SleepTimers :=
  (nextTimeout s,
   mkSleepTimers (sendNodeToSleepTimers s)
                 (<[nextTimeout s := (nodeId, ms)]> (pendingTimeouts s))
                 (S (nextTimeout s)) (noMoreInformation s)).

Definition clearTimeout (handle : nat) (s : SleepTimers) : SleepTimers :=
  mkSleepTimers (sendNodeToSleepTimers s) (delete handle (pendingTimeouts s))
                (nextTimeout s) (noMoreInformation s).

Section SendNodeToSleep.

(** [node.scheduledPolls.size] and the value of [wakeUpInterval] in the
    node's value DB, of [Node.ts]. *)
Variable scheduledPolls_size : ZWaveNode -> Z.
Variable wakeUpInterval : ZWaveNode -> option Z.

(** Checks if there are any pending messages for the given node. *)
Definition hasPendingMessages (node : ZWaveNode) (d : Driver) : bool :=
  (* First check if there are messages in the queue *)
  if hasPendingTransactions
       (fun t => bool_decide (getNodeId (message t) = Some (id node))) d
  then true
  (* Then check if there are scheduled polls *)
  else 0 <? scheduledPolls_size node.

(** The callback [sendNodeToSleep] of [debounceSendNodeToSleep]: sends a
    node to sleep if it has no more messages. *)
Definition sendNodeToSleep (node : ZWaveNode) (d : Driver) (s : SleepTimers)
  : SleepTimers :=
  let s :=
    mkSleepTimers (delete (id node) (sendNodeToSleepTimers s)) (pendingTimeouts s)
                  (nextTimeout s) (noMoreInformation s) in
  if negb (hasPendingMessages node d)
  then mkSleepTimers (sendNodeToSleepTimers s) (pendingTimeouts s) (nextTimeout s)
                     (noMoreInformation s ++ [id node])
  else s.

(** The runtime fires the timer of a handle: the timer is gone and its
    callback runs, on the node as it is then. *)
Definition fireTimeout (handle : nat) (node : ZWaveNode) (d : Driver)
    (s : SleepTimers) : SleepTimers :=
  match pendingTimeouts s !! handle with
  | Some _ => sendNodeToSleep node d (clearTimeout handle s)
  | None => s
  end.

(** Marks a node for a later sleep command. Every call refreshes the period
    until the node actually goes to sleep. *)
Definition debounceSendNodeToSleep (node : ZWaveNode) (d : Driver)
    (s : SleepTimers) : SleepTimers :=
  (* Delete old timers if any exist *)
  let s :=
    match sendNodeToSleepTimers s !! id node with
    | Some handle => clearTimeout handle s
    | None => s
    end in
  (* If a sleeping node has no messages pending (and supports the Wake Up
     CC), we may send it back to sleep *)
  if supportsCC CommandClasses.WakeUp node && negb (hasPendingMessages node d)
  then
    (* when a device only wakes up manually, don't send it back to sleep *)
    if negb (bool_decide (wakeUpInterval node = Some 0)) then
      let '(handle, s) := setTimeout (id node) 1000 s in
      mkSleepTimers (<[id node := handle]> (sendNodeToSleepTimers s))
                    (pendingTimeouts s) (nextTimeout s) (noMoreInformation s)
    else s
  else s.

End SendNodeToSleep.


(** ** Application commands: the static handlers of [handleRequest] *)

(** [SupervisionStatus] of [@zwave-js/core]. *)
Module SupervisionStatus.
Inductive t : Set := NoSupport | Working | Fail | Success.

#[global] Instance eq_dec : EqDecision t.
Proof. solve_decision. Defined.
End SupervisionStatus.

(** An entry of [this.awaitedCommands]: the entry is an object with an
    identity, and its predicate tests the incoming commands. *)
Record AwaitedCommandEntry : Type := mkAwaitedCommandEntry {
  awaitedId : nat;
  awaitedPredicate : CommandClass -> bool;
}.

(** What the driver does with an application command besides changing its
    own state; the methods belong to [Node.ts], [Controller.ts] and the
    Supervision API, which are not part of the sources at hand. *)
Inductive CommandStep : Type :=
| CommandLog (entry : LogEntry)
| RemoveFailedNode (nodeId : Z)
| SupervisionUpdate (handler : nat) (report : CommandClass)
| ResolveAwaitedCommand (entry : nat) (command : CommandClass)
| SendSupervisionReport (nodeId sessionId : Z) (status : SupervisionStatus.t)
                        (requestWakeUpOnDemand : bool) (encapsulationFlags : Z)
| NodeHandleCommand (nodeId : Z) (command : CommandClass).

Section ApplicationCommands.

(** From [@zwave-js/cc]: whether a command is a Device Reset Locally
    notification, the session id and [moreUpdatesFollow] of a Supervision
    report, and the session id of the Supervision Get that a command came
    in. *)
Variable isDeviceResetLocallyCCNotification : CommandClass -> bool.
Variable sessionId : CommandClass -> Z.
Variable moreUpdatesFollow : CommandClass -> bool.
Variable SupervisionCC_getSessionId : CommandClass -> option Z.

(** From [Node.ts]: [node.supportsWakeUpOnDemand]. *)
Variable supportsWakeUpOnDemand : ZWaveNode -> bool.

(** The errors with which the awaited calls reject, if they do:
    [controller.removeFailedNode], [node.handleCommand] and the
    Supervision API's [sendReport]; and [getErrorMessage] of
    [@zwave-js/shared]. *)
Variable removeFailedNode_error : Z -> option Error.
Variable getErrorMessage : Error -> string.
Variable handleCommand_error : CommandClass -> option Error.
Variable sendReport_error : Z -> Z -> SupervisionStatus.t -> option Error.

Definition shouldRequestWakeupOnDemand (node : ZWaveNode) (d : Driver) : bool :=
  supportsWakeUpOnDemand node
  && bool_decide (status node = NodeStatus.Asleep)
  && hasPendingTransactions
       (fun t => requestWakeUpOnDemand t
                 && bool_decide (getNodeId (message t) = Some (id node))) d.

(** [endpoint.createAPI(CommandClasses.Supervision, false).sendReport] *)
Definition sendReport (node : ZWaveNode) (supervisionSessionId : Z)
    (status : SupervisionStatus.t) (encapsulationFlags : Z) (d : Driver)
  : list CommandStep * option Error :=
  ([SendSupervisionReport (id node) supervisionSessionId status
                          (shouldRequestWakeupOnDemand node d) encapsulationFlags],
   sendReport_error (id node) supervisionSessionId status).

(** The first entry of [this.awaitedCommands] whose predicate holds for the
    command, and the entries without it: resolving the entry's promise
    removes the entry from the list. *)
Fixpoint resolveAwaitedCommand (command : CommandClass)
    (awaitedCommands : list AwaitedCommandEntry)
  : option (AwaitedCommandEntry * list AwaitedCommandEntry) :=
  match awaitedCommands with
  | [] => None
  | entry :: rest =>
      if awaitedPredicate entry command then Some (entry, rest)
      else match resolveAwaitedCommand command rest with
           | Some (found, rest) => Some (found, entry :: rest)
           | None => None
           end
  end.

(** The branch of [handleRequest] for an application command request with
    the unwrapped [command]: the driver and the awaited commands
    afterwards, what was done, and the error thrown if any. *)
Definition handleRequest_applicationCommand (command : CommandClass)
    (awaitedCommands : list AwaitedCommandEntry) (d : Driver)
  : Driver * list AwaitedCommandEntry * list CommandStep * option Error :=
  let nodeId := nodeId (fields command) in
  (* cannot handle ApplicationCommandRequests without a controller *)
  match _controller d with
  | None =>
      (d, awaitedCommands,
       [CommandLog (DriverPrint "  the controller is not ready yet, discarding..."
                                LWarn)], None)
  | Some c =>
      match nodes c !! nodeId with
      | None =>
          (d, awaitedCommands,
           [CommandLog (DriverPrint
              "  the node is unknown or not initialized yet, discarding..."
              LWarn)], None)
      | Some node =>
          let sessions := nodeSessions d !! nodeId in
          (* Check if we need to handle the command ourselves *)
          if bool_decide (ccId (fields command) = CommandClasses.DeviceResetLocally)
             && isDeviceResetLocallyCCNotification command
          then
            let removing :=
              [CommandLog (ControllerLogNode nodeId
                             "The node was reset locally, removing it" LInfo);
               RemoveFailedNode nodeId] in
            match removeFailedNode_error nodeId with
            | None => (d, awaitedCommands, removing, None)
            | Some e =>
                (d, awaitedCommands,
                 removing ++
                 [CommandLog (ControllerLogNode nodeId
                                ("removing the node failed: " +:+ getErrorMessage e)
                                LError)], None)
            end
          else
            match
              (if bool_decide (ccId (fields command) = CommandClasses.Supervision)
                  && bool_decide (ccClass (fields command) = SupervisionCCReport)
               then sessions ≫= fun s => supervision s !! sessionId command
               else None)
            with
            | Some handler =>
                (* Supervision commands are handled here *)
                let steps :=
                  [CommandLog (ControllerLogNode nodeId
                                 "Received update for a Supervision session" LInfo);
                   (* Call the update handler *)
                   SupervisionUpdate handler command] in
                (* If this was a final report, remove the handler *)
                let d :=
                  if negb (moreUpdatesFollow command) then
                    match sessions with
                    | Some s =>
                        setNodeSessions
                          (<[nodeId := mkSessions (transportService s)
                                         (delete (sessionId command) (supervision s))]>
                             (nodeSessions d)) d
                    | None => d
                    end
                  else d in
                (d, awaitedCommands, steps, None)
            | None =>
                (* Figure out if the command was received with supervision
                   encapsulation *)
                let supervisionSessionId := SupervisionCC_getSessionId command in
                let encapsulationFlags := encapsulationFlags (fields command) in
                (* check if someone is waiting for this command *)
                match resolveAwaitedCommand command awaitedCommands with
                | Some (entry, awaitedCommands) =>
                    (* resolve the promise - this will remove the entry from
                       the list *)
                    let resolved := [ResolveAwaitedCommand (awaitedId entry) command] in
                    (* send back a Supervision Report if the command was
                       received via Supervision Get *)
                    match supervisionSessionId with
                    | Some supervisionSessionId =>
                        let '(report, e) :=
                          sendReport node supervisionSessionId
                                     SupervisionStatus.Success encapsulationFlags d in
                        (d, awaitedCommands, resolved ++ report, e)
                    | None => (d, awaitedCommands, resolved, None)
                    end
                | None =>
                    (* No one is waiting, dispatch the command to the node
                       itself *)
                    let handling := [NodeHandleCommand nodeId command] in
                    match supervisionSessionId with
                    | Some supervisionSessionId =>
                        let '(tried, thrown) :=
                          match handleCommand_error command with
                          | None =>
                              let '(report, e) :=
                                sendReport node supervisionSessionId
                                  SupervisionStatus.Success encapsulationFlags d in
                              (handling ++ report, e)
                          | Some e => (handling, Some e)
                          end in
                        match thrown with
                        | None => (d, awaitedCommands, tried, None)
                        | Some e =>
                            let '(report, ee) :=
                              sendReport node supervisionSessionId
                                SupervisionStatus.Fail encapsulationFlags d in
                            (* In any case we don't want to swallow the
                               error *)
                            (d, awaitedCommands, tried ++ report,
                             Some (default e ee))
                        end
                    | None =>
                        (d, awaitedCommands, handling, handleCommand_error command)
                    end
                end
            end
      end
  end.

End ApplicationCommands.


(** ** Shutting down: [destroy] *)

(** What [destroy] does to the world outside the driver's own fields. *)
Inductive DestroyStep : Type :=
| DestroyLog (entry : LogEntry)
| SendThreadStop
| SerialRemoveAllListeners
| SerialClose
| ValueDBClose
| MetadataDBClose
| NetworkCacheClose
| ClearTimeout (handle : nat)
| NodeDestroy (nodeId : Z)
| ControllerRemoveAllListeners
| LogContainerDestroy
| DestroyPromiseResolve.

Definition setDestroyed (d : Driver) : Driver :=
  mkDriver (_wasStarted d) (_isOpen d) true (serial d) (_controller d)
           (_securityManager2 d) (sendThread d) (nodeSessions d) (interpreters d)
           (_nodesReady d) (_nodesReadyEventEmitted d) (effects d).

Definition setSerial (s : option bool) (d : Driver) : Driver :=
  mkDriver (_wasStarted d) (_isOpen d) (wasDestroyed d) s (_controller d)
           (_securityManager2 d) (sendThread d) (nodeSessions d) (interpreters d)
           (_nodesReady d) (_nodesReadyEventEmitted d) (effects d).

Section Destroy.

(** The world around the driver when [destroy] is called:
    [sendThread.initialized]; the error with which [serial.close()]
    rejects, if it does; for each of the value DB, the metadata DB and the
    network cache whether it exists and the error with which its [close()]
    rejects; the timers other than those that send nodes to sleep; and
    [getErrorMessage] of [@zwave-js/shared]. *)
Variable sendThread_initialized : bool.
Variable serial_close_error : option Error.
Variables _valueDB_close _metadataDB_close _networkCache_close
  : option (option Error).
Variable saveToCacheTimer statisticsTimeout : option nat.
Variable retryNodeInterviewTimeouts awaitedTimeouts : list nat.
Variable getErrorMessage : Error -> string.

(** [try { await db?.close() } catch (e) { this.driverLog.print(...) }] *)
Definition closeDB (close : option (option Error)) (step : DestroyStep)
    (what : string) : list DestroyStep :=
  match close with
  | None => []
  | Some None => [step]
  | Some (Some e) =>
      [step;
       DestroyLog (DriverPrint ("Closing the " +:+ what +:+ " failed: "
                                +:+ getErrorMessage e) LError)]
  end.

(** Terminates the driver instance and closes the underlying serial
    connection: the driver and the timers afterwards, what was done, and
    the error with which the call rejects, if it does. A timer of the
    runtime is an object, so every handle passes [if (timeout)]. *)
Definition destroy (d : Driver) (s : SleepTimers)
  : Driver * SleepTimers * list DestroyStep * option Error :=
  (* Ensure this is only called once and all subsequent calls block *)
  if wasDestroyed d then (d, s, [], None)
  else
    let d := setDestroyed d in
    let steps := [DestroyLog (DriverPrint "destroying driver instance..." LInfo)] in
    (* First stop the send thread machine and close the serial port, so
       nothing happens anymore *)
    let steps := steps ++ (if sendThread_initialized then [SendThreadStop] else []) in
    let closing :=
      match serial d with
      | Some isOpen =>
          (* Avoid spewing errors if the port was in the middle of receiving
             something *)
          if isOpen then
            match serial_close_error with
            | Some e => ([SerialRemoveAllListeners; SerialClose], Some e)
            | None => ([SerialRemoveAllListeners; SerialClose], None)
            end
          else ([SerialRemoveAllListeners], None)
      | None => ([], None)
      end in
    match closing with
    | (closed, Some e) => (d, s, steps ++ closed, Some e)
    | (closed, None) =>
        let d := setSerial None d in
        let steps := steps ++ closed in
        (* Attempt to close the value DBs and network cache *)
        let steps :=
          steps ++ closeDB _valueDB_close ValueDBClose "value DB"
                ++ closeDB _metadataDB_close MetadataDBClose "metadata DB"
                ++ closeDB _networkCache_close NetworkCacheClose "network cache" in
        (* Remove all timeouts *)
        let sleepTimers := (map_to_list (sendNodeToSleepTimers s)).*2 in
        let all :=
          option_list saveToCacheTimer ++ sleepTimers
          ++ retryNodeInterviewTimeouts ++ option_list statisticsTimeout
          ++ awaitedTimeouts in
        let s := fold_left (fun s handle => clearTimeout handle s) sleepTimers s in
        let steps := steps ++ (ClearTimeout <$> all) in
        (* Destroy all nodes and the controller *)
        let steps :=
          steps ++
          match _controller d with
          | Some c =>
              (NodeDestroy <$> (map_to_list (nodes c)).*1)
              ++ [ControllerRemoveAllListeners]
          | None => []
          end in
        let d := setController None d in
        (d, s,
         steps ++ [DestroyLog (DriverPrint "driver instance destroyed" LInfo);
                   (* destroy loggers as the very last thing *)
                   LogContainerDestroy; DestroyPromiseResolve],
         None)
    end.

End Destroy.


(** ** After a soft reset: [ensureSerialAPI] *)

(** What [ensureSerialAPI] does, in program order. *)
Inductive SerialAPIStep : Type :=
| ControllerLogPrint (message : string) (level : LogLevel)
| WaitForSerialAPIStarted (timeout : Z)
| OpenSerialport (steps : list SerialportStep)
| UnpauseSendThread
| SendGetControllerVersionRequest
| PauseSendThread
| WaitSeconds (ms : Z).

Section EnsureSerialAPI.

(** Whether the Serial API started message arrives during the first and
    during the second wait, what [serial.open()] answers, and whether the
    controller answers the poll with the given number, counted from 0. *)
Variable started_first started_second : bool.
Variable serial_open : Z -> option Error.
Variable getErrorMessage : option Error -> string.
Variable controllerResponds : nat -> bool.

(** [pollController]: resumes sending, asks the controller for its version
    and pauses the send thread again when that succeeded. *)
Definition pollController (poll : nat) : bool * list SerialAPIStep :=
  if controllerResponds poll
  then (true,
        [UnpauseSendThread; SendGetControllerVersionRequest; PauseSendThread;
         ControllerLogPrint "Serial API responded" LInfo])
  else (false, [UnpauseSendThread; SendGetControllerVersionRequest]).

(** Poll the controller with increasing backoff delay: the [for] loop over
    the delays, where [poll] polls have been made. *)
Fixpoint pollWithBackoff (backoffs : list Z) (poll : nat)
  : bool * list SerialAPIStep :=
  match backoffs with
  | [] =>
      (false,
       [ControllerLogPrint "Serial API did not respond, giving up" LError])
  | backoff :: backoffs =>
      let waiting :=
        [ControllerLogPrint
           ("Serial API did not respond, trying again in " +:+ pretty backoff
            +:+ " seconds...") LInfo;
         WaitSeconds (backoff * 1000)] in
      let '(responded, steps) := pollController poll in
      if responded then (true, waiting ++ steps)
      else
        let '(result, rest) := pollWithBackoff backoffs (S poll) in
        (result, waiting ++ steps ++ rest)
  end.

Definition ensureSerialAPI (serialAPIStarted openSerialPort : Z) (d : Driver)
  : Completion bool * list SerialAPIStep :=
  (* Wait 1.5 seconds after reset to ensure that the module is ready for
     communication again *)
  let steps :=
    [ControllerLogPrint "Waiting for the controller to reconnect..." LInfo;
     WaitForSerialAPIStarted 1500] in
  if started_first then
    (Return true, steps ++ [ControllerLogPrint "reconnected and restarted" LInfo])
  else
    match serial d with
    | None =>
        (Throw (OtherError "Cannot read properties of undefined (reading 'isOpen')"),
         steps)
    | Some isOpen =>
        (* If the controller disconnected the serial port during the soft
           reset, we need to re-open it *)
        let '(reopened, steps) :=
          if negb isOpen then
            let '(result, opening) :=
              openSerialport serial_open getErrorMessage openSerialPort in
            (match result with Return _ => true | Throw _ => false end,
             steps ++ [ControllerLogPrint "Re-opening serial port..." LInfo;
                       OpenSerialport opening])
          else (true, steps) in
        if negb reopened then (Return false, steps)
        else
          (* Wait the configured amount of time for the Serial API started
             command to be received *)
          let steps :=
            steps ++
            [ControllerLogPrint "Waiting for the Serial API to start..." LInfo;
             WaitForSerialAPIStarted serialAPIStarted] in
          if started_second then
            (Return true, steps ++ [ControllerLogPrint "Serial API started" LInfo])
          else
            let steps :=
              steps ++
              [ControllerLogPrint
                 "Did not receive notification that Serial API has started, checking if it responds..."
                 LInfo] in
            (* Poll the controller with increasing backoff delay *)
            let '(responded, polling) := pollController 0 in
            if responded then (Return true, steps ++ polling)
            else
              let '(result, rest) := pollWithBackoff [2; 5; 10; 15] 1 in
              (Return result, steps ++ polling ++ rest)
    end.

End EnsureSerialAPI.


(** ** Partial commands: [assemblePartialCCs] *)

(** [msg.command] with the command at the end of some singly encapsulating
    layers replaced: the layers, outermost first, around the command. *)
Fixpoint plug (layers : list CCFields) (command : CommandClass) : CommandClass :=
  match layers with
  | [] => command
  | cc :: layers => Encapsulating cc (plug layers command)
  end.

(** What [assemblePartialCCs] answers or throws, [msg.command] and
    [this.partialCCSessions] afterwards, and what was logged. *)
Record Assembled : Type := mkAssembled {
  complete : Completion bool;
  assembledCommand : CommandClass;
  partialCCSessions : gmap string (list CommandClass);
  assembledLog : list LogEntry;
}.

Section AssemblePartialCCs.

(** From [@zwave-js/cc], which is not part of the sources at hand: the key
    that [getPartialCCSession] builds for a command with a partial session
    id, [command.expectMoreMessages(session)], the command after
    [command.mergePartialCCs(this, session)] or the error thrown,
    [assertValidCCs(msg)] and [isTransportServiceEncapsulation]. *)
Variable partialSessionKey : CommandClass -> option string.
Variable expectMoreMessages : CommandClass -> list CommandClass -> bool.
Variable mergePartialCCs : CommandClass -> list CommandClass -> Completion CommandClass.
Variable assertValidCCs : CommandClass -> option Error.
Variable isTransportServiceEncapsulation : CommandClass -> bool.

(** [getPartialCCSession(command, createIfMissing)]: the key and the
    session of the command, if it belongs to a partial session, and the
    sessions afterwards. *)
Definition getPartialCCSession (command : CommandClass) (createIfMissing : bool)
    (sessions : gmap string (list CommandClass))
  : option (string * option (list CommandClass))
    * gmap string (list CommandClass) :=
  match partialSessionKey command with
  | Some key =>
      (* This CC belongs to a partial session *)
      let sessions :=
        if createIfMissing && negb (bool_decide (is_Some (sessions !! key)))
        then <[key := []]> sessions else sessions in
      (Some (key, sessions !! key), sessions)
  | None => (None, sessions)
  end.

(** The [while (true)] loop of [assemblePartialCCs] at [command], under the
    [layers] of [msg.command] that it has passed; [fuel] bounds the number
    of rounds, and no answer means that the rounds did not suffice. *)
Fixpoint assemblePartialCCs_loop (fuel : nat) (msg : Message)
    (layers : list CCFields) (command : CommandClass)
    (sessions : gmap string (list CommandClass)) : option Assembled :=
  match fuel with
  | O => None
  | S fuel =>
      let next (command : CommandClass) sessions :=
        (* If this is an encapsulating CC, we need to look one level deeper *)
        match command with
        | Encapsulating cc encapsulated =>
            assemblePartialCCs_loop fuel msg (layers ++ [cc]) encapsulated sessions
        | _ => Some (mkAssembled (Return true) (plug layers command) sessions [])
        end in
      match getPartialCCSession command true sessions with
      | (Some (key, Some session), sessions) =>
          (* This CC belongs to a partial session *)
          if expectMoreMessages command session then
            (* this is not the final one, store it *)
            let sessions := <[key := session ++ [command]]> sessions in
            Some (mkAssembled (Return false) (plug layers command) sessions
                    (if negb (isTransportServiceEncapsulation (plug layers command))
                     then
                       (* and don't handle the command now *)
                       [DriverLogMessage (setCommand (plug layers command) msg)
                                         ["partial"]]
                     else []))
          else
            (* this is the final one, merge the previous responses *)
            let sessions := delete key sessions in
            let dropped (command : CommandClass) (text : string) :=
              (* Don't continue handling this message *)
              Some (mkAssembled (Return false) (plug layers command) sessions
                                [DriverPrint text LWarn]) in
            let failed (command : CommandClass) (e : Error) :=
              match e with
              | ZWaveError message ZWaveErrorCodes.Deserialization_NotImplemented
              | ZWaveError message ZWaveErrorCodes.CC_NotImplemented =>
                  dropped command
                    ("Dropping message because it could not be deserialized: "
                     +:+ message)
              | ZWaveError _ ZWaveErrorCodes.PacketFormat_InvalidPayload =>
                  dropped command
                    "Could not assemble partial CCs because the payload is invalid. Dropping them."
              | ZWaveError _ ZWaveErrorCodes.Driver_NotReady =>
                  dropped command
                    "Could not assemble partial CCs because the driver is not ready yet. Dropping them"
              | _ => Some (mkAssembled (Throw e) (plug layers command) sessions [])
              end in
            match mergePartialCCs command session with
            | Throw e => failed command e
            | Return merged =>
                (* Ensure there are no errors *)
                match assertValidCCs (plug layers merged) with
                | Some e => failed merged e
                | None =>
                    (* Assembling this CC was successful - but it might
                       contain another partial CC *)
                    next merged sessions
                end
            end
      | (_, sessions) => (* No partial CC, just continue *) next command sessions
      end
  end.

(** Assembles partial CCs of in a message body. Answers [true] when the
    message is complete and can be handled further, [false] when the
    message expects another partial one. *)
Definition assemblePartialCCs (fuel : nat) (msg : Message) (command : CommandClass)
    (sessions : gmap string (list CommandClass)) : option Assembled :=
  assemblePartialCCs_loop fuel msg [] command sessions.

End AssemblePartialCCs.


(** * Statements of the specification, in its own words *)

(** ** Decapsulation *)

(** The wrappers that the loop strips from a command: the command classes
    of its encapsulating layers, outermost first. *)
Fixpoint strippedWrappers (c : CommandClass) : list CommandClasses.t :=
  match c with
  | Encapsulating cc e => ccId cc :: strippedWrappers e
  | _ => []
  end.

(** The command under the encapsulating layers. *)
Fixpoint core (c : CommandClass) : CommandClass :=
  match c with
  | Encapsulating _ e => core e
  | _ => c
  end.

(** All bits of [flag] are set in [flags]. *)
Definition hasFlag (flags flag : Z) : Prop := Z.land flags flag = flag.

(** The flag of a wrapper as the specification has it: one for each of
    Supervision, Security (S0 and S2), CRC16 and Multi-Channel.
    [EncapsulationFlags] has no member for Multi-Channel, so its bit is a
    parameter here. *)
Definition flagOfWrapper_spec (multiChannel : Z) (w : CommandClasses.t) : Z :=
  match w with
  | CommandClasses.Supervision => EncapsulationFlags.Supervision
  | CommandClasses.Security | CommandClasses.Security2 => EncapsulationFlags.Security
  | CommandClasses.CRC16Encapsulation => EncapsulationFlags.CRC16
  | CommandClasses.MultiChannel => multiChannel
  | _ => EncapsulationFlags.None
  end.

(** The statement of the specification: after unwrapping, the flags of the
    command reflect every wrapper that was stripped. *)
Definition flagsReflectEveryWrapper_spec (multiChannel : Z) : Prop :=
  forall (msg : Message) (c : CommandClass) (w : CommandClasses.t),
    w ∈ strippedWrappers c ->
    exists c',
      command (unwrapCommands (setCommand c msg)).1 = Some c' /\
      hasFlag (encapsulationFlags (fields c')) (flagOfWrapper_spec multiChannel w).

(** The flag that the loop sets for a wrapper. *)
Definition flagOfWrapper (w : CommandClasses.t) : Z :=
  match w with
  | CommandClasses.Supervision => EncapsulationFlags.Supervision
  | CommandClasses.Security | CommandClasses.Security2 => EncapsulationFlags.Security
  | CommandClasses.CRC16Encapsulation => EncapsulationFlags.CRC16
  | _ => EncapsulationFlags.None
  end.

(** The multi-encapsulating wrapper that the encapsulation stack of a
    command leads to, if any. *)
Fixpoint multiWrapperOf (c : CommandClass) : option (CCFields * list CommandClass) :=
  match c with
  | Leaf _ => None
  | Encapsulating _ e => multiWrapperOf e
  | MultiEncapsulating cc l => Some (cc, l)
  end.

(** Two commands are the same up to their encapsulation flags. *)
Definition sameUpToFlags (a b : CommandClass) : Prop :=
  assignEncapsulationFlags 0 a = assignEncapsulationFlags 0 b.

(** The statement of the specification on multi-encapsulating wrappers:
    the wrapper is logged, and the message goes on with the first inner
    command. *)
Definition firstInnerCommandProcessed_spec : Prop :=
  forall (msg : Message) (c : CommandClass) cc first rest,
    multiWrapperOf c = Some (cc, first :: rest) ->
    (unwrapCommands (setCommand c msg)).2 = [multipleCommandClassesWarning] /\
    exists c',
      command (unwrapCommands (setCommand c msg)).1 = Some c' /\
      sameUpToFlags c' (core first).

(** ** Examples *)

(** Concrete commands for the examples: a Basic command of node 5, alone,
    inside a Multi Channel wrapper, and twice inside a Multi Command
    wrapper. *)
Definition exampleMessage (c : CommandClass) : Message :=
  mkMessage ApplicationCommandRequest 0x04 (Some 5) false (Some c) None 0.

Definition basicCommand : CommandClass :=
  Leaf (mkCC OtherCC CommandClasses.Basic 5 0 EncapsulationFlags.None).

Definition binarySwitchCommand : CommandClass :=
  Leaf (mkCC OtherCC CommandClasses.BinarySwitch 5 0 EncapsulationFlags.None).

Definition multiChannelWrapped : CommandClass :=
  Encapsulating (mkCC OtherCC CommandClasses.MultiChannel 5 0 EncapsulationFlags.None)
                basicCommand.

Definition multiCommandWrapped : CommandClass :=
  MultiEncapsulating
    (mkCC OtherCC CommandClasses.MultiCommand 5 0 EncapsulationFlags.None)
    [basicCommand; binarySwitchCommand].

Definition supervisedMultiCommand : CommandClass :=
  Encapsulating (mkCC OtherCC CommandClasses.Supervision 5 0 EncapsulationFlags.None)
                multiCommandWrapped.

(** ** Wake-up queue reducers *)

Definition isWakeUpNoMoreInformation (msg : Message) : bool :=
  match command msg with
  | Some c => bool_decide (ccClass (fields c) = WakeUpCCNoMoreInformation)
  | None => false
  end.

Definition forNode (nodeId : Z) (t : Transaction) : bool :=
  bool_decide (getNodeId (message t) = Some nodeId).

(** The transactions that the specification has dropped when their node
    falls asleep: pings, nonces, supervision replies and
    WakeUpNoMoreInformation. *)
Definition droppedOnSleep_spec (t : Transaction) : bool :=
  messageIsPing (message t)
  || bool_decide (priority t = MessagePriority.Nonce)
  || bool_decide (priority t = MessagePriority.Supervision)
  || isWakeUpNoMoreInformation (message t).

(** The reducer of the transition Awake to Asleep as the specification
    states it. *)
Definition sleepReducer_spec (nodeId : Z) (t : Transaction)
  : TransactionReducerResult :=
  if forNode nodeId t then
    if droppedOnSleep_spec t then
      Reject "The node is asleep" ZWaveErrorCodes.Controller_MessageDropped
    else if bool_decide (priority t = MessagePriority.NodeQuery) then
      Requeue (Some MessagePriority.WakeUp) (Some "interview")
    else Requeue (Some MessagePriority.WakeUp) None
  else Keep.

(** The same with the transactions tagged as compat queries among the
    dropped ones. *)
Definition droppedOnSleep (t : Transaction) : bool :=
  droppedOnSleep_spec t || bool_decide (tag t = Some "compat").

Definition sleepReducer_amended (nodeId : Z) (t : Transaction)
  : TransactionReducerResult :=
  if forNode nodeId t then
    if droppedOnSleep t then
      Reject "The node is asleep" ZWaveErrorCodes.Controller_MessageDropped
    else if bool_decide (priority t = MessagePriority.NodeQuery) then
      Requeue (Some MessagePriority.WakeUp) (Some "interview")
    else Requeue (Some MessagePriority.WakeUp) None
  else Keep.





(** Example transactions for node 5: a SendData with a Basic command, and
    a ping. *)
Definition sendDataMessage (nodeId : Z) (c : CommandClass) : Message :=
  mkMessage SendDataRequest FunctionType_SendData (Some nodeId) false (Some c)
            (Some MessagePriority.Normal) 3.

Definition basicTransaction : Transaction :=
  mkTransaction (sendDataMessage 5 basicCommand) MessagePriority.Normal None
                true false false.

Definition compatTransaction : Transaction :=
  mkTransaction (sendDataMessage 5 basicCommand) MessagePriority.Normal
                (Some "compat") true false false.

Definition pingTransaction : Transaction :=
  mkTransaction
    (sendDataMessage 5
       (Leaf (mkCC NoOperationCC CommandClasses.NoOperation 5 0
                   EncapsulationFlags.None)))
    MessagePriority.Ping None true false false.









(** ** Node status *)

(** The node object that the controller holds for an id. *)
Definition nodeOf (nodeId : Z) (d : Driver) : option ZWaveNode :=
  match _controller d with
  | Some c => nodes c !! nodeId
  | None => None
  end.

(** A node of the network that cannot sleep, one that can, and a driver
    whose controller knows both, with three transactions queued for node 5
    and one for node 6. *)
Definition mainsNode : ZWaveNode :=
  mkNode 5 NodeStatus.Alive false false InterviewStage.Complete
         [CommandClasses.Basic] 0.

Definition batteryNode : ZWaveNode :=
  mkNode 6 NodeStatus.Awake true false InterviewStage.Complete
         [CommandClasses.Basic; CommandClasses.WakeUp] 0.

Definition otherTransaction : Transaction :=
  mkTransaction (sendDataMessage 6 basicCommand) MessagePriority.Normal None
                true false false.

Definition exampleController : ZWaveController :=
  mkController (<[5 := mainsNode]> (<[6 := batteryNode]> ∅)) None
               [FunctionType_SendData] 0.

Definition exampleDriver : Driver :=
  mkDriver true true false (Some true) (Some exampleController)
           (Some (mkSecurityManager2 ∅ ∅))
           (mkSendThread [pingTransaction; basicTransaction; otherTransaction]
                         [basicTransaction] [])
           ∅ [] ∅ false [].






(** ** S2 decode errors *)

(** The node that the controller is bootstrapping with S2, if any. *)
Definition bootstrapping (d : Driver) : option Z :=
  match _controller d with
  | Some c => bootstrappingS2NodeId c
  | None => None
  end.

(** A temporary key is installed for the node. *)
Definition hasTempKey (nodeId : Z) (d : Driver) : bool :=
  match _securityManager2 d with
  | Some sm => bool_decide (nodeId ∈ tempKeys sm)
  | None => false
  end.

(** The node's SPAN is in state [None]. *)
Definition spanIsNone (nodeId : Z) (d : Driver) : bool :=
  match _securityManager2 d with
  | Some sm => bool_decide (getSPANState nodeId sm = SPANState.None)
  | None => false
  end.

(** An S2 decode error is one of the two codes. *)
Definition isS2DecodeError (code : ZWaveErrorCodes.t) : bool :=
  bool_decide (code = ZWaveErrorCodes.Security2CC_NoSPAN)
  || bool_decide (code = ZWaveErrorCodes.Security2CC_CannotDecode).

(** An S2-encapsulated command received from node 6, of which only the
    outer layer could be decoded. *)
Definition s2Message : Message :=
  mkMessage ApplicationCommandRequest 0x04 (Some 6) false
    (Some (Leaf (mkCC InvalidCC CommandClasses.Security2 6 0
                      EncapsulationFlags.None)))
    None 0.


(** ** Decode errors *)

(** The codec errors of the specification's error catalogue (section 7). *)
Definition isCodecError (code : ZWaveErrorCodes.t) : bool :=
  match code with
  | ZWaveErrorCodes.PacketFormat_Invalid
  | ZWaveErrorCodes.PacketFormat_Checksum
  | ZWaveErrorCodes.PacketFormat_Truncated
  | ZWaveErrorCodes.PacketFormat_InvalidPayload
  | ZWaveErrorCodes.Deserialization_NotImplemented
  | ZWaveErrorCodes.CC_NotImplemented
  | ZWaveErrorCodes.CC_NotSupported => true
  | _ => false
  end.

(** The frame-level errors. *)
Definition isFrameLevelError (code : ZWaveErrorCodes.t) : bool :=
  match code with
  | ZWaveErrorCodes.PacketFormat_Invalid
  | ZWaveErrorCodes.PacketFormat_Checksum
  | ZWaveErrorCodes.PacketFormat_Truncated => true
  | _ => false
  end.

(** The reply as the specification states it: NAK for a frame-level error,
    ACK for any other codec error. *)
Definition decodeReply_spec (code : ZWaveErrorCodes.t) : MessageHeaders.t :=
  if isFrameLevelError code then MessageHeaders.NAK else MessageHeaders.ACK.

Definition codecErrorsAnswered_spec : Prop :=
  forall (text : string) (code : ZWaveErrorCodes.t) (data : list Z)
         (msg : option Message),
    isCodecError code = true ->
    (handleDecodeError (ZWaveError text code) data msg).2
    = Return (decodeReply_spec code).

(** The errors that [handleDecodeError] answers with ACK. *)
Definition isAcknowledgedError (code : ZWaveErrorCodes.t) : bool :=
  match code with
  | ZWaveErrorCodes.Deserialization_NotImplemented
  | ZWaveErrorCodes.CC_NotImplemented
  | ZWaveErrorCodes.Driver_NotReady
  | ZWaveErrorCodes.PacketFormat_InvalidPayload
  | ZWaveErrorCodes.Driver_NoSecurity
  | ZWaveErrorCodes.Security2CC_NotInitialized => true
  | _ => false
  end.

(** The reply with the errors that are passed through. *)
Definition decodeReply_amended (e : Error) : Completion MessageHeaders.t :=
  match e with
  | ZWaveError _ code =>
      if isFrameLevelError code then Return MessageHeaders.NAK
      else if isAcknowledgedError code then Return MessageHeaders.ACK
      else Throw e
  | OtherError text =>
      if occursIn "database is not open" text then Return MessageHeaders.ACK
      else Throw e
  end.

(** A frame whose command is of a class that the node does not support. *)
Definition notSupportedError : Error :=
  ZWaveError "The node does not support this CC" ZWaveErrorCodes.CC_NotSupported.

(** What has been written to the serial port, in order. *)
Definition serialWrites (es : list Effect) : list (list Z) :=
  omap (fun e => match e with SerialWrite data => Some data | _ => None end) es.

(** What the receive handler's [catch (ee)] does with an error: it reports
    a closed port as a driver error and destroys the driver, and prints
    anything else. *)
Definition reportDecodeFailure (ee : Error) (d : Driver) : Driver :=
  if occursIn "serial port is not open" (errorMessage ee)
  then perform Destroy (perform (Emit "error") d)
  else perform (Log (DriverPrint (errorMessage ee) LError)) d.


(** ** Transport Service sessions *)

(** The Transport Service sessions that the driver holds for a node. *)
Definition transportSessionsOf (nodeId : Z) (d : Driver)
  : gmap Z TransportServiceSession :=
  match nodeSessions d !! nodeId with
  | Some s => transportService s
  | None => ∅
  end.

(** [n] is the ceiling of [a / b], and [k] its floor, for a positive [b]. *)
Definition isCeilingOf (a b n : Z) : Prop := (n - 1) * b < a <= n * b.
Definition isFloorOf (a b k : Z) : Prop := k * b <= a < (k + 1) * b.

Definition stop (i : TransportServiceRXInterpreter) : TransportServiceRXInterpreter :=
  mkInterpreter (for_session i) (numSegments i) (missingSegmentTimeout i) true
                (received i).

Definition deliver (ev : RXEvent) (i : TransportServiceRXInterpreter)
  : TransportServiceRXInterpreter :=
  mkInterpreter (for_session i) (numSegments i) (missingSegmentTimeout i)
                (stopped i) (received i ++ [ev]).

(** Scenario 3 of the specification: a first segment of session 7 from
    node 5, 140 bytes in fragments of 40. *)
Definition fortyBytes : list Z := replicate 40 0.

Definition firstSegment7 : TransportServiceCC := FirstSegment 5 7 140 fortyBytes.


(** ** Option validation *)

(** Every provided key has 16 bytes and no two provided keys are equal. *)
Definition keysValid (keys : option (list (string * list Z))) : Prop :=
  match keys with
  | None => True
  | Some ks => Forall (fun k => length k.2 = 16%nat) ks /\ NoDup (map snd ks)
  end.

(** The inclusion callbacks are absent, or an object with all three. *)
Definition callbacksValid (c : InclusionUserCallbacks) : Prop :=
  c = Falsy \/ c = CallbacksObject true true true.

(** The ranges that [checkOptions] validates. *)
Definition inValidatedRanges (MAX_SEND_ATTEMPTS : Z) (o : ZWaveOptions) : Prop :=
  1 <= Timeouts.ack (timeouts o)
  /\ 1 <= Timeouts.byte (timeouts o)
  /\ 500 <= Timeouts.response (timeouts o) <= 20000
  /\ 500 <= Timeouts.report (timeouts o) <= 10000
  /\ 3000 <= Timeouts.nonce (timeouts o) <= 20000
  /\ 10000 <= Timeouts.sendDataCallback (timeouts o)
  /\ 1000 <= Timeouts.serialAPIStarted (timeouts o) <= 30000
  /\ keysValid (securityKeys o)
  /\ 1 <= Attempts.controller (attempts o) <= 3
  /\ 1 <= Attempts.sendData (attempts o) <= MAX_SEND_ATTEMPTS
  /\ 1 <= Attempts.nodeInterview (attempts o) <= 10
  /\ callbacksValid (inclusionUserCallbacks o).

(** The documented ranges of the specification (section 6): those above
    and at least one attempt to open the serial port. *)
Definition inDocumentedRanges_spec (MAX_SEND_ATTEMPTS : Z) (o : ZWaveOptions) : Prop :=
  inValidatedRanges MAX_SEND_ATTEMPTS o
  /\ 1 <= Attempts.openSerialPort (attempts o).

(** The statement of the specification: validation throws exactly when a
    value is out of its documented range. *)
Definition throwsExactlyOutOfRange_spec (MAX_SEND_ATTEMPTS : Z) : Prop :=
  forall o : ZWaveOptions,
    checkOptions MAX_SEND_ATTEMPTS o = Return tt
    <-> inDocumentedRanges_spec MAX_SEND_ATTEMPTS o.

(** The default options with no attempt to open the serial port. *)
Definition neverOpenOptions : ZWaveOptions :=
  mkOptions defaultTimeouts (Attempts.mk 0 3 3 5) true None "cache" normal Falsy.


(** ** Sending to a dead node *)

(** The driver in which the node is alive instead. *)
Definition revive (node : ZWaveNode) (d : Driver) : Driver :=
  updateNode (setStatus NodeStatus.Alive node) d.

(** The call does not end with the error [Controller_MessageDropped]. *)
Definition notDropped (r : Completion Transaction) : Prop :=
  forall text, r <> Throw (ZWaveError text ZWaveErrorCodes.Controller_MessageDropped).

(** A driver whose controller holds node 5 as dead. *)
Definition deadNode : ZWaveNode :=
  mkNode 5 NodeStatus.Dead false false InterviewStage.Complete
         [CommandClasses.Basic] 0.

Definition driverWithDeadNode : Driver :=
  mkDriver true true false (Some true)
           (Some (mkController (<[5 := deadNode]> ∅) None [FunctionType_SendData] 0))
           None (mkSendThread [] [] []) ∅ [] ∅ false [].

Definition noOptions : SendMessageOptions.t :=
  SendMessageOptions.mk None None None None None None None.


(** ** Opening the serial port *)

(** [n] failed attempts to open the port, each followed by the pause of one
    second. *)
Definition retries (n : nat) : list SerialportStep :=
  mjoin (replicate n [SerialOpen; Wait 1000]).

(** ** Request handlers *)

(** The callbacks that a trace invokes, in order. *)
Definition invokedHandlers (steps : list HandlerStep) : list nat :=
  omap (fun s => match s with Invoke h _ => Some h | _ => None end) steps.

Section RequestRouting.

Variable getCurrentMessage : Transaction -> option Message.
Variable expectsNodeUpdate : Message -> bool.
Variable isExpectedNodeUpdate : Message -> Message -> bool.
Variable isApplicationUpdateRequest : Message -> bool.

(** The request is one for the static handlers: the node that it names, if
    any, can be looked up; no waiter takes it; no message that is being
    sent expects it as its node update; and it is neither an application
    command nor an application update. *)
Definition forStaticHandlers (awaitedMessages : list AwaitedMessageEntry)
    (msg : Message) (driver : Driver) : Prop :=
  ((isNodeQuery msg || isCommandClassContainer msg) = true ->
   is_Some (getNodeId msg) -> is_Some (_controller driver))
  /\ Forall (fun entry => awaitedMessagePredicate entry msg = false)
            awaitedMessages
  /\ (isCommandClassContainer msg = true ->
      Forall (fun sentMsg => expectsNodeUpdate sentMsg
                             && isExpectedNodeUpdate sentMsg msg = false)
             (omap getCurrentMessage (activeTransactions (sendThread driver))))
  /\ msgClass msg <> ApplicationCommandRequest
  /\ msgClass msg <> BridgeApplicationCommandRequest
  /\ isApplicationUpdateRequest (unwrapCommands msg).1 = false.

End RequestRouting.


(** ** Commands that must be secure *)

(** Security (S0) and Security 2 are the wrappers that encrypt. *)
Definition isSecurityWrapper (w : CommandClasses.t) : bool :=
  bool_decide (w = CommandClasses.Security)
  || bool_decide (w = CommandClasses.Security2).

(** Whether a command without wrappers has to arrive encrypted, given
    which command classes the node supports securely. *)
Definition requiresSecurity (isCCSecure : CommandClasses.t -> bool)
    (c : CommandClass) : bool :=
  match c with
  | Leaf f => isCCSecure (ccId f) && negb (isSecurityWrapper (ccId f))
  | MultiEncapsulating _ l => existsb (fun cmd => isCCSecure (ccId (fields cmd))) l
  | Encapsulating _ _ => false
  end.

(** A secure node that supports Basic securely, for the examples. *)
Definition secureClass (node : ZWaveNode) : option SecurityClass.t :=
  Some SecurityClass.S2_Authenticated.

Definition basicIsSecure (node : ZWaveNode) (cc : CommandClasses.t) : bool :=
  bool_decide (cc = CommandClasses.Basic).

Definition securityWrapped : CommandClass :=
  Encapsulating (mkCC OtherCC CommandClasses.Security2 5 0 EncapsulationFlags.None)
                multiChannelWrapped.

(** ** Encapsulation *)

(** [encapsulate] puts the command into a wrapper of command class [w]. *)
Definition wrapsWith (w : CommandClasses.t)
    (encapsulate : CommandClass -> CommandClass) : Prop :=
  forall cc, exists f, encapsulate cc = Encapsulating f cc /\ ccId f = w.

(** A wrapper of the given command class around a command, for the
    examples. *)
Definition wrapIn (w : CommandClasses.t) (cc : CommandClass) : CommandClass :=
  Encapsulating (mkCC OtherCC w (nodeId (fields cc)) (endpointIndex (fields cc))
                      EncapsulationFlags.None) cc.


(** ** Results of Serial API commands *)

(** The function types of the SendData family. *)
Definition isSendDataFunctionType (functionType : Z) : Prop :=
  functionType = FunctionType_SendData
  \/ functionType = FunctionType_SendDataMulticast
  \/ functionType = FunctionType_SendDataBridge
  \/ functionType = FunctionType_SendDataMulticastBridge.

(** The communication succeeded: the result is no transmit report that
    indicates a failure. *)
Definition communicationSucceeded (isTransmitReport isOK : Message -> bool)
    (result : option Message) : Prop :=
  forall report,
    result = Some report -> isTransmitReport report = true -> isOK report = true.

(** A transmit report for the examples: a SendData callback. *)
Definition transmitReport : Message :=
  mkMessage OtherMessage FunctionType_SendData None false None None 0.

Definition isCallback (msg : Message) : bool :=
  bool_decide (functionType msg = FunctionType_SendData).

(** The failure of a controller command that is not of the SendData
    family: a negative response or callback that carries the failed
    message. *)
Definition controllerCommandFailed (e : TransactionError) (failed : Message)
  : Prop :=
  exists message code,
    thrown e = ZWaveError message code /\
    (code = ZWaveErrorCodes.Controller_ResponseNOK
     \/ code = ZWaveErrorCodes.Controller_CallbackNOK) /\
    context e = Some (ContextMessage failed) /\
    ~ isSendDataFunctionType (functionType failed).

(** The source that the error thrown by [sendMessage] names: the stack of
    the transaction for a Z-Wave error that names none (or an empty one),
    the error's own otherwise. *)
Definition sourceOrStack (stack : string) (e : TransactionError)
  : option string :=
  match thrown e, transactionSource e with
  | ZWaveError _ _, None | ZWaveError _ _, Some EmptyString => Some stack
  | _, source => source
  end.


(** ** Sending nodes back to sleep *)

(** Every timer that is still to fire is the one that the driver remembers
    for its node; a handle that the driver remembers for a node has been
    handed out, and if its timer is still to fire, it is for that node. *)
Definition timersConsistent (s : SleepTimers) : Prop :=
  (forall handle nodeId ms,
     pendingTimeouts s !! handle = Some (nodeId, ms) ->
     sendNodeToSleepTimers s !! nodeId = Some handle) /\
  (forall nodeId handle,
     sendNodeToSleepTimers s !! nodeId = Some handle ->
     (handle < nextTimeout s)%nat /\
     forall nodeId' ms,
       pendingTimeouts s !! handle = Some (nodeId', ms) -> nodeId' = nodeId).

(** No timers at all. *)
Definition noTimers : SleepTimers := mkSleepTimers ∅ ∅ 0 [].

(** A driver with nothing to send, and the timers after one call of
    [debounceSendNodeToSleep] for node 6 from no timers. *)
Definition idleDriver : Driver :=
  setSendThread (mkSendThread [] [] []) exampleDriver.

Definition oneTimer : SleepTimers :=
  mkSleepTimers {[ 6 := 0%nat ]} {[ 0%nat := (6, 1000) ]} 1 [].


(** ** Application commands *)

(** The Supervision reports that a trace sends: node, session, status and
    encapsulation flags. *)
Definition reportsSent (steps : list CommandStep)
  : list (Z * Z * SupervisionStatus.t * Z) :=
  omap (fun s => match s with
                 | SendSupervisionReport n sid status _ flags =>
                     Some (n, sid, status, flags)
                 | _ => None
                 end) steps.

(** The steps of a trace that deliver the command. *)
Definition deliveries (steps : list CommandStep) : list CommandStep :=
  List.filter (fun s => match s with
                        | ResolveAwaitedCommand _ _ | NodeHandleCommand _ _ => true
                        | _ => false
                        end) steps.

(** The command is one that the driver does not handle itself: no Device
    Reset Locally notification and no report for a Supervision session
    that the driver listens to. *)
Definition forNodeOrWaiter (isDeviceResetLocallyCCNotification : CommandClass -> bool)
    (sessionId : CommandClass -> Z) (command : CommandClass) (d : Driver) : Prop :=
  (ccId (fields command) = CommandClasses.DeviceResetLocally ->
   isDeviceResetLocallyCCNotification command = false) /\
  (ccId (fields command) = CommandClasses.Supervision ->
   ccClass (fields command) = SupervisionCCReport ->
   (nodeSessions d !! nodeId (fields command))
     ≫= (fun s => supervision s !! sessionId command) = None).

(** A Basic command of node 5 that came in a Supervision Get, and a
    Supervision report of node 5, for the examples. *)
Definition supervisionReport : CommandClass :=
  Leaf (mkCC SupervisionCCReport CommandClasses.Supervision 5 0
             EncapsulationFlags.None).

Definition listening : Driver :=
  setNodeSessions {[ 5 := mkSessions ∅ {[ 9 := 1%nat ]} ]} exampleDriver.

(** Two waiters, of which the second takes every command. *)
Definition twoWaiters : list AwaitedCommandEntry :=
  [mkAwaitedCommandEntry 1 (fun _ => false);
   mkAwaitedCommandEntry 2 (fun _ => true)].

(** [handleRequest_applicationCommand] where commands come in the
    Supervision session 3, reports are for session 9 and final, and no
    awaited call fails. *)
Definition handleApplicationCommand_example :=
  handleRequest_applicationCommand (fun _ => false) (fun _ => 9) (fun _ => false)
    (fun _ => Some 3) (fun _ => false) (fun _ => None) errorMessage
    (fun _ => None) (fun _ _ _ => None).


(** ** After a soft reset *)

(** The pauses of a trace, in milliseconds, and the number of its polls. *)
Definition pausesOf (steps : list SerialAPIStep) : list Z :=
  omap (fun s => match s with WaitSeconds ms => Some ms | _ => None end) steps.

Definition pollsOf (steps : list SerialAPIStep) : nat :=
  length (List.filter
            (fun s => match s with SendGetControllerVersionRequest => true
                              | _ => false end) steps).

(** Whether a trace pauses the send thread. *)
Definition pausesSendThread (steps : list SerialAPIStep) : bool :=
  existsb (fun s => match s with PauseSendThread => true | _ => false end) steps.

(** The first of the five polls that the controller answers. *)
Definition firstResponse (controllerResponds : nat -> bool) : option nat :=
  List.find controllerResponds (seq 0 5).


(** ** Partial commands *)

(** The commands of an encapsulation stack, from the outermost to the
    command under the singly encapsulating layers. *)
Fixpoint stack (c : CommandClass) : list CommandClass :=
  c :: match c with
       | Encapsulating _ e => stack e
       | _ => []
       end.

(** The encapsulating commands around [inner] in [plug layers inner],
    outermost first. *)
Fixpoint outerCommands (layers : list CCFields) (inner : CommandClass)
  : list CommandClass :=
  match layers with
  | [] => []
  | cc :: layers =>
      Encapsulating cc (plug layers inner) :: outerCommands layers inner
  end.

(** The errors for which [assemblePartialCCs] drops the message instead
    of throwing. *)
Definition dropsPartialCCs (e : Error) : bool :=
  match e with
  | ZWaveError _ ZWaveErrorCodes.Deserialization_NotImplemented
  | ZWaveError _ ZWaveErrorCodes.CC_NotImplemented
  | ZWaveError _ ZWaveErrorCodes.PacketFormat_InvalidPayload
  | ZWaveError _ ZWaveErrorCodes.Driver_NotReady => true
  | _ => false
  end.

(** For the examples: Security commands of node 5 come in parts that
    belong to one session, of which the first expects another one; merging
    leaves the last part as it is. *)
Definition securityKey (c : CommandClass) : option string :=
  if bool_decide (ccId (fields c) = CommandClasses.Security)
  then Some "5-security" else None.

Definition firstExpectsMore (c : CommandClass) (session : list CommandClass) : bool :=
  bool_decide (length session = 0%nat).

Definition securityPart : CommandClass :=
  Leaf (mkCC OtherCC CommandClasses.Security 5 0 EncapsulationFlags.None).

Definition multiChannelLayer : CCFields :=
  mkCC OtherCC CommandClasses.MultiChannel 5 0 EncapsulationFlags.None.

Definition assemble_example :=
  assemblePartialCCs securityKey firstExpectsMore (fun c _ => Return c)
                     (fun _ => None) (fun _ => false).


(** * Theorems *)

(** ** Decapsulation *)

Lemma Z_land_lor_same (a f : Z) : Z.land (Z.lor a f) f = f.
Proof.
  apply Z.bits_inj'; intros n _.
  rewrite Z.land_spec, Z.lor_spec.
  destruct (Z.testbit a n), (Z.testbit f n); reflexivity.
Qed.

Lemma hasFlag_lor_l (a f g : Z) : hasFlag a f -> hasFlag (Z.lor a g) f.
Proof.
  unfold hasFlag; intros H.
  apply Z.bits_inj'; intros n _.
  apply (f_equal (fun z => Z.testbit z n)) in H.
  rewrite Z.land_spec in H. rewrite Z.land_spec, Z.lor_spec.
  destruct (Z.testbit a n), (Z.testbit f n), (Z.testbit g n);
    simpl in *; congruence.
Qed.

Lemma hasFlag_fold (fs : list Z) (a f : Z) :
  hasFlag a f -> hasFlag (fold_left Z.lor fs a) f.
Proof.
  revert a; induction fs as [|g fs IH]; intros a H; simpl; [done|].
  apply IH, hasFlag_lor_l, H.
Qed.

Lemma hasFlag_fold_elem (fs : list Z) (a f : Z) :
  f ∈ fs -> hasFlag (fold_left Z.lor fs a) f.
Proof.
  revert a; induction fs as [|g fs IH]; intros a Hin.
  - by apply elem_of_nil in Hin.
  - apply elem_of_cons in Hin as [->|Hin]; simpl.
    + apply hasFlag_fold, Z_land_lor_same.
    + by apply IH.
Qed.

Lemma fields_withFields f c : fields (withFields f c) = f (fields c).
Proof. by destruct c. Qed.

(** The command that the loop passes to its next round: the inner command
    with the outer flags and the flag of the wrapper. *)
Lemma unwrapLoop_step cc e :
  exists e',
    unwrapLoop (Encapsulating cc e) = unwrapLoop e' /\
    e' = assignEncapsulationFlags
           (Z.lor (encapsulationFlags cc) (flagOfWrapper (ccId cc))) e.
Proof.
  eexists; split; [rewrite unwrapLoop_equation_2; reflexivity|].
  cbv zeta.
  destruct (ccId cc); unfold setEncapsulationFlag, assignEncapsulationFlags;
    rewrite ?fields_withFields; destruct e; simpl;
    rewrite ?Z.lor_0_r; reflexivity.
Qed.

(** What the loop returns for a command whose flags have been assigned. *)
Lemma unwrapLoop_spec (c : CommandClass) :
  forall flags,
    let r := unwrapLoop (assignEncapsulationFlags flags c) in
    r.1 = assignEncapsulationFlags
            (fold_left Z.lor (map flagOfWrapper (strippedWrappers c)) flags)
            (core c)
    /\ r.2 = match multiWrapperOf c with
             | Some _ => [multipleCommandClassesWarning]
             | None => []
             end.
Proof.
  induction c as [cc|cc e IH|cc l]; intros flags; cbn zeta.
  - simpl. rewrite unwrapLoop_equation_1. done.
  - change (assignEncapsulationFlags flags (Encapsulating cc e))
      with (Encapsulating
              (mkCC (ccClass cc) (ccId cc) (nodeId cc) (endpointIndex cc) flags) e).
    destruct (unwrapLoop_step
                (mkCC (ccClass cc) (ccId cc) (nodeId cc) (endpointIndex cc) flags) e)
      as (e' & -> & ->).
    simpl. apply IH.
  - simpl. rewrite unwrapLoop_equation_3. done.
Qed.

(** The loop is not entered for a command that is neither encapsulating
    nor multi-encapsulating. *)
Lemma unwrapLoop_core_command c :
  isEncapsulatingCommandClass c || isMultiEncapsulatingCommandClass c = false ->
  unwrapLoop c = (c, []).
Proof.
  destruct c; simpl; intros H; try discriminate H.
  by rewrite unwrapLoop_equation_1.
Qed.

Lemma assignEncapsulationFlags_id c :
  assignEncapsulationFlags (encapsulationFlags (fields c)) c = c.
Proof. by destruct c as [[]|[]|[]]. Qed.

Lemma unwrapLoop_result (c : CommandClass) :
  unwrapLoop c =
  (assignEncapsulationFlags
     (fold_left Z.lor (map flagOfWrapper (strippedWrappers c))
                (encapsulationFlags (fields c)))
     (core c),
   match multiWrapperOf c with
   | Some _ => [multipleCommandClassesWarning]
   | None => []
   end).
Proof.
  pose proof (unwrapLoop_spec c (encapsulationFlags (fields c))) as H.
  cbn zeta in H. rewrite assignEncapsulationFlags_id in H.
  destruct (unwrapLoop c) as [r l]; simpl in H. destruct H as [-> ->]. done.
Qed.

Lemma unwrapCommands_setCommand msg c :
  unwrapCommands (setCommand c msg) =
  (setCommand (unwrapLoop c).1 msg, (unwrapLoop c).2).
Proof. unfold unwrapCommands; simpl. by destruct (unwrapLoop c). Qed.

Lemma multiWrapperOf_core c cc l :
  multiWrapperOf c = Some (cc, l) -> core c = MultiEncapsulating cc l.
Proof.
  induction c as [cc'|cc' e IH|cc' l']; simpl; intros H; [done|by apply IH|].
  by injection H as -> ->.
Qed.

(** C1, as the specification states it, fails: whatever non-zero bit stands
    for Multi-Channel, stripping a Multi Channel wrapper from a Basic
    command leaves the flags empty, so the flags do not reflect that
    wrapper. *)
Lemma unwrapCommands_multiChannel_not_reflected :
  ~ exists multiChannel : Z,
      multiChannel <> 0 /\ flagsReflectEveryWrapper_spec multiChannel.
Proof.
  intros (mc & Hne & H).
  destruct (H (exampleMessage basicCommand) multiChannelWrapped
              CommandClasses.MultiChannel) as (c' & Hc & Hf).
  { simpl. apply elem_of_cons; by left. }
  rewrite unwrapCommands_setCommand, unwrapLoop_result in Hc.
  simpl in Hc. injection Hc as <-.
  unfold hasFlag in Hf. cbv in Hf. congruence.
Qed.

(** C1 (amended). For every inbound message, [unwrapCommands] leaves the
    command under the encapsulating layers as the message's command, and
    its encapsulation flags are the flags of the outermost command ORed
    with the flag of each stripped wrapper: Supervision for Supervision,
    Security for Security and Security 2, CRC16 for CRC-16 Encapsulation,
    and no flag for any other wrapper, Multi Channel included. Hence the
    flag of every stripped Supervision, Security and CRC-16 wrapper is set
    afterwards. *)
Theorem unwrapCommands_encapsulationFlags :
  forall (msg : Message) (c : CommandClass),
    exists c',
      command (unwrapCommands (setCommand c msg)).1 = Some c' /\
      sameUpToFlags c' (core c) /\
      encapsulationFlags (fields c') =
        fold_left Z.lor (map flagOfWrapper (strippedWrappers c))
                  (encapsulationFlags (fields c)) /\
      Forall (fun w => hasFlag (encapsulationFlags (fields c')) (flagOfWrapper w))
             (strippedWrappers c).
Proof.
  intros msg c. eexists. rewrite unwrapCommands_setCommand, unwrapLoop_result.
  split; [reflexivity|]. simpl.
  split; [|split].
  - unfold sameUpToFlags, assignEncapsulationFlags. by destruct (core c).
  - unfold assignEncapsulationFlags. by rewrite fields_withFields.
  - unfold assignEncapsulationFlags. rewrite fields_withFields. simpl.
    apply Forall_forall. intros w Hw.
    apply hasFlag_fold_elem, list_elem_of_In, in_map, list_elem_of_In, Hw.
Qed.

(** C2, as the specification states it, fails: for a Multi Command wrapper
    around two commands the message keeps the wrapper as its command, not
    the first inner command. *)
Lemma unwrapCommands_keeps_multi_wrapper :
  ~ firstInnerCommandProcessed_spec.
Proof.
  intros H.
  destruct (H (exampleMessage basicCommand) multiCommandWrapped _ _ _ eq_refl)
    as (_ & c' & Hc & Hs).
  rewrite unwrapCommands_setCommand, unwrapLoop_result in Hc.
  simpl in Hc. injection Hc as <-.
  unfold sameUpToFlags in Hs. simpl in Hs. discriminate.
Qed.

(** C2 (amended). For every inbound message whose encapsulation stack leads
    to a multi-encapsulating wrapper, [unwrapCommands] logs one warning and
    stops there: the wrapper itself, with its list of inner commands
    untouched and with the flags of the layers stripped above it, stays the
    message's command; none of the inner commands is unwrapped. *)
Theorem unwrapCommands_multiEncapsulating :
  forall (msg : Message) (c : CommandClass) cc l,
    multiWrapperOf c = Some (cc, l) ->
    unwrapCommands (setCommand c msg) =
    (setCommand
       (MultiEncapsulating
          (mkCC (ccClass cc) (ccId cc) (nodeId cc) (endpointIndex cc)
                (fold_left Z.lor (map flagOfWrapper (strippedWrappers c))
                           (encapsulationFlags (fields c))))
          l)
       msg,
     [multipleCommandClassesWarning]).
Proof.
  intros msg c cc l H.
  rewrite unwrapCommands_setCommand, unwrapLoop_result, H.
  by rewrite (multiWrapperOf_core _ _ _ H).
Qed.

Lemma unwrapCommands_multiEncapsulating_witness :
  unwrapCommands (setCommand supervisedMultiCommand (exampleMessage basicCommand)) =
  (setCommand
     (MultiEncapsulating
        (mkCC OtherCC CommandClasses.MultiCommand 5 0 EncapsulationFlags.Supervision)
        [basicCommand; binarySwitchCommand])
     (exampleMessage basicCommand),
   [multipleCommandClassesWarning]).
Proof.
  exact (unwrapCommands_multiEncapsulating (exampleMessage basicCommand)
           supervisedMultiCommand _ _ eq_refl).
Defined.

(** ** The send thread's reduce and add *)

Lemma elem_of_enqueue (t u : Transaction) (q : list Transaction) :
  u ∈ enqueue t q <-> u = t \/ u ∈ q.
Proof.
  induction q as [|v q IH]; simpl.
  - rewrite list_elem_of_singleton, elem_of_nil. tauto.
  - destruct (_ <? _)%nat.
    + rewrite !elem_of_cons. tauto.
    + rewrite !elem_of_cons, IH. tauto.
Qed.

Lemma elem_of_fold_enqueue (ts q : list Transaction) (u : Transaction) :
  u ∈ fold_left (fun q t => enqueue t q) ts q <-> u ∈ ts \/ u ∈ q.
Proof.
  revert q; induction ts as [|t ts IH]; intros q; simpl.
  - rewrite elem_of_nil. tauto.
  - rewrite IH, elem_of_enqueue, elem_of_cons. tauto.
Qed.




Lemma elem_of_List_filter {A} (p : A -> bool) (l : list A) (x : A) :
  x ∈ List.filter p l <-> x ∈ l /\ p x = true.
Proof. rewrite !list_elem_of_In. apply filter_In. Qed.

Lemma elem_of_queue_reduce (r : TransactionReducer) (s : SendThread) (u : Transaction) :
  u ∈ queue (sendThread_reduce r s) <->
  (u ∈ queue s /\ keptBy r u = true)
  \/ exists t, t ∈ queue s ++ activeTransactions s /\ requeuedBy r t = Some u.
Proof.
  unfold sendThread_reduce; simpl.
  rewrite elem_of_fold_enqueue, list_elem_of_omap, elem_of_List_filter. tauto.
Qed.

Lemma elem_of_active_reduce (r : TransactionReducer) (s : SendThread) (u : Transaction) :
  u ∈ activeTransactions (sendThread_reduce r s) <->
  u ∈ activeTransactions s /\ keptBy r u = true.
Proof. unfold sendThread_reduce; simpl. apply elem_of_List_filter. Qed.


(** ** Wake-up queue reducers *)

Lemma mayMoveToWakeupQueue_droppedOnSleep (t : Transaction) :
  mayMoveToWakeupQueue t = negb (droppedOnSleep t).
Proof.
  unfold mayMoveToWakeupQueue, droppedOnSleep, droppedOnSleep_spec,
    isWakeUpNoMoreInformation.
  destruct (messageIsPing (message t)); [done|].
  destruct (bool_decide (priority t = MessagePriority.Nonce)); [done|].
  destruct (bool_decide (priority t = MessagePriority.Supervision)); [done|].
  destruct (command (message t)) as [c|]; simpl.
  - destruct (bool_decide (ccClass (fields c) = WakeUpCCNoMoreInformation)); [done|].
    by destruct (bool_decide (tag t = Some "compat")).
  - by destruct (bool_decide (tag t = Some "compat")).
Qed.

Lemma moveMessagesToWakeupQueue_reducer_amended (nodeId : Z) (t : Transaction) :
  moveMessagesToWakeupQueue_reducer nodeId t = sleepReducer_amended nodeId t.
Proof.
  unfold moveMessagesToWakeupQueue_reducer, sleepReducer_amended, forNode.
  rewrite mayMoveToWakeupQueue_droppedOnSleep.
  destruct (bool_decide (getNodeId (message t) = Some nodeId)); simpl; [|done].
  by destruct (droppedOnSleep t).
Qed.

(** After the reducer of [moveMessagesToWakeupQueue], what the send thread
    still holds for the node is queued at [WakeUp] priority. *)
Lemma moveMessagesToWakeupQueue_pending (nodeId : Z) (s : SendThread) :
  let s' := sendThread_reduce (moveMessagesToWakeupQueue_reducer nodeId) s in
  Forall (fun u => forNode nodeId u = true -> priority u = MessagePriority.WakeUp)
         (queue s')
  /\ Forall (fun u => forNode nodeId u = false) (activeTransactions s').
Proof.
  cbn zeta. split; apply Forall_forall; intros u Hu.
  - apply elem_of_queue_reduce in Hu as [[_ Hk]|(t & _ & Hr)]; intros Hn.
    + unfold keptBy in Hk. rewrite moveMessagesToWakeupQueue_reducer_amended in Hk.
      unfold sleepReducer_amended in Hk. rewrite Hn in Hk.
      destruct (droppedOnSleep u); [done|].
      by destruct (bool_decide (priority u = MessagePriority.NodeQuery)).
    + unfold requeuedBy in Hr. rewrite moveMessagesToWakeupQueue_reducer_amended in Hr.
      unfold sleepReducer_amended in Hr.
      destruct (forNode nodeId t); [|done].
      destruct (droppedOnSleep t); [done|].
      destruct (bool_decide (priority t = MessagePriority.NodeQuery));
        by injection Hr as <-.
  - apply elem_of_active_reduce in Hu as [_ Hk].
    unfold keptBy in Hk. rewrite moveMessagesToWakeupQueue_reducer_amended in Hk.
    unfold sleepReducer_amended in Hk.
    destruct (forNode nodeId u); [|done].
    destruct (droppedOnSleep u); [done|].
    by destruct (bool_decide (priority u = MessagePriority.NodeQuery)).
Qed.

(** C3, as the specification states it, fails: a transaction of the node
    that is tagged as a compat query, and is none of the kinds listed as
    dropped, is rejected and not requeued. *)
Lemma compat_query_not_requeued_on_sleep :
  moveMessagesToWakeupQueue_reducer 5 compatTransaction
  = Reject "The node is asleep" ZWaveErrorCodes.Controller_MessageDropped
  /\ sleepReducer_spec 5 compatTransaction
     = Requeue (Some MessagePriority.WakeUp) None
  /\ moveMessagesToWakeupQueue_reducer 5 compatTransaction
     <> sleepReducer_spec 5 compatTransaction.
Proof. repeat split; vm_compute; congruence. Qed.

(** C3 (amended). The reducer that the transition Awake to Asleep applies
    to every queued and active transaction keeps the transactions of other
    nodes; of the node's own, it rejects with [Controller_MessageDropped]
    the pings, the Nonce-priority and Supervision-priority transactions,
    the WakeUpNoMoreInformation commands and the transactions tagged
    "compat"; it requeues the remaining NodeQuery-priority transactions at
    WakeUp priority with tag "interview", and every other one at WakeUp
    priority. Afterwards whatever is still queued for the node has WakeUp
    priority, and nothing of the node is active. *)
Theorem moveMessagesToWakeupQueue_classification :
  forall (nodeId : Z) (d : Driver) (t : Transaction),
    moveMessagesToWakeupQueue_reducer nodeId t = sleepReducer_amended nodeId t
    /\ sendThread (moveMessagesToWakeupQueue nodeId d)
       = sendThread_reduce (moveMessagesToWakeupQueue_reducer nodeId) (sendThread d)
    /\ Forall (fun u => forNode nodeId u = true -> priority u = MessagePriority.WakeUp)
              (queue (sendThread (moveMessagesToWakeupQueue nodeId d)))
    /\ Forall (fun u => forNode nodeId u = false)
              (activeTransactions (sendThread (moveMessagesToWakeupQueue nodeId d))).
Proof.
  intros nodeId d t.
  split; [apply moveMessagesToWakeupQueue_reducer_amended|].
  split; [reflexivity|].
  apply (moveMessagesToWakeupQueue_pending nodeId (sendThread d)).
Qed.














(** ** Missing node acknowledgements *)



Lemma nodeOf_updateNode node d :
  is_Some (_controller d) -> nodeOf (id node) (updateNode node d) = Some node.
Proof.
  intros [c Hc]. unfold nodeOf, updateNode. rewrite Hc. simpl.
  apply lookup_insert_eq.
Qed.










(** ** S2 decode errors *)

Lemma isS2NonceReport_nonceReportTransaction nodeId :
  isS2NonceReport nodeId (nonceReportTransaction nodeId) = true.
Proof.
  unfold isS2NonceReport, nonceReportTransaction; simpl.
  by rewrite !bool_decide_true.
Qed.

Lemma existsb_elem_of {A} (p : A -> bool) (l : list A) (x : A) :
  x ∈ l -> p x = true -> existsb p l = true.
Proof.
  intros Hx Hp. apply existsb_exists. exists x. by rewrite <- list_elem_of_In.
Qed.

Lemma hasPendingTransactions_sendNonce nodeId d :
  hasPendingTransactions (isS2NonceReport nodeId) (sendNonce nodeId d) = true.
Proof.
  unfold hasPendingTransactions, hasPendingTransactions_in, sendNonce,
    sendThread_send_add, sendThread_add; simpl.
  rewrite (existsb_elem_of _ _ (nonceReportTransaction nodeId)); [done| |].
  - apply elem_of_enqueue. by left.
  - apply isS2NonceReport_nonceReportTransaction.
Qed.

(** The handler on a known node that is not being bootstrapped. *)
Lemma handleSecurityS2DecodeError_not_bootstrapping text code m cmd d node :
  isS2DecodeError code = true ->
  command m = Some cmd ->
  getNodeId m = Some (id node) ->
  nodeOf (id node) d = Some node ->
  serial d = Some true ->
  bootstrapping d <> Some (id node) ->
  exists d' node' rest,
    handleSecurityS2DecodeError (ZWaveError text code) (Some m) d = Return (true, d')
    /\ effects d' = effects d ++ SerialWrite [0x06] :: rest
    /\ sendThread d'
       = (if hasPendingTransactions (isS2NonceReport (id node)) d
          then sendThread d
          else sendThread_add (nonceReportTransaction (id node)) (sendThread d))
    /\ hasPendingTransactions (isS2NonceReport (id node)) d' = true
    /\ serial d' = serial d
    /\ bootstrapping d' = bootstrapping d
    /\ id node' = id node
    /\ nodeOf (id node) d' = Some node'.
Proof.
  intros Hcode Hcmd Hid Hnode Hserial Hboot.
  unfold handleSecurityS2DecodeError, isCommandClassContainer.
  unfold isS2DecodeError in Hcode. rewrite Hcode, Hcmd, Hid. simpl andb. cbv iota.
  unfold nodeOf in Hnode. unfold bootstrapping in Hboot.
  destruct (_controller d) as [c|] eqn:Hc; [|done].
  rewrite Hnode. unfold writeHeader, writeSerial. rewrite Hserial.
  rewrite (bool_decide_false (bootstrappingS2NodeId c = Some (id node))) by done.
  set (node' := if InterviewStage.ltb _ _ then _ else _).
  assert (Hid' : id node' = id node) by (subst node'; by destruct (InterviewStage.ltb _ _)).
  destruct (hasPendingTransactions (isS2NonceReport (id node)) d) eqn:Hp.
  - (* a nonce report is pending already *)
    assert (Hp' : hasPendingTransactions (isS2NonceReport (id node))
                    (updateNode node'
                       (perform (Log (DriverLogMessage m []))
                          (perform (SerialWrite [MessageHeaders.byte MessageHeaders.ACK]) d)))
                  = true).
    { unfold updateNode. simpl. rewrite Hc. exact Hp. }
    rewrite Hp'. simpl negb. cbv iota.
    eexists _, node', _. split; [reflexivity|].
    unfold bootstrapping, nodeOf, updateNode; simpl; rewrite Hc; simpl.
    split; [by rewrite <- !app_assoc|].
    split; [done|]. split; [exact Hp|]. split; [done|]. split; [done|].
    split; [done|]. rewrite <- Hid'. apply lookup_insert_eq.
  - assert (Hp' : hasPendingTransactions (isS2NonceReport (id node))
                    (updateNode node'
                       (perform (Log (DriverLogMessage m []))
                          (perform (SerialWrite [MessageHeaders.byte MessageHeaders.ACK]) d)))
                  = false).
    { unfold updateNode. simpl. rewrite Hc. exact Hp. }
    rewrite Hp'. simpl negb. cbv iota.
    eexists _, node', _. split; [reflexivity|].
    split.
    { unfold updateNode; simpl; rewrite Hc; simpl. by rewrite <- !app_assoc. }
    split.
    { unfold updateNode; simpl; rewrite Hc; done. }
    split; [apply hasPendingTransactions_sendNonce|].
    unfold bootstrapping, nodeOf, updateNode; simpl; rewrite Hc; simpl.
    split; [done|]. split; [done|].
    split; [done|]. rewrite <- Hid'. apply lookup_insert_eq.
Qed.

(** The handler on a known node that is being bootstrapped. *)
Lemma handleSecurityS2DecodeError_bootstrapping text code m cmd d node :
  isS2DecodeError code = true ->
  command m = Some cmd ->
  getNodeId m = Some (id node) ->
  nodeOf (id node) d = Some node ->
  serial d = Some true ->
  bootstrapping d = Some (id node) ->
  exists d' rest,
    handleSecurityS2DecodeError (ZWaveError text code) (Some m) d = Return (true, d')
    /\ effects d' = effects d ++ SerialWrite [0x06] :: rest
    /\ (hasTempKey (id node) d = true ->
        spanIsNone (id node) d = false ->
        sendThread d' = sendThread d
        /\ exists pre,
             effects d'
             = pre ++ [CancelSecureBootstrapS2 KEXFailType.BootstrappingCanceled]).
Proof.
  intros Hcode Hcmd Hid Hnode Hserial Hboot.
  unfold handleSecurityS2DecodeError, isCommandClassContainer.
  unfold isS2DecodeError in Hcode. rewrite Hcode, Hcmd, Hid. simpl andb. cbv iota.
  unfold nodeOf in Hnode. unfold bootstrapping in Hboot.
  unfold hasTempKey, spanIsNone.
  destruct (_controller d) as [c|] eqn:Hc; [|done].
  rewrite Hnode. unfold writeHeader, writeSerial. rewrite Hserial.
  rewrite (bool_decide_true (bootstrappingS2NodeId c = Some (id node))) by done.
  set (node' := if InterviewStage.ltb _ _ then _ else _).
  unfold updateNode; simpl; rewrite Hc; simpl.
  destruct (_securityManager2 d) as [sm|].
  - destruct (bool_decide (id node ∈ tempKeys sm)).
    + destruct (bool_decide (getSPANState (id node) sm = SPANState.None)).
      * eexists _, _. split; [reflexivity|]. simpl.
        split; [by rewrite <- !app_assoc|]. done.
      * eexists _, _. split; [reflexivity|]. simpl.
        split; [by rewrite <- !app_assoc|]. intros _ _. split; [done|].
        by eexists.
    + eexists _, _. split; [reflexivity|]. simpl.
      split; [by rewrite <- !app_assoc|]. done.
  - eexists _, _. split; [reflexivity|]. simpl.
    split; [by rewrite <- !app_assoc|]. done.
Qed.

(** C6. On an S2 decode error ([Security2CC_NoSPAN] or
    [Security2CC_CannotDecode]) in a command of a node that the controller
    knows, with the serial port open: the handler answers [true] and the
    first thing it does is to write ACK (0x06) to the wire. If the node is
    not the one being bootstrapped, it enqueues an S2 Nonce Report for the
    node exactly when none is pending, and a second decode error of the
    node right after leaves the send thread as it is: no second Nonce
    Report is enqueued. If the node is being bootstrapped, a temporary key
    is installed for it and its SPAN state is not [None], the handler
    enqueues nothing and its last action is to cancel the bootstrapping
    with [KEXFailType.BootstrappingCanceled]. *)
Theorem handleSecurityS2DecodeError_reply :
  forall (text : string) (code : ZWaveErrorCodes.t) (m : Message)
         (cmd : CommandClass) (d : Driver) (node : ZWaveNode),
    isS2DecodeError code = true ->
    command m = Some cmd ->
    getNodeId m = Some (id node) ->
    nodeOf (id node) d = Some node ->
    serial d = Some true ->
    exists d' rest,
      handleSecurityS2DecodeError (ZWaveError text code) (Some m) d = Return (true, d')
      /\ effects d' = effects d ++ SerialWrite [MessageHeaders.byte MessageHeaders.ACK] :: rest
      /\ (bootstrapping d <> Some (id node) ->
          sendThread d'
          = (if hasPendingTransactions (isS2NonceReport (id node)) d
             then sendThread d
             else sendThread_add (nonceReportTransaction (id node)) (sendThread d))
          /\ forall text2 code2 m2 cmd2,
               isS2DecodeError code2 = true ->
               command m2 = Some cmd2 ->
               getNodeId m2 = Some (id node) ->
               exists d'',
                 handleSecurityS2DecodeError (ZWaveError text2 code2) (Some m2) d'
                 = Return (true, d'')
                 /\ sendThread d'' = sendThread d')
      /\ (bootstrapping d = Some (id node) ->
          hasTempKey (id node) d = true ->
          spanIsNone (id node) d = false ->
          sendThread d' = sendThread d
          /\ exists pre,
               effects d'
               = pre ++ [CancelSecureBootstrapS2 KEXFailType.BootstrappingCanceled]).
Proof.
  intros text code m cmd d node Hcode Hcmd Hid Hnode Hserial.
  destruct (decide (bootstrapping d = Some (id node))) as [Hboot|Hboot].
  - destruct (handleSecurityS2DecodeError_bootstrapping text code m cmd d node)
      as (d' & rest & Hrun & Heff & Hcancel); try done.
    exists d', rest. split; [done|]. split; [done|]. split; [done|].
    intros _. exact Hcancel.
  - destruct (handleSecurityS2DecodeError_not_bootstrapping text code m cmd d node)
      as (d' & node' & rest & Hrun & Heff & Hst & Hpending & Hser & Hb & Hid' & Hnode');
      try done.
    exists d', rest. split; [done|]. split; [done|]. split; [|done].
    intros _. split; [done|].
    intros text2 code2 m2 cmd2 Hcode2 Hcmd2 Hid2.
    destruct (handleSecurityS2DecodeError_not_bootstrapping text2 code2 m2 cmd2 d' node')
      as (d'' & _ & _ & Hrun2 & _ & Hst2 & _); try done.
    + by rewrite Hid'.
    + by rewrite Hid'.
    + by rewrite Hser.
    + by rewrite Hid', Hb.
    + exists d''. split; [done|]. by rewrite Hst2, Hid', Hpending.
Qed.

Lemma handleSecurityS2DecodeError_reply_witness :
  exists d' rest,
    handleSecurityS2DecodeError
      (ZWaveError "no SPAN" ZWaveErrorCodes.Security2CC_NoSPAN) (Some s2Message)
      exampleDriver = Return (true, d')
    /\ effects d' = effects exampleDriver ++ SerialWrite [0x06] :: rest.
Proof.
  destruct (handleSecurityS2DecodeError_reply "no SPAN"
              ZWaveErrorCodes.Security2CC_NoSPAN s2Message _ exampleDriver
              batteryNode eq_refl eq_refl eq_refl eq_refl eq_refl)
    as (d' & rest & H & Heff & _).
  exists d', rest. split; [exact H|exact Heff].
Defined.

(** ** Decode errors *)

Lemma serial_performAll es d : serial (performAll es d) = serial d.
Proof. revert d; induction es as [|e es IH]; intros d; simpl; [done|by rewrite IH]. Qed.

Lemma effects_updateNode node d : effects (updateNode node d) = effects d.
Proof. unfold updateNode. by destruct (_controller d). Qed.

Lemma handleDecodeError_reply (e : Error) (data : list Z) (msg : option Message) :
  (handleDecodeError e data msg).2 = decodeReply_amended e.
Proof.
  destruct e as [text code|text]; simpl.
  - by destruct code, msg.
  - by destruct (occursIn _ text).
Qed.

(** C7, as the specification states it, fails: [CC_NotSupported] is a codec
    error of the catalogue, it is not frame-level, and [handleDecodeError]
    chooses no reply for it but throws it again; the receive handler then
    logs it and writes nothing to the wire. *)
Lemma not_supported_error_gets_no_reply :
  ~ codecErrorsAnswered_spec
  /\ (handleDecodeError notSupportedError [] (Some s2Message)).2
     = Throw notSupportedError
  /\ serialport_onData_decodeFailure (fun _ => None) (fun _ _ => None)
       notSupportedError [] (Some s2Message) exampleDriver
     = Return (None,
               perform (Log (DriverPrint "The node does not support this CC" LError))
                       exampleDriver).
Proof.
  split; [|split; reflexivity].
  intros H.
  specialize (H "" ZWaveErrorCodes.CC_NotSupported [] None eq_refl).
  discriminate H.
Qed.

(** The receive handler's inner [try] only adds to the effects, and where
    the S2 handler declines and [handleDecodeError] chooses a reply with
    the port open, that reply is among them. *)
Lemma decodeFailure_try_writes getId sendErr e data msg d h :
  handleSecurityS2DecodeError e msg d = Return (false, d) ->
  decodeReply_amended e = Return h ->
  serial d = Some true ->
  SerialWrite [MessageHeaders.byte h]
    ∈ effects (decodeFailure_try getId sendErr e data msg d).1.
Proof.
  intros Hs2 Hreply Hserial.
  unfold decodeFailure_try. rewrite Hs2.
  pose proof (handleDecodeError_reply e data msg) as Hr.
  destruct (handleDecodeError e data msg) as [log response]. simpl in Hr.
  rewrite Hr, Hreply.
  unfold writeHeader, writeSerial. rewrite serial_performAll, Hserial.
  assert (Hin : SerialWrite [MessageHeaders.byte h]
                  ∈ effects (perform (SerialWrite [MessageHeaders.byte h])
                               (performAll (map Log log) d))).
  { simpl. apply elem_of_app. right. by apply list_elem_of_singleton. }
  revert Hin.
  generalize (perform (SerialWrite [MessageHeaders.byte h])
                (performAll (map Log log) d)).
  intros d1 Hin.
  destruct (_controller d1) as [c|] eqn:Hc; [|done].
  destruct msg as [m|]; [|done].
  destruct (command m) as [cmd|]; [|done].
  unfold getNodeUnsafe, controller. rewrite Hc.
  assert (Hupd : forall o : option ZWaveNode,
             SerialWrite [MessageHeaders.byte h]
               ∈ effects (match o with
                          | Some n => updateNode (incrementCommandsDroppedRX n) d1
                          | None => d1
                          end)).
  { intros [n|]; [by rewrite effects_updateNode|done]. }
  destruct (getNodeId m) as [nid|].
  - specialize (Hupd (nodes c !! nid)).
    destruct (getId cmd); [|done].
    destruct (bool_decide _); [|done].
    destruct (nodes c !! nid); [|done].
    simpl. apply elem_of_app. by left.
  - specialize (Hupd None). simpl in Hupd.
    destruct (getId cmd); [|done].
    destruct (bool_decide _); done.
Qed.

Lemma serialWrites_perform x d :
  serialWrites (effects (perform x d))
  = serialWrites (effects d)
    ++ match x with SerialWrite data => [data] | _ => [] end.
Proof.
  unfold serialWrites. simpl. rewrite omap_app. f_equal. by destruct x.
Qed.

Lemma serialWrites_performAll_Log log d :
  serialWrites (effects (performAll (map Log log) d)) = serialWrites (effects d).
Proof.
  revert d. induction log as [|l log IH]; intros d; simpl; [done|].
  rewrite IH, serialWrites_perform. by rewrite app_nil_r.
Qed.

Lemma serialWrites_reportDecodeFailure ee d :
  serialWrites (effects (reportDecodeFailure ee d)) = serialWrites (effects d).
Proof.
  unfold reportDecodeFailure. destruct (occursIn _ _).
  - rewrite !serialWrites_perform. by rewrite !app_nil_r.
  - rewrite serialWrites_perform. by rewrite app_nil_r.
Qed.

Lemma serialport_onData_decodeFailure_report getId sendErr e data msg d :
  serialport_onData_decodeFailure getId sendErr e data msg d
  = Return (None,
            match decodeFailure_try getId sendErr e data msg d with
            | (d1, None) => d1
            | (d1, Some ee) => reportDecodeFailure ee d1
            end).
Proof.
  unfold serialport_onData_decodeFailure, reportDecodeFailure.
  destruct (decodeFailure_try getId sendErr e data msg d) as [d1 [ee|]]; [|done].
  by destruct (occursIn _ _).
Qed.

(** Where the S2 handler declines and [handleDecodeError] chooses a reply
    with the port open, the inner [try] writes that reply and nothing else
    to the port. *)
Lemma decodeFailure_try_writes_once getId sendErr e data msg d h :
  handleSecurityS2DecodeError e msg d = Return (false, d) ->
  decodeReply_amended e = Return h ->
  serial d = Some true ->
  serialWrites (effects (decodeFailure_try getId sendErr e data msg d).1)
  = serialWrites (effects d) ++ [[MessageHeaders.byte h]].
Proof.
  intros Hs2 Hreply Hserial.
  unfold decodeFailure_try. rewrite Hs2.
  pose proof (handleDecodeError_reply e data msg) as Hr.
  destruct (handleDecodeError e data msg) as [log response]. simpl in Hr.
  rewrite Hr, Hreply.
  unfold writeHeader, writeSerial. rewrite serial_performAll, Hserial.
  assert (Hw : serialWrites (effects (perform (SerialWrite [MessageHeaders.byte h])
                                        (performAll (map Log log) d)))
               = serialWrites (effects d) ++ [[MessageHeaders.byte h]]).
  { by rewrite serialWrites_perform, serialWrites_performAll_Log. }
  revert Hw.
  generalize (perform (SerialWrite [MessageHeaders.byte h])
                (performAll (map Log log) d)).
  intros d1 Hw.
  destruct (_controller d1) as [c|] eqn:Hc; [|done].
  destruct msg as [m|]; [|done].
  destruct (command m) as [cmd|]; [|done].
  unfold getNodeUnsafe, controller. rewrite Hc.
  assert (Hupd : forall o : option ZWaveNode,
             serialWrites (effects (match o with
                                    | Some n => updateNode (incrementCommandsDroppedRX n) d1
                                    | None => d1
                                    end))
             = serialWrites (effects d) ++ [[MessageHeaders.byte h]]).
  { intros [n|]; [by rewrite effects_updateNode|done]. }
  destruct (getNodeId m) as [nid|].
  - specialize (Hupd (nodes c !! nid)).
    destruct (getId cmd); [|done].
    destruct (bool_decide _); [|done].
    destruct (nodes c !! nid); [|done].
    unfold sendReport_NoSupport. cbn [fst].
    by rewrite serialWrites_perform, app_nil_r.
  - specialize (Hupd None). simpl in Hupd.
    destruct (getId cmd); [|done].
    destruct (bool_decide _); done.
Qed.

(** C7 (amended). For every error that decoding an inbound frame throws,
    [handleDecodeError] chooses NAK exactly for the frame-level errors
    ([PacketFormat_Invalid], [PacketFormat_Checksum],
    [PacketFormat_Truncated]); it chooses ACK for
    [Deserialization_NotImplemented], [CC_NotImplemented],
    [PacketFormat_InvalidPayload], [Driver_NotReady], [Driver_NoSecurity],
    [Security2CC_NotInitialized] and for a database that is not open; it
    throws every other error again. The receive handler asks the S2 handler
    first, which declines every error but [Security2CC_NoSPAN] and
    [Security2CC_CannotDecode]; what the S2 handler takes, [handleDecodeError]
    never sees. Where the S2 handler has declined: if a reply is chosen and
    the port is open, the receive handler writes that reply, and nothing
    else, to the wire; if the error is thrown again, the receive handler
    writes nothing to the wire, neither ACK nor NAK, and its only effect is
    to print the error's text at the error level (or, for a text that says
    that the serial port is not open, to emit an error and destroy the
    driver). In every case the receive handler returns without an exception
    and with no message left to forward to the send thread: the message is
    dropped. *)
Theorem handleDecodeError_replies :
  forall (getSessionId : CommandClass -> option Z)
         (sendReportError : Z -> Z -> option Error)
         (e : Error) (data : list Z) (msg : option Message) (d : Driver),
    (handleDecodeError e data msg).2 = decodeReply_amended e
    /\ ((handleDecodeError e data msg).2 = Return MessageHeaders.NAK
        <-> exists text code,
              e = ZWaveError text code /\ isFrameLevelError code = true)
    /\ (match e with
        | ZWaveError _ code => isS2DecodeError code = false
        | OtherError _ => True
        end -> handleSecurityS2DecodeError e msg d = Return (false, d))
    /\ exists d',
         serialport_onData_decodeFailure getSessionId sendReportError e data msg d
         = Return (None, d')
         /\ (forall d1,
               handleSecurityS2DecodeError e msg d = Return (true, d1) -> d' = d1)
         /\ (forall h,
               handleSecurityS2DecodeError e msg d = Return (false, d) ->
               decodeReply_amended e = Return h ->
               serial d = Some true ->
               SerialWrite [MessageHeaders.byte h] ∈ effects d'
               /\ serialWrites (effects d')
                  = serialWrites (effects d) ++ [[MessageHeaders.byte h]])
         /\ (forall ee,
               handleSecurityS2DecodeError e msg d = Return (false, d) ->
               decodeReply_amended e = Throw ee ->
               ee = e
               /\ d' = reportDecodeFailure e d
               /\ (occursIn "serial port is not open" (errorMessage e) = false ->
                   effects d'
                   = effects d ++ [Log (DriverPrint (errorMessage e) LError)])
               /\ serialWrites (effects d') = serialWrites (effects d)).
Proof.
  intros getId sendErr e data msg d.
  split; [apply handleDecodeError_reply|].
  split.
  { rewrite handleDecodeError_reply. split.
    - destruct e as [text code|text]; simpl.
      + intros H. exists text, code. split; [done|].
        destruct (isFrameLevelError code); [done|].
        by destruct (isAcknowledgedError code).
      + by destruct (occursIn _ text).
    - intros (text & code & -> & Hf). simpl. by rewrite Hf. }
  split.
  { destruct e as [text code|text]; [|done].
    intros Hcode. unfold handleSecurityS2DecodeError.
    destruct msg as [m|]; [|done].
    unfold isS2DecodeError in Hcode. by rewrite Hcode. }
  rewrite serialport_onData_decodeFailure_report.
  eexists. split; [reflexivity|].
  split; [|split].
  - intros d1 Hs2. unfold decodeFailure_try. by rewrite Hs2.
  - intros h Hs2 Hreply Hserial.
    pose proof (decodeFailure_try_writes getId sendErr e data msg d h
                  Hs2 Hreply Hserial) as Hin.
    pose proof (decodeFailure_try_writes_once getId sendErr e data msg d h
                  Hs2 Hreply Hserial) as Hw.
    destruct (decodeFailure_try getId sendErr e data msg d) as [d1 [ee|]];
      simpl in Hin, Hw.
    + split; [|by rewrite serialWrites_reportDecodeFailure].
      unfold reportDecodeFailure. destruct (occursIn _ _); simpl.
      * apply elem_of_app; left. by apply elem_of_app; left.
      * by apply elem_of_app; left.
    + done.
  - intros ee Hs2 Hreply.
    assert (Hee : ee = e).
    { destruct e as [text code|text]; simpl in Hreply.
      - destruct (isFrameLevelError code); [done|].
        destruct (isAcknowledgedError code); [done|]. by inversion Hreply.
      - destruct (occursIn _ text); [done|]. by inversion Hreply. }
    subst ee.
    assert (Htry : decodeFailure_try getId sendErr e data msg d = (d, Some e)).
    { unfold decodeFailure_try. rewrite Hs2.
      pose proof (handleDecodeError_reply e data msg) as Hr.
      assert (Hlog : (handleDecodeError e data msg).1 = []).
      { destruct e as [text code|text]; simpl in *.
        - by destruct code.
        - by destruct (occursIn _ text). }
      destruct (handleDecodeError e data msg) as [log response].
      simpl in Hr, Hlog. subst log. by rewrite Hr, Hreply. }
    rewrite Htry.
    split; [done|]. split; [done|]. split.
    + intros Hport. unfold reportDecodeFailure. by rewrite Hport.
    + apply serialWrites_reportDecodeFailure.
Qed.

(** ** Transport Service sessions *)

Lemma Math_ceil_div_ceiling (a b : Z) :
  0 < b -> exists n, Math_ceil_div a b = Num n /\ isCeilingOf a b n.
Proof.
  intros Hb. unfold Math_ceil_div, isCeilingOf.
  rewrite (proj2 (Z.eqb_neq b 0)) by lia.
  eexists; split; [reflexivity|].
  pose proof (Z.div_mod (- a) b ltac:(lia)) as Hdm.
  pose proof (Z.mod_pos_bound (- a) b Hb) as Hm.
  nia.
Qed.

Lemma Math_floor_div_floor (a b : Z) :
  0 < b -> exists k, Math_floor_div a b = Num k /\ isFloorOf a b k.
Proof.
  intros Hb. unfold Math_floor_div, isFloorOf.
  rewrite (proj2 (Z.eqb_neq b 0)) by lia.
  eexists; split; [reflexivity|].
  pose proof (Z.div_mod a b ltac:(lia)) as Hdm.
  pose proof (Z.mod_pos_bound a b Hb) as Hm.
  nia.
Qed.

Lemma transportSessionsOf_setTransportService nodeId m d :
  is_Some (nodeSessions d !! nodeId) ->
  transportSessionsOf nodeId (setTransportService nodeId m d) = m.
Proof.
  intros [s Hs]. unfold transportSessionsOf, setTransportService.
  rewrite Hs. simpl. by rewrite lookup_insert_eq.
Qed.

Lemma nodeSessions_ensure nodeId d :
  is_Some (nodeSessions (ensureNodeSessions nodeId d).2 !! nodeId)
  /\ interpreters (ensureNodeSessions nodeId d).2 = interpreters d
  /\ transportService (ensureNodeSessions nodeId d).1 = transportSessionsOf nodeId d
  /\ transportSessionsOf nodeId (ensureNodeSessions nodeId d).2
     = transportSessionsOf nodeId d.
Proof.
  unfold ensureNodeSessions, transportSessionsOf.
  destruct (nodeSessions d !! nodeId) as [s|] eqn:Hs; simpl.
  - by rewrite Hs.
  - by rewrite lookup_insert_eq.
Qed.

Lemma nodeSessions_setInterpreters l d :
  nodeSessions (setInterpreters l d) = nodeSessions d.
Proof. reflexivity. Qed.

Lemma nodeSessions_stopInterpreter a d :
  nodeSessions (stopInterpreter a d) = nodeSessions d.
Proof. unfold stopInterpreter. by destruct (interpreters d !! a). Qed.

Lemma interpreters_stopInterpreter a d :
  interpreters (stopInterpreter a d)
  = match interpreters d !! a with
    | Some i => <[a := stop i]> (interpreters d)
    | None => interpreters d
    end.
Proof. unfold stopInterpreter. by destruct (interpreters d !! a). Qed.

Lemma interpreters_setTransportService nodeId m d :
  interpreters (setTransportService nodeId m d) = interpreters d.
Proof. unfold setTransportService. by destruct (nodeSessions d !! nodeId). Qed.

Lemma nodeSessions_setTransportService_is_Some nodeId m d :
  is_Some (nodeSessions d !! nodeId) ->
  is_Some (nodeSessions (setTransportService nodeId m d) !! nodeId).
Proof.
  intros [s Hs]. unfold setTransportService. rewrite Hs. simpl.
  rewrite lookup_insert_eq. by eexists.
Qed.

(** What a first segment does to the sessions of its node and to the
    interpreters. *)
Lemma handleTransportServiceCommand_first d nodeId sessionId datagramSize partialDatagram :
  let d' := handleTransportServiceCommand
              (FirstSegment nodeId sessionId datagramSize partialDatagram) d in
  let fresh := length (interpreters d) in
  transportSessionsOf nodeId d'
  = <[sessionId := mkSession (Z.of_nat (length partialDatagram)) fresh]> ∅
  /\ interpreters d' !! fresh
     = Some (mkInterpreter sessionId
               (Math_ceil_div datagramSize (Z.of_nat (length partialDatagram)))
               requestMissingSegmentR2 false [])
  /\ forall old i,
       transportSessionsOf nodeId d !! sessionId = Some old ->
       interpreters d !! interpreter old = Some i ->
       interpreters d' !! interpreter old = Some (stop i).
Proof.
  cbn zeta. unfold handleTransportServiceCommand. simpl ts_nodeId. simpl ts_sessionId.
  pose proof (nodeSessions_ensure nodeId d) as (Hsome & Hint & Hts & _).
  destruct (ensureNodeSessions nodeId d) as [ns d0]. simpl in Hsome, Hint, Hts.
  rewrite Hts.
  set (d1 := match transportSessionsOf nodeId d !! sessionId with
             | Some session => stopInterpreter (interpreter session) d0
             | None => d0
             end).
  assert (Hns1 : nodeSessions d1 = nodeSessions d0).
  { subst d1. destruct (_ !! sessionId); [apply nodeSessions_stopInterpreter|done]. }
  assert (Hlen1 : length (interpreters d1) = length (interpreters d)).
  { subst d1. destruct (_ !! sessionId) as [s|]; [|by rewrite Hint].
    rewrite interpreters_stopInterpreter, Hint.
    destruct (interpreters d !! interpreter s); [apply length_insert|done]. }
  assert (Hsome1 : is_Some (nodeSessions d1 !! nodeId)) by (by rewrite Hns1).
  rewrite interpreters_setTransportService. simpl interpreters.
  rewrite interpreters_setTransportService.
  split; [|split].
  - rewrite transportSessionsOf_setTransportService.
    + by rewrite Hlen1.
    + rewrite nodeSessions_setInterpreters. simpl nodeSessions.
      by apply nodeSessions_setTransportService_is_Some.
  - rewrite <- Hlen1. rewrite lookup_app_r by lia.
    by rewrite Nat.sub_diag.
  - intros old i Hold Hi. subst d1. rewrite Hold.
    rewrite interpreters_stopInterpreter, Hint, Hi.
    rewrite lookup_app_l.
    + apply list_lookup_insert_eq. by eapply lookup_lt_Some.
    + rewrite length_insert. by eapply lookup_lt_Some.
Qed.

(** What a subsequent segment of a known session does. *)
Lemma handleTransportServiceCommand_subsequent d nodeId sessionId datagramSize
    datagramOffset partialDatagram session i :
  transportSessionsOf nodeId d !! sessionId = Some session ->
  interpreters d !! interpreter session = Some i ->
  let d' := handleTransportServiceCommand
              (SubsequentSegment nodeId sessionId datagramSize datagramOffset
                                 partialDatagram) d in
  interpreters d' !! interpreter session
  = Some (deliver (segment (Math_floor_div datagramOffset (fragmentSize session))) i)
  /\ transportSessionsOf nodeId d' = transportSessionsOf nodeId d
  /\ effects d' = effects d.
Proof.
  intros Hs Hi. cbn zeta.
  unfold handleTransportServiceCommand. simpl ts_nodeId. simpl ts_sessionId.
  pose proof (nodeSessions_ensure nodeId d) as (_ & Hint & Hts & Hts2).
  assert (Hd0 : (ensureNodeSessions nodeId d).2 = d).
  { unfold ensureNodeSessions. unfold transportSessionsOf in Hs.
    destruct (nodeSessions d !! nodeId); [done|]. by rewrite lookup_empty in Hs. }
  destruct (ensureNodeSessions nodeId d) as [ns d0]. simpl in Hint, Hts, Hts2, Hd0.
  subst d0. rewrite Hts, Hs.
  unfold sendToInterpreter. rewrite Hi. simpl.
  split; [|done].
  apply list_lookup_insert_eq. by eapply lookup_lt_Some.
Qed.

(** C8. A FirstSegment with a non-empty partial datagram (re)initializes
    the RX session of its node and session id: the node's session map
    holds that session only, with the length of the partial datagram as
    fragment size and with a new, running state machine whose number of
    segments is the ceiling of datagram size over fragment size; the state
    machine of a prior session with the same id is stopped and the session
    is no longer registered. A SubsequentSegment of a registered session
    with a positive fragment size is forwarded to that session's state
    machine as a segment event whose index is the floor of datagram offset
    over fragment size, and changes nothing else. *)
Theorem handleTransportServiceCommand_sessions :
  forall (d : Driver) (nodeId sessionId datagramSize datagramOffset : Z)
         (partialDatagram : list Z),
    (forall fragment : Z,
       fragment = Z.of_nat (length partialDatagram) ->
       0 < fragment ->
       let d' := handleTransportServiceCommand
                   (FirstSegment nodeId sessionId datagramSize partialDatagram) d in
       exists n,
         isCeilingOf datagramSize fragment n
         /\ transportSessionsOf nodeId d'
            = <[sessionId := mkSession fragment (length (interpreters d))]> ∅
         /\ interpreters d' !! length (interpreters d)
            = Some (mkInterpreter sessionId (Num n) requestMissingSegmentR2 false [])
         /\ forall old i,
              transportSessionsOf nodeId d !! sessionId = Some old ->
              interpreters d !! interpreter old = Some i ->
              interpreters d' !! interpreter old = Some (stop i)
              /\ interpreter old <> length (interpreters d))
    /\ (forall session i,
          transportSessionsOf nodeId d !! sessionId = Some session ->
          interpreters d !! interpreter session = Some i ->
          0 < fragmentSize session ->
          let d' := handleTransportServiceCommand
                      (SubsequentSegment nodeId sessionId datagramSize
                                         datagramOffset partialDatagram) d in
          exists k,
            isFloorOf datagramOffset (fragmentSize session) k
            /\ interpreters d' !! interpreter session
               = Some (deliver (segment (Num k)) i)
            /\ transportSessionsOf nodeId d' = transportSessionsOf nodeId d
            /\ effects d' = effects d).
Proof.
  intros d nodeId sessionId datagramSize datagramOffset partialDatagram. split.
  - intros fragment -> Hpos. cbn zeta.
    destruct (handleTransportServiceCommand_first d nodeId sessionId datagramSize
                partialDatagram) as (Hmap & Hnew & Hold).
    destruct (Math_ceil_div_ceiling datagramSize _ Hpos) as (n & Hn & Hceil).
    exists n. split; [done|]. split; [done|]. rewrite <- Hn. split; [done|].
    intros old i Ho Hi. split; [by apply Hold|].
    apply lookup_lt_Some in Hi. lia.
  - intros session i Hs Hi Hpos. cbn zeta.
    destruct (handleTransportServiceCommand_subsequent d nodeId sessionId datagramSize
                datagramOffset partialDatagram session i Hs Hi) as (Hrecv & Hmap & Heff).
    destruct (Math_floor_div_floor datagramOffset _ Hpos) as (k & Hk & Hfloor).
    exists k. rewrite <- Hk. done.
Qed.

(** ** Option validation *)

Lemma findIndex_found {A} (p : A -> bool) (pre post : list A) (x : A) :
  p x = true -> 0 <= findIndex p (pre ++ x :: post).
Proof.
  intros Hx. induction pre as [|y pre IH]; simpl.
  - rewrite Hx. lia.
  - destruct (p y); [lia|].
    destruct (findIndex p (pre ++ x :: post) =? -1) eqn:E; [|lia].
    apply Z.eqb_eq in E. lia.
Qed.

(** The first match is at the end of [pre] exactly when nothing in [pre]
    matches. *)
Lemma findIndex_first {A} (p : A -> bool) (pre post : list A) (x : A) :
  p x = true ->
  findIndex p (pre ++ x :: post) = Z.of_nat (length pre)
  <-> Forall (fun y => p y = false) pre.
Proof.
  intros Hx. induction pre as [|y pre IH]; simpl.
  - rewrite Hx. split; [constructor|done].
  - pose proof (findIndex_found p pre post x Hx) as Hf.
    destruct (p y) eqn:Hy.
    + split; [lia|]. intros H. inversion H; congruence.
    + destruct (findIndex p (pre ++ x :: post) =? -1) eqn:E.
      { apply Z.eqb_eq in E. lia. }
      rewrite Forall_cons. split.
      * intros H. split; [done|]. apply IH. lia.
      * intros [_ H]. apply IH in H. lia.
Qed.

Lemma checkSecurityKeys_iff (pre rest : list (string * list Z)) :
  checkSecurityKeys (pre ++ rest) (Z.of_nat (length pre)) rest = Return tt
  <-> Forall (fun k => length k.2 = 16%nat) rest
      /\ NoDup (map snd rest)
      /\ forall k, k ∈ map snd rest -> k ∉ map snd pre.
Proof.
  revert pre; induction rest as [|[secClass key] rest IH]; intros pre; simpl.
  - split; [|done]. intros _. split; [constructor|]. split; [constructor|].
    intros k Hk. by apply elem_of_nil in Hk.
  - assert (Hfirst :
              findIndex (fun '(_, k) => Buffer_equals k key)
                        (pre ++ (secClass, key) :: rest) = Z.of_nat (length pre)
              <-> key ∉ map snd pre).
    { rewrite findIndex_first by (unfold Buffer_equals; by rewrite bool_decide_true).
      rewrite Forall_forall. split.
      - intros H Hin. apply list_elem_of_In, in_map_iff in Hin as ([c k] & Hk & Hin).
        simpl in Hk. subst k. apply list_elem_of_In in Hin. specialize (H _ Hin).
        unfold Buffer_equals in H. simpl in H. by rewrite bool_decide_true in H.
      - intros H [c k] Hin. unfold Buffer_equals. apply bool_decide_false.
        intros ->. apply H. apply list_elem_of_In, in_map_iff. exists (c, key).
        split; [done|]. by apply list_elem_of_In. }
    specialize (IH (pre ++ [(secClass, key)])).
    rewrite <- app_assoc in IH. simpl in IH.
    rewrite length_app in IH. simpl in IH.
    replace (Z.of_nat (length pre + 1)) with (Z.of_nat (length pre) + 1) in IH by lia.
    rewrite Forall_cons, NoDup_cons. simpl.
    destruct (Z.of_nat (length key) =? 16) eqn:Hlen; simpl.
    + apply Z.eqb_eq in Hlen.
      destruct (findIndex _ _ =? Z.of_nat (length pre)) eqn:Hidx; simpl.
      * apply Z.eqb_eq in Hidx. apply Hfirst in Hidx.
        rewrite IH. split.
        -- intros (Hall & Hnd & Hpre). repeat split; try done; try lia.
           ++ intros Hin. apply (Hpre key Hin). rewrite map_app. simpl.
              apply elem_of_app. right. by apply list_elem_of_singleton.
           ++ intros k Hk. apply elem_of_cons in Hk as [->|Hk]; [done|].
              specialize (Hpre k Hk). rewrite map_app in Hpre. intros Hin.
              apply Hpre, elem_of_app. by left.
        -- intros ((_ & Hall) & (Hnotin & Hnd) & Hpre). repeat split; try done.
           intros k Hk. rewrite map_app. simpl. intros Hin.
           apply elem_of_app in Hin as [Hin|Hin].
           ++ apply (Hpre k); [|done]. apply elem_of_cons. by right.
           ++ apply list_elem_of_singleton in Hin. by subst k.
      * apply Z.eqb_neq in Hidx. split; [done|].
        intros (_ & _ & Hpre). exfalso. apply Hidx, Hfirst, Hpre.
        apply elem_of_cons. by left.
    + apply Z.eqb_neq in Hlen. split; [done|]. intros ((Hl & _) & _). lia.
Qed.

Lemma checkSecurityKeys_valid (keys : list (string * list Z)) :
  checkSecurityKeys keys 0 keys = Return tt <-> keysValid (Some keys).
Proof.
  pose proof (checkSecurityKeys_iff [] keys) as H. simpl in H.
  rewrite H. unfold keysValid. split.
  - by intros (? & ? & _).
  - intros [? ?]. repeat split; try done. intros k _ Hk. by apply elem_of_nil in Hk.
Qed.

Lemma checkSecurityKeys_throws keys i rest :
  checkSecurityKeys keys i rest = Return tt
  \/ exists m, checkSecurityKeys keys i rest
               = Throw (ZWaveError m ZWaveErrorCodes.Driver_InvalidOptions).
Proof.
  revert i; induction rest as [|[c k] rest IH]; intros i; simpl; [by left|].
  destruct (negb _); [right; by eexists|].
  destruct (negb _); [right; by eexists|]. apply IH.
Qed.

Ltac range_facts :=
  repeat match goal with
    | H : (_ || _) = false |- _ => apply orb_false_iff in H as [? ?]
    | H : (_ <? _) = false |- _ => apply Z.ltb_ge in H
    | H : (_ <? _) = true |- _ => apply Z.ltb_lt in H
    | H : (_ >? _) = false |- _ => rewrite Z.gtb_ltb in H
    | H : (_ >? _) = true |- _ => rewrite Z.gtb_ltb in H
    | H : (_ || _) = true |- _ => apply orb_true_iff in H as [?|?]
    end.

Ltac out_of_range :=
  range_facts;
  (split; [done|]);
  let H := fresh in intros H; decompose [and] H; lia.

Ltac next_check :=
  match goal with
  | |- context [if ?b then Throw _ else _] =>
      let E := fresh "E" in destruct b eqn:E; [out_of_range|]
  end.

Lemma checkOptions_valid (MAX : Z) (o : ZWaveOptions) :
  checkOptions MAX o = Return tt <-> inValidatedRanges MAX o.
Proof.
  unfold checkOptions, inValidatedRanges, InvalidOptions, callbacksValid.
  do 7 next_check.
  range_facts.
  assert (Hkeys : match securityKeys o with
                  | Some keys => checkSecurityKeys keys 0 keys
                  | None => Return tt
                  end = Return tt <-> keysValid (securityKeys o)).
  { destruct (securityKeys o); [apply checkSecurityKeys_valid|done]. }
  destruct (match securityKeys o with
            | Some keys => checkSecurityKeys keys 0 keys
            | None => Return tt
            end) as [[]|e] eqn:Ek.
  2: { split; [done|]. intros Hr. exfalso.
       assert (Throw e = Return tt) as Habs by (apply Hkeys; tauto). done. }
  assert (Hk : keysValid (securityKeys o)) by (by apply Hkeys).
  do 3 next_check.
  range_facts.
  destruct (inclusionUserCallbacks o) as [| |[] [] []]; simpl;
    (split; [intros Hr; try discriminate Hr; repeat split; try lia; try done; auto
            |intros Hr; decompose [and or] Hr; try done; try discriminate]).
Qed.

Lemma checkOptions_throws (MAX : Z) (o : ZWaveOptions) :
  checkOptions MAX o = Return tt
  \/ exists m, checkOptions MAX o
               = Throw (ZWaveError m ZWaveErrorCodes.Driver_InvalidOptions).
Proof.
  unfold checkOptions, InvalidOptions.
  repeat match goal with
    | |- context [if ?b then Throw _ else _] =>
        destruct b; [right; by eexists|]
    end.
  destruct (securityKeys o) as [keys|].
  - destruct (checkSecurityKeys_throws keys 0 keys) as [->|[m ->]];
      [|right; by eexists].
    repeat match goal with
      | |- context [if ?b then Throw _ else _] =>
          destruct b; [right; by eexists|]
      end.
    destruct (inclusionUserCallbacks o) as [| |[] [] []]; simpl;
      first [by left | right; by eexists].
  - repeat match goal with
      | |- context [if ?b then Throw _ else _] =>
          destruct b; [right; by eexists|]
      end.
    destruct (inclusionUserCallbacks o) as [| |[] [] []]; simpl;
      first [by left | right; by eexists].
Qed.

(** C9, as the specification states it, fails: the documented range of
    [attempts.openSerialPort] is at least 1, and the default options with 0
    attempts to open the serial port pass the validation. *)
Lemma checkOptions_ignores_openSerialPort :
  ~ throwsExactlyOutOfRange_spec 5
  /\ checkOptions 5 neverOpenOptions = Return tt
  /\ ~ inDocumentedRanges_spec 5 neverOpenOptions.
Proof.
  assert (H : ~ inDocumentedRanges_spec 5 neverOpenOptions).
  { intros [_ H]. simpl in H. lia. }
  split; [|split; [reflexivity|exact H]].
  intros Hspec. apply H, Hspec. reflexivity.
Qed.

(** C9 (amended). [checkOptions] throws, and then always an error with code
    [Driver_InvalidOptions], exactly when one of the values it validates
    is out of range: [timeouts.ack] and [timeouts.byte] below 1,
    [timeouts.response] outside 500..20000, [timeouts.report] outside
    500..10000, [timeouts.nonce] outside 3000..20000,
    [timeouts.sendDataCallback] below 10000, [timeouts.serialAPIStarted]
    outside 1000..30000, [attempts.controller] outside 1..3,
    [attempts.sendData] outside 1..MAX_SEND_ATTEMPTS,
    [attempts.nodeInterview] outside 1..10, a provided security key that
    is not 16 bytes long or equals another provided key, or inclusion
    callbacks that are present without being an object with all three
    functions. Options within these ranges pass, the default options among
    them; [attempts.openSerialPort] is not validated. *)
Theorem checkOptions_validates :
  forall (MAX_SEND_ATTEMPTS : Z) (o : ZWaveOptions),
    (checkOptions MAX_SEND_ATTEMPTS o = Return tt
     <-> inValidatedRanges MAX_SEND_ATTEMPTS o)
    /\ (checkOptions MAX_SEND_ATTEMPTS o = Return tt
        \/ exists m, checkOptions MAX_SEND_ATTEMPTS o
                     = Throw (ZWaveError m ZWaveErrorCodes.Driver_InvalidOptions))
    /\ (Timeouts.response (timeouts o) < 500 \/ 20000 < Timeouts.response (timeouts o) ->
        exists m, checkOptions MAX_SEND_ATTEMPTS o
                  = Throw (ZWaveError m ZWaveErrorCodes.Driver_InvalidOptions))
    /\ (3 <= MAX_SEND_ATTEMPTS <->
        checkOptions MAX_SEND_ATTEMPTS defaultOptions = Return tt).
Proof.
  intros MAX o. split; [apply checkOptions_valid|].
  split; [apply checkOptions_throws|].
  split.
  - intros Hout. destruct (checkOptions_throws MAX o) as [Hok|Hthrow]; [|done].
    apply checkOptions_valid in Hok. unfold inValidatedRanges in Hok. lia.
  - rewrite checkOptions_valid. unfold inValidatedRanges, callbacksValid; simpl.
    split; [intros H; repeat split; try lia; auto|].
    intros H. decompose [and] H. lia.
Qed.

(** ** Sending to a dead node *)

(** The second part of [sendMessage] reads the node's ability to sleep, its
    interview stage and its command classes, and of the driver the
    controller's function types and the send thread. *)
Lemma sendMessage_queue_alike (msg : Message) (options : SendMessageOptions.t)
    (n1 n2 : ZWaveNode) (d1 d2 : Driver) :
  canSleep n1 = canSleep n2 ->
  interviewStage n1 = interviewStage n2 ->
  supportedCCs n1 = supportedCCs n2 ->
  supportedFunctionTypes <$> _controller d1 = supportedFunctionTypes <$> _controller d2 ->
  sendThread d1 = sendThread d2 ->
  let r1 := sendMessage_queue msg options (Some n1) d1 in
  let r2 := sendMessage_queue msg options (Some n2) d2 in
  r1.2 = r2.2
  /\ sendThread r1.1 = sendThread r2.1
  /\ exists added,
       effects r1.1 = effects d1 ++ added /\ effects r2.1 = effects d2 ++ added.
Proof.
  intros Hs Hi Hcc Hft Hst. cbn zeta. unfold sendMessage_queue.
  destruct (match SendMessageOptions.priority options with
            | Some p => Some p
            | None => getDefaultPriority msg
            end) as [priority|].
  2: { simpl. split; [done|]. split; [done|]. exists []. by rewrite !app_nil_r. }
  assert (Hsup : match _controller d1 with
                 | Some c => negb (isFunctionSupported (functionType msg) c)
                 | None => false
                 end
                 = match _controller d2 with
                   | Some c => negb (isFunctionSupported (functionType msg) c)
                   | None => false
                   end).
  { unfold isFunctionSupported.
    destruct (_controller d1), (_controller d2); simpl in Hft; try done.
    injection Hft as ->. done. }
  rewrite Hsup. unfold supportsCC. rewrite Hs, Hi, Hcc.
  destruct (default true (SendMessageOptions.supportCheck options) && _).
  { simpl. split; [done|]. split; [done|]. exists []. by rewrite !app_nil_r. }
  match goal with
  | |- context [if ?b then (MessagePriority.WakeUp, _) else _] => destruct b
  end.
  all: cbv beta iota zeta.
  all: destruct (SendMessageOptions.expire options) as [ms|];
    [destruct (ms =? 0)|].
  all: simpl; rewrite Hst; (split; [done|]); (split; [done|]).
  all: first [ exists []; by rewrite !app_nil_r | by eexists [_] ].
Qed.

Lemma sendMessage_queue_notDropped msg options node d :
  notDropped (sendMessage_queue msg options node d).2.
Proof.
  intros text. unfold sendMessage_queue.
  destruct (match SendMessageOptions.priority options with
            | Some p => Some p
            | None => getDefaultPriority msg
            end) as [priority|]; [|done].
  destruct (default true (SendMessageOptions.supportCheck options) && _); [done|].
  match goal with
  | |- context [if ?b then (MessagePriority.WakeUp, _) else _] => destruct b
  end; done.
Qed.

Lemma getNodeUnsafe_known msg d node :
  getNodeId msg = Some (id node) ->
  nodeOf (id node) d = Some node ->
  getNodeUnsafe msg d = Return (Some node).
Proof.
  intros Hid Hnode. unfold getNodeUnsafe, controller. rewrite Hid.
  unfold nodeOf in Hnode. destruct (_controller d); [by rewrite Hnode|done].
Qed.

Lemma nodeOf_revive node d :
  nodeOf (id node) d = Some node ->
  nodeOf (id node) (revive node d) = Some (setStatus NodeStatus.Alive node).
Proof.
  intros Hnode. unfold revive.
  change (id node) with (id (setStatus NodeStatus.Alive node)) at 1.
  apply nodeOf_updateNode. unfold nodeOf in Hnode. by destruct (_controller d).
Qed.

Lemma sendMessage_guard_alive ping msg d node :
  isNodeQuery msg || isCommandClassContainer msg = true ->
  getNodeId msg = Some (id node) ->
  nodeOf (id node) d = Some node ->
  sendMessage_guard ping msg (revive node d)
  = (revive node d, Return (Some (setStatus NodeStatus.Alive node))).
Proof.
  intros Hq Hid Hnode. unfold sendMessage_guard. rewrite Hq.
  rewrite (getNodeUnsafe_known msg (revive node d) (setStatus NodeStatus.Alive node));
    [|exact Hid|exact (nodeOf_revive node d Hnode)].
  simpl status. rewrite (bool_decide_false (NodeStatus.Alive = NodeStatus.Dead)) by done.
  by rewrite andb_false_r.
Qed.

(** C10. For every message addressed to a node that the controller holds
    as Dead, on a driver that is ready: if the message is not a ping,
    [sendMessage] first pings the node; if the ping fails it throws a
    [ZWaveError] with code [Controller_MessageDropped] and queues nothing;
    if the ping succeeds the send goes on as it does for the same node
    alive: the same transaction is queued, or the same error thrown, which
    is never [Controller_MessageDropped]. A ping message is sent as for
    the node alive, without a ping before it, and is never rejected with
    [Controller_MessageDropped]. *)
Theorem sendMessage_dead_node :
  forall (ping : Z -> bool) (msg : Message) (options : SendMessageOptions.t)
         (d : Driver) (node : ZWaveNode),
    ensureReady d = Return tt ->
    isNodeQuery msg || isCommandClassContainer msg = true ->
    getNodeId msg = Some (id node) ->
    nodeOf (id node) d = Some node ->
    status node = NodeStatus.Dead ->
    let dead := sendMessage ping msg options d in
    let alive := sendMessage ping msg options (revive node d) in
    (messageIsPing msg = false -> ping (id node) = false ->
     dead = (perform (NodePing (id node)) d,
             Throw (ZWaveError
                      ("The message cannot be sent because node "
                       +:+ pretty (id node) +:+ " is dead")
                      ZWaveErrorCodes.Controller_MessageDropped)))
    /\ (messageIsPing msg = false -> ping (id node) = true ->
        notDropped dead.2
        /\ dead.2 = alive.2
        /\ sendThread dead.1 = sendThread alive.1
        /\ exists added,
             effects alive.1 = effects d ++ added
             /\ effects dead.1 = effects d ++ NodePing (id node) :: added)
    /\ (messageIsPing msg = true ->
        notDropped dead.2
        /\ dead.2 = alive.2
        /\ sendThread dead.1 = sendThread alive.1
        /\ effects dead.1 = effects alive.1).
Proof.
  intros ping msg options d node Hready Hq Hid Hnode Hdead. cbn zeta.
  assert (Hready' : ensureReady (revive node d) = Return tt).
  { unfold revive, updateNode. by destruct (_controller d). }
  assert (Hft : forall d1,
             _controller d1 = _controller d ->
             supportedFunctionTypes <$> _controller d1
             = supportedFunctionTypes <$> _controller (revive node d)).
  { intros d1 ->. unfold revive, updateNode.
    destruct (_controller d) eqn:E; simpl; by rewrite ?E. }
  assert (Hst : sendThread (revive node d) = sendThread d).
  { unfold revive, updateNode. by destruct (_controller d). }
  assert (Heff : effects (revive node d) = effects d).
  { unfold revive. apply effects_updateNode. }
  unfold sendMessage. rewrite Hready, Hready'.
  rewrite (sendMessage_guard_alive ping msg d node Hq Hid Hnode).
  unfold sendMessage_guard. rewrite Hq, (getNodeUnsafe_known msg d node Hid Hnode).
  rewrite (bool_decide_true (status node = NodeStatus.Dead)) by done.
  rewrite andb_true_r.
  split; [|split].
  - intros -> ->. reflexivity.
  - intros -> ->. simpl negb. cbv iota zeta.
    split; [apply sendMessage_queue_notDropped|].
    destruct (sendMessage_queue_alike msg options node (setStatus NodeStatus.Alive node)
                (perform (NodePing (id node)) d) (revive node d)
                eq_refl eq_refl eq_refl (Hft _ eq_refl) (eq_sym Hst))
      as (H2 & Hthread & added & Ha1 & Ha2).
    split; [done|]. split; [done|]. exists added.
    rewrite Ha2, Heff, Ha1. simpl. split; [done|]. by rewrite <- app_assoc.
  - intros ->. simpl negb. cbv iota.
    split; [apply sendMessage_queue_notDropped|].
    destruct (sendMessage_queue_alike msg options node (setStatus NodeStatus.Alive node)
                d (revive node d)
                eq_refl eq_refl eq_refl (Hft _ eq_refl) (eq_sym Hst))
      as (H2 & Hthread & added & Ha1 & Ha2).
    split; [done|]. split; [done|]. by rewrite Ha1, Ha2, Heff.
Qed.

Lemma sendMessage_dead_node_witness :
  sendMessage (fun _ => false) (sendDataMessage 5 basicCommand) noOptions
              driverWithDeadNode
  = (perform (NodePing 5) driverWithDeadNode,
     Throw (ZWaveError "The message cannot be sent because node 5 is dead"
                       ZWaveErrorCodes.Controller_MessageDropped)).
Proof.
  exact (proj1 (sendMessage_dead_node (fun _ => false)
                  (sendDataMessage 5 basicCommand) noOptions driverWithDeadNode
                  deadNode eq_refl eq_refl eq_refl eq_refl eq_refl)
               eq_refl eq_refl).
Defined.

Lemma handleTransportServiceCommand_sessions_witness :
  exists n,
    isCeilingOf 140 40 n
    /\ interpreters (handleTransportServiceCommand firstSegment7 exampleDriver) !! 0%nat
       = Some (mkInterpreter 7 (Num n) requestMissingSegmentR2 false []).
Proof.
  destruct (proj1 (handleTransportServiceCommand_sessions exampleDriver 5 7 140 0
                     fortyBytes) 40 eq_refl ltac:(lia))
    as (n & Hceil & _ & Hnew & _).
  exists n. split; [exact Hceil|exact Hnew].
Defined.

(** * Further properties of the driver *)

(** ** Waiting for a device after a firmware update *)

(** The time to wait after a firmware update is between 5 and 30 seconds
    longer than the advertised time, and a longer advertised time never
    gives a shorter wait. *)
Theorem getConservativeWaitTimeAfterFirmwareUpdate_conservative (a b : Z) :
  a <= b ->
  a + 5 <= getConservativeWaitTimeAfterFirmwareUpdate (Some a) <= a + 30 /\
  getConservativeWaitTimeAfterFirmwareUpdate (Some a)
  <= getConservativeWaitTimeAfterFirmwareUpdate (Some b).
Proof.
  intros Hab. unfold getConservativeWaitTimeAfterFirmwareUpdate.
  destruct (Z.eqb_spec a 0), (Z.ltb_spec a 20), (Z.ltb_spec a 60),
    (Z.eqb_spec b 0), (Z.ltb_spec b 20), (Z.ltb_spec b 60); lia.
Qed.

Lemma getConservativeWaitTimeAfterFirmwareUpdate_conservative_witness :
  19 + 5 <= getConservativeWaitTimeAfterFirmwareUpdate (Some 19) <= 19 + 30 /\
  getConservativeWaitTimeAfterFirmwareUpdate (Some 19)
  <= getConservativeWaitTimeAfterFirmwareUpdate (Some 20).
Proof.
  apply (getConservativeWaitTimeAfterFirmwareUpdate_conservative 19 20). lia.
Defined.

(** ** Opening the serial port *)

Section OpenSerialportFacts.

Variable serial_open : Z -> option Error.
Variable getErrorMessage : option Error -> string.

Lemma retries_S (n : nat) (steps : list SerialportStep) :
  SerialOpen :: [Wait 1000] ++ retries n ++ steps = retries (S n) ++ steps.
Proof. reflexivity. Qed.

Lemma openSerialport_loop_success (n k : Z) (fuel : nat) :
  forall attempt lastError,
    attempt <= k <= n ->
    (Z.to_nat (n - attempt + 1) <= fuel)%nat ->
    (forall j, attempt <= j < k -> serial_open j <> None) ->
    serial_open k = None ->
    exists lastError',
      openSerialport_loop serial_open n fuel attempt lastError
      = (true, lastError', retries (Z.to_nat (k - attempt)) ++ [SerialOpen]).
Proof.
  induction fuel as [|fuel IH]; intros attempt lastError Hk Hfuel Hfail Hopen.
  - lia.
  - simpl. destruct (Z.leb_spec attempt n) as [_|?]; [|lia].
    destruct (decide (attempt = k)) as [->|Hne].
    + rewrite Hopen, Z.sub_diag. by eexists.
    + destruct (serial_open attempt) as [e|] eqn:He.
      2: { exfalso. apply (Hfail attempt); [lia|done]. }
      destruct (Z.ltb_spec attempt n) as [_|?]; [|lia].
      destruct (IH (attempt + 1) (Some e)) as [le Hle]; [lia|lia| |done|].
      { intros j Hj. apply Hfail. lia. }
      rewrite Hle. exists le.
      replace (Z.to_nat (k - attempt)) with (S (Z.to_nat (k - (attempt + 1)))) by lia.
      by rewrite <- retries_S.
Qed.

Lemma openSerialport_loop_failure (n : Z) (fuel : nat) :
  forall attempt lastError,
    attempt <= n ->
    (Z.to_nat (n - attempt + 1) <= fuel)%nat ->
    (forall j, attempt <= j <= n -> serial_open j <> None) ->
    exists lastError',
      openSerialport_loop serial_open n fuel attempt lastError
      = (false, lastError', retries (Z.to_nat (n - attempt)) ++ [SerialOpen]).
Proof.
  induction fuel as [|fuel IH]; intros attempt lastError Hn Hfuel Hfail.
  - lia.
  - simpl. destruct (Z.leb_spec attempt n) as [_|?]; [|lia].
    destruct (serial_open attempt) as [e|] eqn:He.
    2: { exfalso. apply (Hfail attempt); [lia|done]. }
    destruct (Z.ltb_spec attempt n) as [Hlt|Hge].
    + destruct (IH (attempt + 1) (Some e)) as [le Hle]; [lia|lia| |].
      { intros j Hj. apply Hfail. lia. }
      rewrite Hle. exists le.
      replace (Z.to_nat (n - attempt)) with (S (Z.to_nat (n - (attempt + 1)))) by lia.
      by rewrite <- retries_S.
    + assert (attempt = n) as -> by lia. rewrite Z.sub_diag.
      exists (Some e). destruct fuel as [|fuel]; simpl; [done|].
      destruct (Z.leb_spec (n + 1) n) as [?|_]; [lia|done].
Qed.

(** When the [k]-th attempt is the first that opens the port, and [k] is
    within the configured number of attempts, [openSerialport] returns after
    exactly [k] attempts with a pause of one second between them. *)
Theorem openSerialport_succeeds (openSerialPort k : Z) :
  1 <= k <= openSerialPort ->
  (forall j, 1 <= j < k -> serial_open j <> None) ->
  serial_open k = None ->
  openSerialport serial_open getErrorMessage openSerialPort
  = (Return tt, retries (Z.to_nat (k - 1)) ++ [SerialOpen]).
Proof.
  intros Hk Hfail Hopen. unfold openSerialport.
  destruct (openSerialport_loop_success openSerialPort k (Z.to_nat openSerialPort)
              1 None) as [le ->]; [lia|lia|done|done|done].
Qed.

(** When none of the configured attempts opens the port, [openSerialport]
    throws [Driver_Failed] after exactly that many attempts, pauses only
    between attempts and logs the error; with less than one configured
    attempt it throws without trying to open the port at all. *)
Theorem openSerialport_fails (openSerialPort : Z) :
  (forall j, 1 <= j <= openSerialPort -> serial_open j <> None) ->
  exists message,
    openSerialport serial_open getErrorMessage openSerialPort
    = (Throw (ZWaveError message ZWaveErrorCodes.Driver_Failed),
       (if 0 <? openSerialPort
        then retries (Z.to_nat (openSerialPort - 1)) ++ [SerialOpen]
        else [])
       ++ [SerialportLog (DriverPrint message LError)]).
Proof.
  intros Hfail. unfold openSerialport.
  destruct (Z.ltb_spec 0 openSerialPort) as [Hpos|Hneg].
  - destruct (openSerialport_loop_failure openSerialPort (Z.to_nat openSerialPort)
                1 None) as [le ->]; [lia|lia|done|].
    by eexists.
  - replace (Z.to_nat openSerialPort) with O by lia. simpl. by eexists.
Qed.

End OpenSerialportFacts.

Lemma openSerialport_succeeds_witness :
  openSerialport
    (fun attempt => if attempt <? 3 then Some serialPortNotOpen else None)
    (fun _ => "busy") 5
  = (Return tt, retries 2 ++ [SerialOpen]).
Proof.
  apply (openSerialport_succeeds
           (fun attempt => if attempt <? 3 then Some serialPortNotOpen else None)
           (fun _ => "busy") 5 3).
  - lia.
  - intros j Hj. destruct (Z.ltb_spec j 3); [done|lia].
  - reflexivity.
Defined.

Lemma openSerialport_fails_witness :
  exists message,
    openSerialport (fun _ => Some serialPortNotOpen) (fun _ => "busy") 2
    = (Throw (ZWaveError message ZWaveErrorCodes.Driver_Failed),
       (retries 1 ++ [SerialOpen]) ++ [SerialportLog (DriverPrint message LError)]).
Proof.
  apply (openSerialport_fails (fun _ => Some serialPortNotOpen) (fun _ => "busy") 2).
  intros j Hj. discriminate.
Defined.

(** ** Request handlers *)

Section RequestHandlerFacts.

Variable FunctionType_name : Z -> string.
Variable num2hex : Z -> string.
Variable handlerResult : nat -> Message -> bool.
Variable getCurrentMessage : Transaction -> option Message.
Variable expectsNodeUpdate : Message -> bool.
Variable isExpectedNodeUpdate : Message -> Message -> bool.
Variable isSecure : ZWaveNode -> option bool.
Variable isEncapsulatedWith :
  CommandClass -> CommandClass -> CommandClasses.t -> bool.
Variable isApplicationUpdateRequest : Message -> bool.

#[local] Abbreviation handleRequest' :=
  (handleRequest FunctionType_name handlerResult getCurrentMessage
                 expectsNodeUpdate isExpectedNodeUpdate isSecure
                 isEncapsulatedWith isApplicationUpdateRequest).

#[local] Abbreviation forStaticHandlers' :=
  (forStaticHandlers getCurrentMessage expectsNodeUpdate isExpectedNodeUpdate
                     isApplicationUpdateRequest).

Lemma invokedHandlers_app (a b : list HandlerStep) :
  invokedHandlers (a ++ b) = invokedHandlers a ++ invokedHandlers b.
Proof. apply omap_app. Qed.

(** The loop when no handler from index [length done] on handles the
    message. *)
Lemma invokeHandlers_unhandled (msg : Message) (rest : list RequestHandlerEntry) :
  forall (done : list RequestHandlerEntry) (fuel : nat),
    Forall (fun e => handlerResult (invoke e) msg = false) rest ->
    (length rest <= fuel)%nat ->
    exists steps,
      invokeHandlers handlerResult msg fuel (length done) (done ++ rest)
      = (done ++ rest, steps) /\
      invokedHandlers steps = invoke <$> rest.
Proof.
  induction rest as [|e rest IH]; intros done fuel Hall Hfuel.
  - exists []. split; [|done]. destruct fuel; simpl; [done|].
    rewrite app_nil_r, lookup_ge_None_2; [done|lia].
  - destruct fuel as [|fuel]; simpl in Hfuel; [lia|].
    inversion Hall as [|? ? He Hrest]; subst. simpl.
    rewrite list_lookup_middle by done. rewrite He.
    destruct (IH (done ++ [e]) fuel Hrest) as (steps & Hsteps & Hinv); [lia|].
    rewrite length_app, <- (assoc_L (++)) in Hsteps. simpl in Hsteps.
    replace (length done + 1)%nat with (S (length done)) in Hsteps by lia.
    rewrite Hsteps. eexists. split; [done|].
    simpl. by rewrite Hinv.
Qed.

(** The loop when the first handler from index [length done] on that
    handles the message is [h]. *)
Lemma invokeHandlers_handled (msg : Message) (h : RequestHandlerEntry)
    (post pre : list RequestHandlerEntry) :
  forall (done : list RequestHandlerEntry) (fuel : nat),
    Forall (fun e => handlerResult (invoke e) msg = false) pre ->
    handlerResult (invoke h) msg = true ->
    (length (pre ++ h :: post) <= fuel)%nat ->
    exists steps,
      invokeHandlers handlerResult msg fuel (length done) (done ++ pre ++ h :: post)
      = (done ++ pre ++ (if oneTime h then [] else [h]) ++ post, steps) /\
      invokedHandlers steps = (invoke <$> pre) ++ [invoke h].
Proof.
  induction pre as [|e pre IH]; intros done fuel Hall Hh Hfuel.
  - destruct fuel as [|fuel]; simpl in Hfuel; [lia|]. simpl.
    rewrite list_lookup_middle by done. rewrite Hh.
    destruct (oneTime h); eexists.
    + split; [by rewrite delete_middle|done].
    + split; done.
  - destruct fuel as [|fuel]; simpl in Hfuel; [lia|].
    inversion Hall as [|? ? He Hpre]; subst. simpl.
    rewrite list_lookup_middle by done. rewrite He.
    destruct (IH (done ++ [e]) fuel Hpre Hh) as (steps & Hsteps & Hinv); [lia|].
    rewrite length_app, <- !(assoc_L (++)) in Hsteps. simpl in Hsteps.
    replace (length done + 1)%nat with (S (length done)) in Hsteps by lia.
    rewrite Hsteps. eexists. split; [done|].
    simpl. by rewrite Hinv.
Qed.

(** The last branch with handlers registered for the function type, one of
    which handles the request. *)
Lemma handleRequest_handlers_first_handles (msg : Message) (d : RequestHandlers)
    (pre post : list RequestHandlerEntry) (h : RequestHandlerEntry) :
  requestHandlers d !! functionType msg = Some (pre ++ h :: post) ->
  Forall (fun e => handlerResult (invoke e) msg = false) pre ->
  handlerResult (invoke h) msg = true ->
  let d' := handleRequest_handlers FunctionType_name handlerResult msg d in
  requestHandlers d'
  = <[functionType msg := pre ++ (if oneTime h then [] else [h]) ++ post]>
      (requestHandlers d) /\
  invokedHandlers (handlerSteps d')
  = invokedHandlers (handlerSteps d) ++ (invoke <$> pre) ++ [invoke h].
Proof.
  intros Hreg Hpre Hh. unfold handleRequest_handlers. simpl. rewrite Hreg.
  destruct (invokeHandlers_handled msg h post pre [] (length (pre ++ h :: post))
              Hpre Hh) as (steps & Hsteps & Hinv); [done|].
  simpl in Hsteps. revert Hsteps.
  destruct (pre ++ h :: post) as [|e l] eqn:Hl; [by destruct pre|].
  intros Hsteps. rewrite Hsteps. simpl. split; [done|].
  rewrite !invokedHandlers_app. simpl. rewrite Hinv.
  by rewrite app_nil_r.
Qed.

(** The last branch when no handler registered for the function type
    handles the request. *)
Lemma handleRequest_handlers_none_handles (msg : Message) (d : RequestHandlers) :
  Forall (fun e => handlerResult (invoke e) msg = false)
         (default [] (requestHandlers d !! functionType msg)) ->
  let d' := handleRequest_handlers FunctionType_name handlerResult msg d in
  requestHandlers d' = requestHandlers d /\
  invokedHandlers (handlerSteps d')
  = invokedHandlers (handlerSteps d)
    ++ (invoke <$> default [] (requestHandlers d !! functionType msg)).
Proof.
  intros Hall. unfold handleRequest_handlers. simpl.
  destruct (requestHandlers d !! functionType msg) as [[|e l]|] eqn:Hreg; simpl.
  - split; [done|]. rewrite !invokedHandlers_app. simpl. by rewrite !app_nil_r.
  - simpl in Hall.
    destruct (invokeHandlers_unhandled msg (e :: l) [] (length (e :: l)) Hall)
      as (steps & Hsteps & Hinv); [done|].
    simpl in Hsteps. rewrite Hsteps. simpl. split.
    + by apply insert_id.
    + rewrite !invokedHandlers_app. simpl. rewrite Hinv.
      by rewrite app_nil_r.
  - split; [done|]. rewrite !invokedHandlers_app. simpl. by rewrite !app_nil_r.
Qed.

Lemma unregisterRequestHandler_loop_other (handler : nat)
    (entry : option RequestHandlerEntry) (handlers : list RequestHandlerEntry) :
  invoke <$> entry <> Some handler ->
  forall fuel i,
    unregisterRequestHandler_loop handler entry fuel i handlers = handlers.
Proof.
  intros Hne. induction fuel as [|fuel IH]; intros i; simpl; [done|].
  destruct (i <? length handlers)%nat; [|done].
  by rewrite bool_decide_eq_false_2.
Qed.

(** [unregisterRequestHandler] removes a callback only when it is the first
    one registered for the function type: when the first entry holds
    another callback, the list of handlers stays as it is, whether or not
    the callback is registered further back. *)
Theorem unregisterRequestHandler_only_first (fnType : Z) (handler : nat)
    (d : RequestHandlers) (e : RequestHandlerEntry)
    (rest : list RequestHandlerEntry) :
  requestHandlers d !! fnType = Some (e :: rest) ->
  requestHandlers (unregisterRequestHandler FunctionType_name fnType handler d)
    !! fnType
  = Some (if bool_decide (invoke e = handler) then rest else e :: rest).
Proof.
  intros Hreg. unfold unregisterRequestHandler. simpl.
  rewrite lookup_insert_eq, Hreg. simpl. f_equal.
  destruct (decide (invoke e = handler)) as [He|He].
  - rewrite !bool_decide_eq_true_2; [done|done|by rewrite He].
  - rewrite !bool_decide_eq_false_2; [|done|congruence].
    apply unregisterRequestHandler_loop_other. simpl. congruence.
Qed.

(** The last branch right after a handler was registered for the function
    type. *)
Lemma registerRequestHandler_handlers_last (msg : Message) (fnType : Z)
    (handler : nat) (once : bool) (steps : list HandlerStep)
    (d : RequestHandlers) :
  let before := default [] (requestHandlers d !! fnType) in
  functionType msg = fnType ->
  invokedHandlers steps = [] ->
  Forall (fun e => handlerResult (invoke e) msg = false) before ->
  let d' :=
    handleRequest_handlers FunctionType_name handlerResult msg
      (addSteps steps
         (registerRequestHandler FunctionType_name num2hex fnType handler once d)) in
  requestHandlers d' !! fnType
  = Some (before ++ (if handlerResult handler msg && once then []
                     else [mkRequestHandlerEntry handler once])) /\
  invokedHandlers (handlerSteps d')
  = invokedHandlers (handlerSteps d) ++ (invoke <$> before) ++ [handler].
Proof.
  intros before Hft Hnone Hall.
  unfold handleRequest_handlers, registerRequestHandler, addSteps.
  simpl. rewrite Hft, lookup_insert_eq. fold before.
  set (entry := mkRequestHandlerEntry handler once).
  assert (exists steps,
    invokeHandlers handlerResult msg (length (before ++ [entry])) 0
                   (before ++ [entry])
    = (before ++ (if handlerResult handler msg && once then [] else [entry]),
       steps) /\
    invokedHandlers steps = (invoke <$> before) ++ [handler])
    as (steps' & Hsteps & Hinv).
  { destruct (handlerResult handler msg) eqn:Hh.
    - destruct (invokeHandlers_handled msg entry [] before []
                  (length (before ++ [entry])) Hall Hh)
        as (steps' & Hsteps & Hinv); [done|].
      exists steps'. split; [|done]. simpl in Hsteps. rewrite Hsteps.
      simpl. by destruct once; rewrite ?app_nil_r.
    - destruct (invokeHandlers_unhandled msg (before ++ [entry]) []
                  (length (before ++ [entry])))
        as (steps' & Hsteps & Hinv); [|done|].
      { apply Forall_app. split; [done|]. by apply Forall_singleton. }
      exists steps'. split; [done|]. by rewrite Hinv, fmap_app. }
  revert Hsteps.
  destruct (before ++ [entry]) as [|e l] eqn:Hl; [by destruct before|].
  intros Hsteps. rewrite Hsteps. simpl. rewrite lookup_insert_eq.
  split; [done|].
  rewrite !invokedHandlers_app, Hnone. simpl. rewrite Hinv.
  by rewrite !app_nil_r.
Qed.


Lemma addSteps_addSteps (a b : list HandlerStep) (d : RequestHandlers) :
  addSteps b (addSteps a d) = addSteps (a ++ b) d.
Proof. unfold addSteps. simpl. by rewrite <- (assoc_L (++)). Qed.

Lemma addSteps_nil (d : RequestHandlers) : addSteps [] d = d.
Proof. destruct d. unfold addSteps. simpl. by rewrite app_nil_r. Qed.

Lemma invokedHandlers_logs (log : list LogEntry) :
  invokedHandlers (map HandlerLog log) = [].
Proof. by induction log. Qed.

Lemma find_Forall_none {A} (p : A -> bool) (l : list A) :
  Forall (fun x => p x = false) l -> List.find p l = None.
Proof. induction 1 as [|x l Hx _ IH]; simpl; [done|]. by rewrite Hx. Qed.

Lemma unwrapCommands_message (msg : Message) :
  let msg' := (unwrapCommands msg).1 in
  msgClass msg' = msgClass msg /\ functionType msg' = functionType msg
  /\ getNodeId msg' = getNodeId msg
  /\ (command msg = None -> unwrapCommands msg = (msg, [])).
Proof.
  unfold unwrapCommands. destruct (command msg) as [c|]; [|done].
  by destruct (unwrapLoop c).
Qed.

Lemma getNodeUnsafe_returns (msg : Message) (driver : Driver) :
  (is_Some (getNodeId msg) -> is_Some (_controller driver)) ->
  exists node, getNodeUnsafe msg driver = Return node.
Proof.
  intros H. unfold getNodeUnsafe, controller.
  destruct (getNodeId msg) as [nodeId|]; [|by eexists].
  destruct H as [c ->]; [done|]. by eexists.
Qed.

(** A request for the static handlers arrives in the last branch, as the
    message that [unwrapCommands] leaves, and no handler was invoked before. *)
Lemma handleRequest_forStaticHandlers (interviewed : bool)
    (awaitedMessages : list AwaitedMessageEntry) (msg : Message)
    (driver : Driver) (d : RequestHandlers) :
  forStaticHandlers' awaitedMessages msg driver ->
  exists steps,
    invokedHandlers steps = []
    /\ handleRequest' interviewed awaitedMessages msg driver d
       = Return (RequestReturned
                   (handleRequest_handlers FunctionType_name handlerResult
                      (unwrapCommands msg).1 (addSteps steps d))).
Proof.
  intros (Hnode & Hwait & Hupdate & Hcmd & Hbridge & Happ).
  destruct (unwrapCommands_message msg) as (Hclass & _ & Hid & Hnone).
  cbn zeta in Hclass, Hid.
  unfold handleRequest.
  assert (exists steps0,
            invokedHandlers steps0 = []
            /\ exists node,
                 (if isNodeQuery msg || isCommandClassContainer msg
                  then getNodeUnsafe msg driver else Return None) = Return node
                 /\ match node with
                    | Some node =>
                        if bool_decide (status node = NodeStatus.Dead)
                        then addSteps [RequestMarkAsAlive (id node)] d
                        else d
                    | None => d
                    end = addSteps steps0 d) as (steps0 & Hs0 & node & -> & ->).
  { destruct (isNodeQuery msg || isCommandClassContainer msg) eqn:Hq.
    - destruct (getNodeUnsafe_returns msg driver (Hnode eq_refl)) as [node Hget].
      destruct node as [node|].
      + exists (if bool_decide (status node = NodeStatus.Dead)
                then [RequestMarkAsAlive (id node)] else []).
        split; [by destruct (bool_decide _)|].
        exists (Some node). split; [done|].
        destruct (bool_decide _); [done|by rewrite addSteps_nil].
      + exists []. split; [done|]. exists None. by rewrite addSteps_nil.
    - exists []. split; [done|]. exists None. by rewrite addSteps_nil. }
  rewrite (find_Forall_none _ _ Hwait).
  assert ((if isCommandClassContainer msg
           then List.find (fun sentMsg => expectsNodeUpdate sentMsg
                                          && isExpectedNodeUpdate sentMsg msg)
                          (omap getCurrentMessage
                                (activeTransactions (sendThread driver)))
           else None) = None) as ->.
  { destruct (isCommandClassContainer msg); [|done].
    by apply find_Forall_none, Hupdate. }
  destruct (command msg) as [received|] eqn:Hc.
  - destruct (unwrapCommands msg) as [msg' log] eqn:Hu. simpl in Hclass, Hid, Happ.
    destruct (getNodeUnsafe_returns msg' driver) as [node' ->].
    { rewrite Hid. apply Hnode.
      unfold isCommandClassContainer. rewrite Hc. by rewrite orb_true_r. }
    rewrite Hclass, bool_decide_eq_false_2, bool_decide_eq_false_2 by done.
    simpl orb. cbv iota. rewrite Happ.
    rewrite addSteps_addSteps.
    destruct node' as [node'|], (command msg') as [command'|];
      try (exists (steps0 ++ map HandlerLog log); split;
           [by rewrite invokedHandlers_app, Hs0, invokedHandlers_logs|done]).
    destruct (bool_decide (isSecure node' = Some false)
              && (bool_decide (ccId (fields command') = CommandClasses.Security)
                  || isEncapsulatedWith received command' CommandClasses.Security)).
    + rewrite addSteps_addSteps.
      exists ((steps0 ++ map HandlerLog log) ++ [AssumeS0 (id node'); RefreshInfo (id node')]).
      split; [|done].
      by rewrite !invokedHandlers_app, Hs0, invokedHandlers_logs.
    + exists (steps0 ++ map HandlerLog log). split; [|done].
      by rewrite invokedHandlers_app, Hs0, invokedHandlers_logs.
  - rewrite (Hnone eq_refl) in Happ |- *. simpl in Happ |- *.
    rewrite bool_decide_eq_false_2, bool_decide_eq_false_2 by done.
    simpl orb. cbv iota. rewrite Happ. by exists steps0.
Qed.

(** A request that a waiter takes is not offered to the static handlers:
    the waiter's promise is resolved with it, and that is all. *)
Lemma handleRequest_awaited (interviewed : bool)
    (awaitedMessages : list AwaitedMessageEntry) (msg : Message)
    (driver : Driver) (d : RequestHandlers) (outcome : RequestOutcome) :
  Exists (fun entry => awaitedMessagePredicate entry msg = true) awaitedMessages ->
  handleRequest' interviewed awaitedMessages msg driver d = Return outcome ->
  exists d' entry,
    outcome = RequestReturned d'
    /\ requestHandlers d' = requestHandlers d
    /\ invokedHandlers (handlerSteps d') = invokedHandlers (handlerSteps d)
    /\ List.find (fun entry => awaitedMessagePredicate entry msg) awaitedMessages
       = Some entry
    /\ ResolveAwaitedMessage (awaitedMessageId entry) msg ∈ handlerSteps d'.
Proof.
  intros Hex. unfold handleRequest.
  destruct (List.find (fun entry => awaitedMessagePredicate entry msg)
                      awaitedMessages) as [entry|] eqn:Hfind.
  2: { exfalso. apply Exists_exists in Hex as (entry & Hin & Hp).
       apply list_elem_of_In in Hin.
       by rewrite (List.find_none _ _ Hfind entry Hin) in Hp. }
  destruct (if isNodeQuery msg || isCommandClassContainer msg
            then getNodeUnsafe msg driver else Return None) as [node|e]; [|done].
  intros [= <-]. eexists _, entry. split; [done|].
  destruct node as [node|];
    [destruct (bool_decide (status node = NodeStatus.Dead))|]; simpl;
    (split; [done|]); (split; [by rewrite !invokedHandlers_app; simpl; rewrite ?app_nil_r|]);
    (split; [done|]); apply elem_of_app; right; apply list_elem_of_here.
Qed.

(** An application command is not offered to the static handlers either:
    it is for the branch of the nodes. *)
Lemma handleRequest_application_command (interviewed : bool)
    (awaitedMessages : list AwaitedMessageEntry) (msg : Message)
    (driver : Driver) (d : RequestHandlers) (outcome : RequestOutcome) :
  msgClass msg = ApplicationCommandRequest
  \/ msgClass msg = BridgeApplicationCommandRequest ->
  handleRequest' interviewed awaitedMessages msg driver d = Return outcome ->
  match outcome with
  | RequestReturned d' | RequestForNode _ d' =>
      requestHandlers d' = requestHandlers d
      /\ invokedHandlers (handlerSteps d') = invokedHandlers (handlerSteps d)
  end.
Proof.
  intros Hclass. unfold handleRequest.
  destruct (if isNodeQuery msg || isCommandClassContainer msg
            then getNodeUnsafe msg driver else Return None) as [node|e]; [|done].
  set (d0 := match node with Some _ => _ | None => _ end).
  assert (requestHandlers d0 = requestHandlers d
          /\ invokedHandlers (handlerSteps d0) = invokedHandlers (handlerSteps d))
    as [Hreg0 Hinv0].
  { subst d0. destruct node as [node|];
      [destruct (bool_decide (status node = NodeStatus.Dead))|]; simpl;
      (split; [done|]); by rewrite ?invokedHandlers_app; simpl; rewrite ?app_nil_r. }
  clearbody d0.
  destruct (List.find _ awaitedMessages) as [entry|].
  { intros [= <-]. simpl. split; [done|].
    by rewrite invokedHandlers_app, Hinv0; simpl; rewrite app_nil_r. }
  match goal with
  | |- context [match ?x with Some msgExpectingUpdate => _ | None => _ end] =>
      destruct x as [sent|]
  end.
  { intros [= <-]. simpl. split; [done|].
    by rewrite invokedHandlers_app, Hinv0; simpl; rewrite app_nil_r. }
  assert (forall msg', msgClass msg' = msgClass msg ->
            bool_decide (msgClass msg' = ApplicationCommandRequest)
            || bool_decide (msgClass msg' = BridgeApplicationCommandRequest)
            = true) as Hbranch.
  { intros msg' ->. destruct Hclass as [-> | ->]; done. }
  destruct (command msg) as [received|] eqn:Hc.
  - destruct (unwrapCommands_message msg) as (Hcl & _).
    destruct (unwrapCommands msg) as [msg' log]. simpl in Hcl.
    destruct (getNodeUnsafe msg' driver) as [node'|e]; [|done].
    rewrite (Hbranch msg' Hcl).
    destruct (command msg') as [command'|]; [|by destruct node'].
    intros [= <-].
    destruct node' as [node'|];
      [destruct (bool_decide (isSecure node' = Some false)
                 && (bool_decide (ccId (fields command') = CommandClasses.Security)
                     || isEncapsulatedWith received command' CommandClasses.Security))|];
      simpl; (split; [done|]);
      rewrite ?invokedHandlers_app, Hinv0, ?invokedHandlers_logs; simpl;
      by rewrite ?app_nil_r.
  - rewrite (Hbranch msg eq_refl), Hc. done.
Qed.

(** A request for the static handlers, for whose function type handlers
    are registered, goes to them in the order of their registration, up to
    and including the first one that handles it; later handlers are not
    invoked. That handler leaves the registry if it was registered as
    one-time and stays otherwise; the handlers of other function types are
    untouched. The handlers see the request as [unwrapCommands] leaves it. *)
Theorem handleRequest_handled (interviewed : bool)
    (awaitedMessages : list AwaitedMessageEntry) (msg : Message)
    (driver : Driver) (d : RequestHandlers)
    (pre post : list RequestHandlerEntry) (h : RequestHandlerEntry) :
  forStaticHandlers' awaitedMessages msg driver ->
  requestHandlers d !! functionType msg = Some (pre ++ h :: post) ->
  Forall (fun e => handlerResult (invoke e) (unwrapCommands msg).1 = false) pre ->
  handlerResult (invoke h) (unwrapCommands msg).1 = true ->
  exists d',
    handleRequest' interviewed awaitedMessages msg driver d
    = Return (RequestReturned d')
    /\ requestHandlers d'
       = <[functionType msg := pre ++ (if oneTime h then [] else [h]) ++ post]>
           (requestHandlers d)
    /\ invokedHandlers (handlerSteps d')
       = invokedHandlers (handlerSteps d) ++ (invoke <$> pre) ++ [invoke h].
Proof.
  intros Hfor Hreg Hpre Hh.
  destruct (handleRequest_forStaticHandlers interviewed awaitedMessages msg
              driver d Hfor) as (steps & Hsteps & ->).
  destruct (unwrapCommands_message msg) as (_ & Hft & _). cbn zeta in Hft.
  eexists. split; [reflexivity|].
  destruct (handleRequest_handlers_first_handles (unwrapCommands msg).1
              (addSteps steps d) pre post h) as [H1 H2]; [by rewrite Hft|done|done|].
  rewrite Hft in H1. split; [exact H1|].
  rewrite H2. simpl. by rewrite invokedHandlers_app, Hsteps, app_nil_r.
Qed.

(** A request for the static handlers that none of the handlers registered
    for its function type handles is offered to every one of them, in the
    order of their registration, and leaves the registry as it was. *)
Theorem handleRequest_unhandled (interviewed : bool)
    (awaitedMessages : list AwaitedMessageEntry) (msg : Message)
    (driver : Driver) (d : RequestHandlers) :
  forStaticHandlers' awaitedMessages msg driver ->
  Forall (fun e => handlerResult (invoke e) (unwrapCommands msg).1 = false)
         (default [] (requestHandlers d !! functionType msg)) ->
  exists d',
    handleRequest' interviewed awaitedMessages msg driver d
    = Return (RequestReturned d')
    /\ requestHandlers d' = requestHandlers d
    /\ invokedHandlers (handlerSteps d')
       = invokedHandlers (handlerSteps d)
         ++ (invoke <$> default [] (requestHandlers d !! functionType msg)).
Proof.
  intros Hfor Hall.
  destruct (handleRequest_forStaticHandlers interviewed awaitedMessages msg
              driver d Hfor) as (steps & Hsteps & ->).
  destruct (unwrapCommands_message msg) as (_ & Hft & _). cbn zeta in Hft.
  eexists. split; [reflexivity|].
  destruct (handleRequest_handlers_none_handles (unwrapCommands msg).1
              (addSteps steps d)) as [H1 H2]; [by rewrite Hft|].
  rewrite Hft in H2. split; [exact H1|].
  rewrite H2. simpl. by rewrite invokedHandlers_app, Hsteps, app_nil_r.
Qed.

(** A newly registered handler is the last in line: a request for the
    static handlers, of its function type, that the handlers registered
    before decline is offered to them first and then to the new one, which
    stays registered unless it is one-time and handles the request. *)
Theorem registerRequestHandler_last_in_line (interviewed : bool)
    (awaitedMessages : list AwaitedMessageEntry) (msg : Message)
    (driver : Driver) (handler : nat) (once : bool) (d : RequestHandlers) :
  let before := default [] (requestHandlers d !! functionType msg) in
  let msg' := (unwrapCommands msg).1 in
  forStaticHandlers' awaitedMessages msg driver ->
  Forall (fun e => handlerResult (invoke e) msg' = false) before ->
  exists d',
    handleRequest' interviewed awaitedMessages msg driver
      (registerRequestHandler FunctionType_name num2hex (functionType msg)
                              handler once d)
    = Return (RequestReturned d')
    /\ requestHandlers d' !! functionType msg
       = Some (before ++ (if handlerResult handler msg' && once then []
                          else [mkRequestHandlerEntry handler once]))
    /\ invokedHandlers (handlerSteps d')
       = invokedHandlers (handlerSteps d) ++ (invoke <$> before) ++ [handler].
Proof.
  intros before msg' Hfor Hall.
  destruct (handleRequest_forStaticHandlers interviewed awaitedMessages msg
              driver
              (registerRequestHandler FunctionType_name num2hex (functionType msg)
                                      handler once d) Hfor)
    as (steps & Hsteps & ->).
  destruct (unwrapCommands_message msg) as (_ & Hft & _). cbn zeta in Hft.
  eexists. split; [reflexivity|].
  destruct (registerRequestHandler_handlers_last (unwrapCommands msg).1
              (functionType msg) handler once steps d Hft Hsteps Hall)
    as [H1 H2].
  split; [exact H1|exact H2].
Qed.

End RequestHandlerFacts.

Lemma handleRequest_handled_witness :
  let msg := mkMessage OtherMessage 0x49 None false None None 0 in
  let d :=
    mkRequestHandlers
      {[ 0x49 := [mkRequestHandlerEntry 1 false; mkRequestHandlerEntry 2 true;
                  mkRequestHandlerEntry 3 false] ]} [] in
  exists d',
    handleRequest (fun _ => "fn") (fun h _ => bool_decide (h = 2%nat))
      (fun t => Some (message t)) (fun _ => true) (fun _ _ => true)
      (fun _ => None) (fun _ _ _ => false) (fun _ => false) true
      [mkAwaitedMessageEntry 7 (fun m => bool_decide (functionType m = 0x0a))]
      msg exampleDriver d
    = Return (RequestReturned d')
    /\ requestHandlers d'
       = <[0x49 := [mkRequestHandlerEntry 1 false] ++ []
                   ++ [mkRequestHandlerEntry 3 false]]> (requestHandlers d)
    /\ invokedHandlers (handlerSteps d') = [] ++ [1%nat] ++ [2%nat].
Proof.
  intros msg d.
  apply (handleRequest_handled (fun _ => "fn")
           (fun h _ => bool_decide (h = 2%nat))
           (fun t => Some (message t)) (fun _ => true) (fun _ _ => true)
           (fun _ => None) (fun _ _ _ => false) (fun _ => false) true
           [mkAwaitedMessageEntry 7 (fun m => bool_decide (functionType m = 0x0a))]
           msg exampleDriver d
           [mkRequestHandlerEntry 1 false] [mkRequestHandlerEntry 3 false]
           (mkRequestHandlerEntry 2 true)).
  - repeat split; try done. by apply Forall_singleton.
  - reflexivity.
  - by apply Forall_singleton.
  - reflexivity.
Defined.

Lemma handleRequest_unhandled_witness :
  let msg := mkMessage OtherMessage 0x49 None false None None 0 in
  let d :=
    mkRequestHandlers
      {[ 0x49 := [mkRequestHandlerEntry 1 false; mkRequestHandlerEntry 2 true] ]}
      [] in
  exists d',
    handleRequest (fun _ => "fn") (fun _ _ => false)
      (fun t => Some (message t)) (fun _ => true) (fun _ _ => true)
      (fun _ => None) (fun _ _ _ => false) (fun _ => false) true
      [mkAwaitedMessageEntry 7 (fun m => bool_decide (functionType m = 0x0a))]
      msg exampleDriver d
    = Return (RequestReturned d')
    /\ requestHandlers d' = requestHandlers d
    /\ invokedHandlers (handlerSteps d') = [] ++ [1%nat; 2%nat].
Proof.
  intros msg d.
  apply (handleRequest_unhandled (fun _ => "fn") (fun _ _ => false)
           (fun t => Some (message t)) (fun _ => true) (fun _ _ => true)
           (fun _ => None) (fun _ _ _ => false) (fun _ => false) true
           [mkAwaitedMessageEntry 7 (fun m => bool_decide (functionType m = 0x0a))]
           msg exampleDriver d).
  - repeat split; try done. by apply Forall_singleton.
  - vm_compute. by repeat constructor.
Defined.

Lemma unregisterRequestHandler_only_first_witness :
  let d :=
    mkRequestHandlers
      {[ 0x49 := [mkRequestHandlerEntry 1 false; mkRequestHandlerEntry 2 false] ]}
      [] in
  requestHandlers (unregisterRequestHandler (fun _ => "fn") 0x49 2%nat d) !! 0x49
  = Some [mkRequestHandlerEntry 1 false; mkRequestHandlerEntry 2 false].
Proof.
  intros d.
  apply (unregisterRequestHandler_only_first (fun _ => "fn") 0x49 2%nat d
           (mkRequestHandlerEntry 1 false) [mkRequestHandlerEntry 2 false]).
  reflexivity.
Defined.

Lemma registerRequestHandler_last_in_line_witness :
  let msg := mkMessage OtherMessage 0x49 None false None None 0 in
  let d := mkRequestHandlers {[ 0x49 := [mkRequestHandlerEntry 1 false] ]} [] in
  exists d',
    handleRequest (fun _ => "fn") (fun h _ => bool_decide (h = 2%nat))
      (fun t => Some (message t)) (fun _ => true) (fun _ _ => true)
      (fun _ => None) (fun _ _ _ => false) (fun _ => false) true
      [mkAwaitedMessageEntry 7 (fun m => bool_decide (functionType m = 0x0a))]
      msg exampleDriver
      (registerRequestHandler (fun _ => "fn") (fun _ => "0x49") 0x49 2%nat true d)
    = Return (RequestReturned d')
    /\ requestHandlers d' !! 0x49 = Some ([mkRequestHandlerEntry 1 false] ++ [])
    /\ invokedHandlers (handlerSteps d') = [] ++ [1%nat] ++ [2%nat].
Proof.
  intros msg d.
  refine (registerRequestHandler_last_in_line (fun _ => "fn") (fun _ => "0x49")
            (fun h _ => bool_decide (h = 2%nat))
            (fun t => Some (message t)) (fun _ => true) (fun _ _ => true)
            (fun _ => None) (fun _ _ _ => false) (fun _ => false) true
            [mkAwaitedMessageEntry 7 (fun m => bool_decide (functionType m = 0x0a))]
            msg exampleDriver 2%nat true d _ _).
  - repeat split; try done. by apply Forall_singleton.
  - vm_compute. by repeat constructor.
Defined.

(** ** Commands that must be secure *)

Section ShouldDiscardCCFacts.

Variable getHighestSecurityClass : ZWaveNode -> option SecurityClass.t.
Variable node_isCCSecure : ZWaveNode -> CommandClasses.t -> bool.

(** The loop goes down to the core of the command, which decides whether
    security is required; one encrypting wrapper on the way makes the
    command secure. *)
Lemma shouldDiscardCC_loop_core (node : ZWaveNode) (cc : CommandClass) :
  forall isSecure,
    shouldDiscardCC_loop node_isCCSecure node isSecure cc
    = (isSecure || existsb isSecurityWrapper (strippedWrappers cc),
       requiresSecurity (node_isCCSecure node) (core cc),
       core cc).
Proof.
  induction cc as [f|f e IH|f l]; intros isSecure; simpl.
  - rewrite orb_false_r. unfold isSecurityWrapper.
    by rewrite negb_orb, andb_assoc.
  - rewrite IH. unfold isSecurityWrapper.
    by destruct (bool_decide (ccId f = CommandClasses.Security)),
         (bool_decide (ccId f = CommandClasses.Security2)), isSecure.
  - by rewrite orb_false_r.
Qed.

Lemma existsb_isSecurityWrapper (ws : list CommandClasses.t) :
  existsb isSecurityWrapper ws = false <->
  (CommandClasses.Security ∉ ws) /\ (CommandClasses.Security2 ∉ ws).
Proof.
  induction ws as [|w ws IH]; simpl.
  - split; [|done]. intros _. split; apply not_elem_of_nil.
  - rewrite orb_false_iff, IH, !not_elem_of_cons. unfold isSecurityWrapper.
    rewrite orb_false_iff, !bool_decide_eq_false.
    split; [intros ((? & ?) & ? & ?)|intros ((? & ?) & ? & ?)]; repeat split;
      congruence.
Qed.

(** A received command is discarded exactly when its sender is unknown, or
    when the sender has a security class other than [None] and [Temporary],
    the command under the wrappers is one that the node supports securely
    and none of the wrappers is Security or Security 2. A command that is
    accepted leaves no trace in the log. *)
Theorem shouldDiscardCC_decision (cc : CommandClass) (d : Driver)
    (c : ZWaveController) :
  _controller d = Some c ->
  exists discard d',
    shouldDiscardCC getHighestSecurityClass node_isCCSecure cc d
    = Return (discard, d') /\
    (discard = true <->
     match nodes c !! nodeId (fields cc) with
     | None => True
     | Some node =>
         getHighestSecurityClass node <> Some SecurityClass.None /\
         getHighestSecurityClass node <> Some SecurityClass.Temporary /\
         requiresSecurity (node_isCCSecure node) (core cc) = true /\
         (CommandClasses.Security ∉ strippedWrappers cc) /\
         (CommandClasses.Security2 ∉ strippedWrappers cc)
     end) /\
    (discard = false -> d' = d).
Proof.
  intros Hc. unfold shouldDiscardCC, controller. rewrite Hc.
  destruct (nodes c !! nodeId (fields cc)) as [node|].
  2: { eexists _, _. split; [done|]. by split. }
  assert (exists discard d',
    (let '(isSecure, requiresSecurity, cc0) :=
       shouldDiscardCC_loop node_isCCSecure node false cc in
     if requiresSecurity && negb isSecure
     then Return (true,
                  perform (Log (ControllerLogNode (nodeId (fields cc0))
                    "command must be encrypted but was received without Security encapsulation - discarding it..."
                    LWarn)) d)
     else Return (false, d)) = Return (discard, d') /\
    (discard = true <->
     requiresSecurity (node_isCCSecure node) (core cc) = true /\
     (CommandClasses.Security ∉ strippedWrappers cc) /\
     (CommandClasses.Security2 ∉ strippedWrappers cc)) /\
    (discard = false -> d' = d)) as (discard & d' & Hrun & Hiff & Hd).
  { rewrite shouldDiscardCC_loop_core. simpl.
    pose proof (existsb_isSecurityWrapper (strippedWrappers cc)) as Hw.
    destruct (requiresSecurity _ _), (existsb _ _); simpl;
      eexists _, _; (split; [done|]); (split; [|done]).
    - split; [done|]. intros (_ & Hs). apply Hw in Hs. done.
    - split; [|done]. intros _. split; [done|]. by apply Hw.
    - split; [done|]. by intros (? & _).
    - split; [done|]. by intros (? & _). }
  destruct (getHighestSecurityClass node) as [[]|] eqn:Hclass;
    try (exists discard, d'; split; [exact Hrun|]; split; [|done];
         rewrite Hiff; split;
         [intros ?; repeat split; try discriminate; tauto|tauto]).
  all: exists false, d; split; [done|]; split; [|done]; split; [done|].
  all: intros (Hnone & Htemp & _); congruence.
Qed.

(** A command that the driver accepts from a node with a security class,
    although the node supports the command class securely, has the Security
    flag when [unwrapCommands] has stripped its wrappers. *)
Theorem shouldDiscardCC_accepted_is_flagged (cc : CommandClass) (d d' : Driver)
    (c : ZWaveController) (node : ZWaveNode) :
  _controller d = Some c ->
  nodes c !! nodeId (fields cc) = Some node ->
  getHighestSecurityClass node <> Some SecurityClass.None ->
  getHighestSecurityClass node <> Some SecurityClass.Temporary ->
  requiresSecurity (node_isCCSecure node) (core cc) = true ->
  shouldDiscardCC getHighestSecurityClass node_isCCSecure cc d
  = Return (false, d') ->
  hasFlag (encapsulationFlags (fields (unwrapLoop cc).1))
          EncapsulationFlags.Security.
Proof.
  intros Hc Hnode Hnone Htemp Hreq Hrun.
  unfold shouldDiscardCC, controller in Hrun. rewrite Hc, Hnode in Hrun.
  assert (existsb isSecurityWrapper (strippedWrappers cc) = true) as Hsec.
  { rewrite shouldDiscardCC_loop_core, Hreq in Hrun. simpl in Hrun.
    destruct (existsb _ _); [done|]. simpl in Hrun.
    by destruct (getHighestSecurityClass node) as [[]|]. }
  apply existsb_exists in Hsec as (w & Hin & Hw).
  rewrite unwrapLoop_result. simpl. unfold assignEncapsulationFlags.
  rewrite fields_withFields. simpl.
  apply hasFlag_fold_elem, list_elem_of_In.
  replace EncapsulationFlags.Security with (flagOfWrapper w).
  - by apply in_map.
  - unfold isSecurityWrapper in Hw. apply orb_true_iff in Hw.
    destruct Hw as [Hw|Hw]; apply bool_decide_eq_true in Hw; by subst.
Qed.

End ShouldDiscardCCFacts.

Lemma shouldDiscardCC_decision_witness :
  exists discard d',
    shouldDiscardCC secureClass basicIsSecure multiChannelWrapped exampleDriver
    = Return (discard, d') /\
    (discard = true <->
     match nodes exampleController !! nodeId (fields multiChannelWrapped) with
     | None => True
     | Some node =>
         secureClass node <> Some SecurityClass.None /\
         secureClass node <> Some SecurityClass.Temporary /\
         requiresSecurity (basicIsSecure node) (core multiChannelWrapped) = true /\
         (CommandClasses.Security ∉ strippedWrappers multiChannelWrapped) /\
         (CommandClasses.Security2 ∉ strippedWrappers multiChannelWrapped)
     end) /\
    (discard = false -> d' = exampleDriver).
Proof.
  apply (shouldDiscardCC_decision secureClass basicIsSecure multiChannelWrapped
           exampleDriver exampleController).
  reflexivity.
Defined.

Lemma shouldDiscardCC_accepted_is_flagged_witness :
  hasFlag (encapsulationFlags (fields (unwrapLoop securityWrapped).1))
          EncapsulationFlags.Security.
Proof.
  apply (shouldDiscardCC_accepted_is_flagged secureClass basicIsSecure
           securityWrapped exampleDriver exampleDriver exampleController mainsNode).
  - reflexivity.
  - reflexivity.
  - discriminate.
  - discriminate.
  - reflexivity.
  - reflexivity.
Defined.

(** ** Encapsulation *)

Ltac elem_of_list :=
  simpl; repeat first [apply list_elem_of_here|apply list_elem_of_further].

Lemma wrapsWith_wrapper (w : CommandClasses.t)
    (encapsulate : CommandClass -> CommandClass) (b : bool) (cc : CommandClass) :
  wrapsWith w encapsulate ->
  let r := if b then encapsulate cc else cc in
  strippedWrappers r = (if b then [w] else []) ++ strippedWrappers cc /\
  core r = core cc /\
  multiWrapperOf r = multiWrapperOf cc.
Proof.
  intros Hw. destruct b; simpl; [|done].
  destruct (Hw cc) as (f & -> & <-). done.
Qed.

Lemma sameUpToFlags_assign (flags : Z) (c : CommandClass) :
  sameUpToFlags (assignEncapsulationFlags flags c) c.
Proof. unfold sameUpToFlags. by destruct c. Qed.

Section EncapsulateCommandsFacts.

Variables SupervisionCC_requiresEncapsulation MultiChannelCC_requiresEncapsulation
  CRC16CC_requiresEncapsulation Security2CC_requiresEncapsulation
  SecurityCC_requiresEncapsulation : CommandClass -> bool.
Variables SupervisionCC_encapsulate MultiChannelCC_encapsulate CRC16CC_encapsulate
  Security2CC_encapsulate SecurityCC_encapsulate : CommandClass -> CommandClass.
Variable getNode : CommandClass -> option ZWaveNode.
Variable getHighestSecurityClass : ZWaveNode -> option SecurityClass.t.

Hypothesis Supervision_wraps :
  wrapsWith CommandClasses.Supervision SupervisionCC_encapsulate.
Hypothesis MultiChannel_wraps :
  wrapsWith CommandClasses.MultiChannel MultiChannelCC_encapsulate.
Hypothesis CRC16_wraps :
  wrapsWith CommandClasses.CRC16Encapsulation CRC16CC_encapsulate.
Hypothesis Security2_wraps :
  wrapsWith CommandClasses.Security2 Security2CC_encapsulate.
Hypothesis Security_wraps :
  wrapsWith CommandClasses.Security SecurityCC_encapsulate.

#[local] Abbreviation encapsulated c d :=
  (encapsulateCommand
     SupervisionCC_requiresEncapsulation MultiChannelCC_requiresEncapsulation
     CRC16CC_requiresEncapsulation Security2CC_requiresEncapsulation
     SecurityCC_requiresEncapsulation
     SupervisionCC_encapsulate MultiChannelCC_encapsulate CRC16CC_encapsulate
     Security2CC_encapsulate SecurityCC_encapsulate
     getNode getHighestSecurityClass c d).

(** The wrappers that [encapsulateCommands] puts around a command, from the
    inside: Supervision where required, then Multi Channel where required,
    then either CRC-16 or security. *)
Lemma encapsulateCommand_wrappers (c : CommandClass) (d : Driver) :
  exists inner middle outer,
    strippedWrappers (encapsulated c d)
    = outer ++ middle ++ inner ++ strippedWrappers c /\
    core (encapsulated c d) = core c /\
    multiWrapperOf (encapsulated c d) = multiWrapperOf c /\
    inner = (if SupervisionCC_requiresEncapsulation c
             then [CommandClasses.Supervision] else []) /\
    middle ∈ [[]; [CommandClasses.MultiChannel]] /\
    outer ∈ [[]; [CommandClasses.CRC16Encapsulation]; [CommandClasses.Security2];
             [CommandClasses.Security];
             [CommandClasses.Security; CommandClasses.Security2]].
Proof.
  unfold encapsulateCommand.
  destruct (wrapsWith_wrapper _ _ (SupervisionCC_requiresEncapsulation c) c
              Supervision_wraps) as (Hw1 & Hc1 & Hm1).
  set (c1 := if SupervisionCC_requiresEncapsulation c
             then SupervisionCC_encapsulate c else c) in *.
  destruct (wrapsWith_wrapper _ _ (MultiChannelCC_requiresEncapsulation c1) c1
              MultiChannel_wraps) as (Hw2 & Hc2 & Hm2).
  set (c2 := if MultiChannelCC_requiresEncapsulation c1
             then MultiChannelCC_encapsulate c1 else c1) in *.
  exists (if SupervisionCC_requiresEncapsulation c
          then [CommandClasses.Supervision] else []),
         (if MultiChannelCC_requiresEncapsulation c1
          then [CommandClasses.MultiChannel] else []).
  assert ((if MultiChannelCC_requiresEncapsulation c1
           then [CommandClasses.MultiChannel] else [])
          ∈ [[]; [CommandClasses.MultiChannel]]) as Hmiddle.
  { destruct (MultiChannelCC_requiresEncapsulation c1);
      elem_of_list. }
  destruct (CRC16CC_requiresEncapsulation c2).
  { destruct (CRC16_wraps c2) as (f & -> & Hf). simpl.
    exists [CommandClasses.CRC16Encapsulation].
    rewrite Hf, Hw2, Hw1, Hc2, Hc1, Hm2, Hm1.
    repeat split; [done|elem_of_list]. }
  set (c3 := match getNode c2 with Some _ => _ | None => _ end).
  assert (exists s2 : bool,
            c3 = if s2 then Security2CC_encapsulate c2 else c2) as (s2 & Hc3).
  { unfold c3. destruct (getNode c2) as [node|]; [|by exists false].
    destruct (supportsCC _ node); [|by exists false].
    destruct (_ && Security2CC_requiresEncapsulation c2);
      [by exists true|by exists false]. }
  destruct (wrapsWith_wrapper _ _ s2 c2 Security2_wraps) as (Hw3 & Hc3' & Hm3).
  rewrite <- Hc3 in Hw3, Hc3', Hm3.
  destruct (wrapsWith_wrapper _ _ (SecurityCC_requiresEncapsulation c3) c3
              Security_wraps) as (Hw4 & Hc4 & Hm4).
  exists ((if SecurityCC_requiresEncapsulation c3 then [CommandClasses.Security]
           else []) ++ (if s2 then [CommandClasses.Security2] else [])).
  rewrite Hw4, Hw3, Hw2, Hw1, Hc4, Hc3', Hc2, Hc1, Hm4, Hm3, Hm2, Hm1.
  rewrite <- !(assoc_L (++)).
  repeat split; [done|].
  destruct (SecurityCC_requiresEncapsulation c3), s2; elem_of_list.
Qed.

(** [encapsulateCommands] keeps the command under the wrappers, adds its
    wrappers in the fixed order Supervision, Multi Channel, CRC-16 or
    security, from the inside, and never combines CRC-16 with Security or
    Security 2. *)
Theorem encapsulateCommands_layers (c : CommandClass) (d : Driver) :
  exists inner middle outer,
    strippedWrappers (encapsulated c d)
    = outer ++ middle ++ inner ++ strippedWrappers c /\
    core (encapsulated c d) = core c /\
    inner ∈ [[]; [CommandClasses.Supervision]] /\
    middle ∈ [[]; [CommandClasses.MultiChannel]] /\
    outer ∈ [[]; [CommandClasses.CRC16Encapsulation]; [CommandClasses.Security2];
             [CommandClasses.Security];
             [CommandClasses.Security; CommandClasses.Security2]].
Proof.
  destruct (encapsulateCommand_wrappers c d)
    as (inner & middle & outer & Hw & Hc & _ & Hi & Hm & Ho).
  exists inner, middle, outer. repeat split; try done.
  subst inner. destruct (SupervisionCC_requiresEncapsulation c); elem_of_list.
Qed.

(** What [encapsulateCommands] wraps, [unwrapCommands] unwraps: the result
    is the command under the wrappers up to its flags, the log is that of
    unwrapping the command as it was, a Supervision wrapper that was
    required shows in the flags, and so does every Supervision, security
    and CRC-16 wrapper of the encapsulated command. *)
Theorem encapsulateCommands_unwrapCommands (msg : Message) (c : CommandClass)
    (d : Driver) :
  command msg = Some c ->
  let sent :=
    encapsulateCommands
      SupervisionCC_requiresEncapsulation MultiChannelCC_requiresEncapsulation
      CRC16CC_requiresEncapsulation Security2CC_requiresEncapsulation
      SecurityCC_requiresEncapsulation
      SupervisionCC_encapsulate MultiChannelCC_encapsulate CRC16CC_encapsulate
      Security2CC_encapsulate SecurityCC_encapsulate
      getNode getHighestSecurityClass msg d in
  exists c',
    command (unwrapCommands sent).1 = Some c' /\
    sameUpToFlags c' (core c) /\
    (unwrapCommands sent).2 = (unwrapCommands msg).2 /\
    (SupervisionCC_requiresEncapsulation c = true ->
     hasFlag (encapsulationFlags (fields c')) EncapsulationFlags.Supervision) /\
    Forall (fun w => hasFlag (encapsulationFlags (fields c')) (flagOfWrapper w))
           (strippedWrappers (encapsulated c d)).
Proof.
  intros Hc sent.
  destruct (encapsulateCommand_wrappers c d)
    as (inner & middle & outer & Hw & Hcore & Hmulti & Hi & _ & _).
  assert (sent = setCommand (encapsulated c d) msg) as ->.
  { unfold sent, encapsulateCommands. by rewrite Hc. }
  rewrite unwrapCommands_setCommand, unwrapLoop_result. simpl.
  eexists. split; [done|].
  assert (forall w, w ∈ strippedWrappers (encapsulated c d) ->
    hasFlag (encapsulationFlags (fields (assignEncapsulationFlags
               (fold_left Z.lor (map flagOfWrapper
                                     (strippedWrappers (encapsulated c d)))
                          (encapsulationFlags (fields (encapsulated c d))))
               (core (encapsulated c d)))))
            (flagOfWrapper w)) as Hflags.
  { intros w Hin. unfold assignEncapsulationFlags. rewrite fields_withFields.
    simpl. apply hasFlag_fold_elem, list_elem_of_In, in_map.
    by apply list_elem_of_In. }
  split; [|split; [|split]].
  - rewrite Hcore. apply sameUpToFlags_assign.
  - rewrite Hmulti. unfold unwrapCommands. rewrite Hc.
    rewrite unwrapLoop_result. done.
  - intros Hsup. apply (Hflags CommandClasses.Supervision).
    rewrite Hw, Hi, Hsup. simpl. rewrite !elem_of_app, elem_of_cons.
    right; right; by left.
  - apply Forall_forall. exact Hflags.
Qed.

End EncapsulateCommandsFacts.

Lemma encapsulateCommands_layers_witness :
  exists inner middle outer,
    strippedWrappers
      (encapsulateCommand
         (fun c => bool_decide (strippedWrappers c = [])) (fun _ => false)
         (fun _ => false) (fun _ => true) (fun _ => false)
         (wrapIn CommandClasses.Supervision) (wrapIn CommandClasses.MultiChannel)
         (wrapIn CommandClasses.CRC16Encapsulation)
         (wrapIn CommandClasses.Security2) (wrapIn CommandClasses.Security)
         (fun _ => Some (addCC CommandClasses.Security2 mainsNode)) secureClass
         basicCommand exampleDriver)
    = outer ++ middle ++ inner ++ strippedWrappers basicCommand /\
    core
      (encapsulateCommand
         (fun c => bool_decide (strippedWrappers c = [])) (fun _ => false)
         (fun _ => false) (fun _ => true) (fun _ => false)
         (wrapIn CommandClasses.Supervision) (wrapIn CommandClasses.MultiChannel)
         (wrapIn CommandClasses.CRC16Encapsulation)
         (wrapIn CommandClasses.Security2) (wrapIn CommandClasses.Security)
         (fun _ => Some (addCC CommandClasses.Security2 mainsNode)) secureClass
         basicCommand exampleDriver)
    = core basicCommand /\
    inner ∈ [[]; [CommandClasses.Supervision]] /\
    middle ∈ [[]; [CommandClasses.MultiChannel]] /\
    outer ∈ [[]; [CommandClasses.CRC16Encapsulation]; [CommandClasses.Security2];
             [CommandClasses.Security];
             [CommandClasses.Security; CommandClasses.Security2]].
Proof.
  apply (encapsulateCommands_layers
           (fun c => bool_decide (strippedWrappers c = [])) (fun _ => false)
           (fun _ => false) (fun _ => true) (fun _ => false)
           (wrapIn CommandClasses.Supervision) (wrapIn CommandClasses.MultiChannel)
           (wrapIn CommandClasses.CRC16Encapsulation)
           (wrapIn CommandClasses.Security2) (wrapIn CommandClasses.Security)
           (fun _ => Some (addCC CommandClasses.Security2 mainsNode)) secureClass);
    intros cc; eexists; split; reflexivity.
Defined.

Lemma encapsulateCommands_unwrapCommands_witness :
  let sent :=
    encapsulateCommands
      (fun c => bool_decide (strippedWrappers c = [])) (fun _ => false)
      (fun _ => false) (fun _ => true) (fun _ => false)
      (wrapIn CommandClasses.Supervision) (wrapIn CommandClasses.MultiChannel)
      (wrapIn CommandClasses.CRC16Encapsulation)
      (wrapIn CommandClasses.Security2) (wrapIn CommandClasses.Security)
      (fun _ => Some (addCC CommandClasses.Security2 mainsNode)) secureClass
      (exampleMessage basicCommand) exampleDriver in
  exists c',
    command (unwrapCommands sent).1 = Some c' /\
    sameUpToFlags c' (core basicCommand) /\
    (unwrapCommands sent).2 = (unwrapCommands (exampleMessage basicCommand)).2 /\
    (bool_decide (strippedWrappers basicCommand = []) = true ->
     hasFlag (encapsulationFlags (fields c')) EncapsulationFlags.Supervision) /\
    Forall (fun w => hasFlag (encapsulationFlags (fields c')) (flagOfWrapper w))
      (strippedWrappers
         (encapsulateCommand
            (fun c => bool_decide (strippedWrappers c = [])) (fun _ => false)
            (fun _ => false) (fun _ => true) (fun _ => false)
            (wrapIn CommandClasses.Supervision) (wrapIn CommandClasses.MultiChannel)
            (wrapIn CommandClasses.CRC16Encapsulation)
            (wrapIn CommandClasses.Security2) (wrapIn CommandClasses.Security)
            (fun _ => Some (addCC CommandClasses.Security2 mainsNode)) secureClass
            basicCommand exampleDriver)).
Proof.
  refine (encapsulateCommands_unwrapCommands
            (fun c => bool_decide (strippedWrappers c = [])) (fun _ => false)
            (fun _ => false) (fun _ => true) (fun _ => false)
            (wrapIn CommandClasses.Supervision) (wrapIn CommandClasses.MultiChannel)
            (wrapIn CommandClasses.CRC16Encapsulation)
            (wrapIn CommandClasses.Security2) (wrapIn CommandClasses.Security)
            (fun _ => Some (addCC CommandClasses.Security2 mainsNode)) secureClass
            _ _ _ _ _
            (exampleMessage basicCommand) basicCommand exampleDriver _).
  1-5: intros cc; eexists; split; reflexivity.
  reflexivity.
Defined.

(** ** The network cache *)

Section NetworkCacheFacts.

Variable V : Type.

(** What [cacheSet] writes with a serializer, [cacheGet] reads back with the
    reviver that inverts it; the entries of other keys are as before. *)
Theorem cacheSet_cacheGet (cacheKey : string) (value stored : V)
    (serializer reviver : V -> Completion (option V)) (db : gmap string V) :
  serializer value = Return (Some stored) ->
  reviver stored = Return (Some value) ->
  exists cache',
    cacheSet cacheKey (Some value) (Some serializer) (Some db) = Return cache' /\
    cacheGet cacheKey (Some reviver) cache' = Return (Some value) /\
    forall other r,
      other <> cacheKey ->
      cacheGet other r cache' = cacheGet other r (Some db).
Proof.
  intros Hser Hrev. unfold cacheSet. rewrite Hser. simpl.
  eexists. split; [done|]. split.
  - unfold cacheGet. simpl. by rewrite lookup_insert_eq, Hrev.
  - intros other r Hne. unfold cacheGet. simpl.
    by rewrite lookup_insert_ne.
Qed.

(** Setting a key to [undefined], or to a value that the serializer turns
    into [undefined], deletes the entry: reading the key gives [undefined]
    whatever the reviver, which is not asked, and the entries of other keys
    are as before. *)
Theorem cacheSet_undefined_deletes (cacheKey : string) (value : option V)
    (serializer : option (V -> Completion (option V))) (db : gmap string V) :
  match value, serializer with
  | Some v, Some serializer => serializer v = Return None
  | Some _, None => False
  | None, _ => True
  end ->
  exists cache',
    cacheSet cacheKey value serializer (Some db) = Return cache' /\
    (forall reviver, cacheGet cacheKey reviver cache' = Return None) /\
    forall other r,
      other <> cacheKey ->
      cacheGet other r cache' = cacheGet other r (Some db).
Proof.
  intros Hval.
  assert (cacheSet cacheKey value serializer (Some db)
          = Return (Some (delete cacheKey db))) as ->.
  { unfold cacheSet. destruct value as [v|], serializer as [s|]; try done.
    by rewrite Hval. }
  eexists. split; [done|]. split.
  - intros reviver. unfold cacheGet. simpl. by rewrite lookup_delete_eq.
  - intros other r Hne. unfold cacheGet. simpl. by rewrite lookup_delete_ne.
Qed.

(** Reading from an initialised cache never throws: a reviver that throws
    is ignored and the stored value returned as it is, and a key without an
    entry gives [undefined] without asking the reviver. *)
Theorem cacheGet_never_throws (cacheKey : string)
    (reviver : option (V -> Completion (option V))) (db : gmap string V) :
  exists ret,
    cacheGet cacheKey reviver (Some db) = Return ret /\
    (db !! cacheKey = None -> ret = None) /\
    (forall value rev e,
       db !! cacheKey = Some value -> reviver = Some rev ->
       rev value = Throw e -> ret = Some value).
Proof.
  unfold cacheGet. simpl.
  destruct (db !! cacheKey) as [value|] eqn:Hv, reviver as [rev|];
    try (eexists; split; [done|]; split; [done|]; intros; congruence).
  destruct (rev value) as [r|e] eqn:Hr; eexists; (split; [done|]);
    (split; [done|]); intros v' rev' e' Hv' Hrev' Hthrow; congruence.
Qed.

Lemma cachePurge_fold (prefix : string) (keys : list string) :
  forall (db : gmap string V) (key : string),
    fold_left (fun db key => if String.prefix prefix key then delete key db else db)
              keys db !! key
    = if bool_decide (key ∈ keys) && String.prefix prefix key then None
      else db !! key.
Proof.
  induction keys as [|k keys IH]; intros db key; simpl; [done|].
  rewrite IH.
  destruct (decide (key = k)) as [->|Hne].
  - rewrite (bool_decide_eq_true_2 (k ∈ k :: keys)) by apply list_elem_of_here.
    simpl. destruct (String.prefix prefix k) eqn:Hp.
    + rewrite lookup_delete_eq. by destruct (bool_decide _).
    + by rewrite andb_false_r.
  - assert (bool_decide (key ∈ k :: keys) = bool_decide (key ∈ keys)) as ->.
    { apply bool_decide_ext. rewrite elem_of_cons. tauto. }
    destruct (bool_decide (key ∈ keys) && String.prefix prefix key); [done|].
    destruct (String.prefix prefix k); [|done].
    by rewrite lookup_delete_ne.
Qed.

(** [cachePurge] deletes exactly the entries whose key starts with the
    prefix: reading such a key afterwards gives [undefined], reading any
    other key gives what it gave before. *)
Theorem cachePurge_prefix (prefix : string) (db : gmap string V) :
  exists cache',
    cachePurge prefix (Some db) = Return cache' /\
    forall key reviver,
      cacheGet key reviver cache'
      = if String.prefix prefix key then Return None
        else cacheGet key reviver (Some db).
Proof.
  eexists. split; [done|]. intros key reviver. unfold cacheGet. simpl.
  rewrite cachePurge_fold.
  destruct (String.prefix prefix key) eqn:Hp.
  - rewrite andb_true_r. case_bool_decide as Hin; [done|].
    assert (db !! key = None) as ->; [|done].
    apply eq_None_not_Some. intros [v Hv]. apply Hin.
    unfold networkCache_keys. apply list_elem_of_fmap. exists (key, v).
    split; [done|]. by apply elem_of_map_to_list.
  - by rewrite andb_false_r.
Qed.

End NetworkCacheFacts.

Lemma cacheSet_cacheGet_witness :
  exists cache',
    cacheSet "node.5.isListening" (Some 7) (Some (fun v => Return (Some (v + 1))))
             (Some ∅)
    = Return cache' /\
    cacheGet "node.5.isListening" (Some (fun s => Return (Some (s - 1)))) cache'
    = Return (Some 7) /\
    forall other r,
      other <> "node.5.isListening" ->
      cacheGet other r cache' = cacheGet other r (Some ∅).
Proof.
  apply (cacheSet_cacheGet Z "node.5.isListening" 7 8
           (fun v => Return (Some (v + 1))) (fun s => Return (Some (s - 1))) ∅).
  - reflexivity.
  - reflexivity.
Defined.

Lemma cacheSet_undefined_deletes_witness :
  exists cache',
    cacheSet "node.5.isListening" (Some 7) (Some (fun _ => Return None))
             (Some {[ "node.5.isListening" := 1 ]})
    = Return cache' /\
    (forall reviver, cacheGet "node.5.isListening" reviver cache' = Return None) /\
    forall other r,
      other <> "node.5.isListening" ->
      cacheGet other r cache'
      = cacheGet other r (Some {[ "node.5.isListening" := 1 ]}).
Proof.
  apply (cacheSet_undefined_deletes Z "node.5.isListening" (Some 7)
           (Some (fun _ => Return None)) {[ "node.5.isListening" := 1 ]}).
  reflexivity.
Defined.

(** ** Command class versions *)

Section CCVersionFacts.

Variable Endpoint : Type.
Variable node_getEndpoint : ZWaveNode -> Z -> option Endpoint.
Variable endpoint_getCCVersion : Endpoint -> CommandClasses.t -> Z.
Variable node_getCCVersion : ZWaveNode -> CommandClasses.t -> Z.
Variable getImplementedVersion : CommandClasses.t -> JSNumber.

(** The version that [getSafeCCVersionForNode] answers never exceeds the
    version that the library implements, nor the version that the endpoint
    supports when that is known; for a node that the controller does not
    know it is the implemented version. The call throws [CC_NotSupported]
    exactly when the implemented version is 0 or infinite, whatever the
    node. *)
Theorem getSafeCCVersionForNode_safe (cc : CommandClasses.t)
    (nodeId endpointIndex : Z) (d : Driver) :
  let supported :=
    getSupportedCCVersionForEndpoint node_getEndpoint endpoint_getCCVersion
      node_getCCVersion cc nodeId endpointIndex d in
  let result :=
    getSafeCCVersionForNode node_getEndpoint endpoint_getCCVersion
      node_getCCVersion getImplementedVersion cc nodeId endpointIndex d in
  match getImplementedVersion cc with
  | Num 0 | Infinity =>
      result = Throw (ZWaveError
                        "Cannot retrieve the version of a CC that is not implemented"
                        ZWaveErrorCodes.CC_NotSupported)
  | Num implemented =>
      exists version,
        result = Return (Num version) /\
        version <= implemented /\
        (supported <> 0 -> version <= supported) /\
        (supported = 0 -> version = implemented) /\
        (nodeOf nodeId d = None -> version = implemented)
  | NaN => result = Return NaN
  end.
Proof.
  intros supported result. unfold result, getSafeCCVersionForNode.
  fold supported.
  assert (nodeOf nodeId d = None -> supported = 0) as Hunknown.
  { unfold nodeOf, supported, getSupportedCCVersionForEndpoint.
    destruct (_controller d) as [c|]; [|done]. simpl. by intros ->. }
  destruct (getImplementedVersion cc) as [[|i|i]| |];
    destruct (Z.eqb_spec supported 0) as [Hs|Hs]; simpl; try done.
  all: eexists; split; [done|]; repeat split; try lia; intros H;
    try apply Hunknown in H; lia.
Qed.

End CCVersionFacts.

(** ** Results of Serial API commands *)

Section SettleTransactionFacts.

Variable isTransmitReport : Message -> bool.
Variable hasTXReport : Message -> bool.
Variable isOK : Message -> bool.

Ltac settle_steps :=
  intros;
  repeat match goal with
         | H : _ /\ _ |- _ => destruct H
         | H : _ ∈ [] |- _ => by apply elem_of_nil in H
         | H : _ ∈ _ :: _ |- _ => apply elem_of_cons in H as [H|H]
         | H : _ ∈ _ ++ _ |- _ => apply elem_of_app in H as [H|H]
         end;
  try done; try congruence;
  rewrite ?elem_of_app, ?elem_of_cons, ?elem_of_nil; auto 10.

(** After a result for a SendData message or a node query, the node is
    marked awake exactly when the communication succeeded, the node can
    sleep and the message was no nonce and no Supervision reply; it is
    marked alive exactly when the communication succeeded, the node cannot
    sleep and its status is not alive; and the driver plans to send it back
    to sleep exactly when it marks it awake and the node is not to be kept
    awake. *)
Theorem handleSerialAPICommandResult_status (msg : Message)
    (priority : MessagePriority.t) (onTXReport : bool) (result : option Message)
    (d : Driver) (node : ZWaveNode) :
  getNodeUnsafe msg d = Return (Some node) ->
  isSendData msg || isNodeQuery msg = true ->
  exists steps,
    handleSerialAPICommandResult isTransmitReport hasTXReport isOK msg priority
                                 onTXReport result d
    = Return steps /\
    (NodeMarkAsAwake (id node) ∈ steps <->
     communicationSucceeded isTransmitReport isOK result /\
     canSleep node = true /\
     priority <> MessagePriority.Nonce /\ priority <> MessagePriority.Supervision) /\
    (NodeMarkAsAlive (id node) ∈ steps <->
     communicationSucceeded isTransmitReport isOK result /\
     canSleep node = false /\ status node <> NodeStatus.Alive) /\
    (SetImmediateDebounceSendNodeToSleep (id node) ∈ steps <->
     NodeMarkAsAwake (id node) ∈ steps /\ keepAwake node = false).
Proof.
  intros Hnode Hmsg. unfold handleSerialAPICommandResult.
  rewrite Hnode, Hmsg. eexists. split; [done|].
  set (statistics := match result with Some _ => _ | None => _ end).
  assert (forall s, s ∈ statistics ->
            s <> NodeMarkAsAwake (id node) /\ s <> NodeMarkAsAlive (id node) /\
            s <> SetImmediateDebounceSendNodeToSleep (id node)) as Hstat.
  { intros s. unfold statistics. destruct result as [report|].
    - destruct (isTransmitReport report), (isOK report), (hasTXReport report),
        onTXReport; simpl; rewrite ?elem_of_cons, ?elem_of_nil;
        intros Hs; repeat destruct Hs as [->|Hs]; try done.
    - by rewrite elem_of_nil. }
  assert (forall s,
            s = NodeMarkAsAwake (id node) \/ s = NodeMarkAsAlive (id node) \/
            s = SetImmediateDebounceSendNodeToSleep (id node) ->
            forall tracking, s ∈ statistics ++ tracking <-> s ∈ tracking) as Hin.
  { intros s Hs tracking. rewrite elem_of_app. split; [|by right].
    intros [Hst|Ht]; [|done]. apply Hstat in Hst as (? & ? & ?).
    by destruct Hs as [->| [->| ->]]. }
  rewrite !Hin by auto. clear Hin Hstat statistics.
  assert (communicationSucceeded isTransmitReport isOK result <->
          match result with
          | Some report => negb (isTransmitReport report && negb (isOK report))
          | None => true
          end = true) as ->.
  { unfold communicationSucceeded. destruct result as [report|].
    - split.
      + intros H. destruct (isTransmitReport report) eqn:Ht; [|done].
        simpl. by rewrite (H report eq_refl Ht).
      + intros H r [= <-] Ht. rewrite Ht in H. simpl in H.
        by destruct (isOK report).
    - split; [done|]. intros _ r Hr. discriminate. }
  destruct (match result with Some _ => _ | None => _ end);
    destruct (canSleep node), (keepAwake node); simpl;
    repeat case_bool_decide; simpl; repeat split; settle_steps.
Qed.

End SettleTransactionFacts.

Section SendMessageSettleFacts.

Variable isSendDataTransmitReport : Message -> bool.
Variable isSuccessIndicator : Message -> bool.
Variable isOK : Message -> bool.

(** When the transaction fails, [sendMessage] passes the failure on: it
    throws an error with the same message, code and context; a Z-Wave
    error that names no source is thrown with the transaction's stack as
    its source, a Z-Wave error that names one keeps it, and an error that
    is no Z-Wave error is thrown as it is. The one exception is the
    failure of a controller command outside the SendData family, for which
    the call returns the failed response or callback instead of throwing.
    However the transaction fails, its expiration timeout is cleared. *)
Theorem sendMessage_settle_failure (msg : Message) (priority : MessagePriority.t)
    (node : option ZWaveNode) (stack : string) (expirationTimeout : bool)
    (e : TransactionError) (d : Driver) :
  let r :=
    sendMessage_settle isSendDataTransmitReport isSuccessIndicator isOK msg
      priority node stack expirationTimeout (inr e) d in
  match r.1 with
  | inl response =>
      exists failed, controllerCommandFailed e failed /\ response = Some failed
  | inr e' =>
      (forall failed, ~ controllerCommandFailed e failed) /\
      thrown e' = thrown e /\ context e' = context e /\
      transactionSource e' = sourceOrStack stack e /\
      (forall text, thrown e = OtherError text -> e' = e)
  end /\
  (ClearExpirationTimeout ∈ r.2 <-> expirationTimeout = true).
Proof.
  unfold sendMessage_settle, sourceOrStack.
  set (finally := if expirationTimeout then [ClearExpirationTimeout] else []).
  assert (forall steps,
            (forall s, s ∈ steps -> s <> ClearExpirationTimeout) ->
            ClearExpirationTimeout ∈ steps ++ finally
            <-> expirationTimeout = true) as Hfinally.
  { intros steps Hsteps. rewrite elem_of_app. unfold finally.
    split.
    - intros [Hs|Hf]; [by apply Hsteps in Hs|].
      destruct expirationTimeout; [done|by apply elem_of_nil in Hf].
    - intros ->. right. apply list_elem_of_here. }
  destruct (thrown e) as [message code|text] eqn:He.
  2: { simpl. split.
       - split; [|by auto]. intros failed (m & c & Hm & _). congruence.
       - apply (Hfinally []). intros s Hs. by apply elem_of_nil in Hs. }
  destruct (context e) as [[failed|text]|] eqn:Hc.
  2,3: (assert (forall failed, ~ controllerCommandFailed e failed) as Hno
          by (intros failed (m & c & _ & _ & Hcf & _); congruence)).
  2,3: (destruct (transactionSource e) as [[|a src]|] eqn:Hs; simpl;
        (split; [rewrite ?He; repeat split; auto; intros; discriminate|]); apply Hfinally; intros s;
        destruct (bool_decide (code = ZWaveErrorCodes.Controller_NodeTimeout)); destruct node; simpl;
        rewrite ?elem_of_cons, ?elem_of_nil; intros Hin;
        repeat destruct Hin as [->|Hin]; done).
  destruct ((bool_decide (code = ZWaveErrorCodes.Controller_ResponseNOK)
             || bool_decide (code = ZWaveErrorCodes.Controller_CallbackNOK))
            && negb (bool_decide (functionType failed = FunctionType_SendData))
            && negb (bool_decide (functionType failed
                                  = FunctionType_SendDataMulticast))
            && negb (bool_decide (functionType failed = FunctionType_SendDataBridge))
            && negb (bool_decide (functionType failed
                                  = FunctionType_SendDataMulticastBridge)))
    eqn:Hpass.
  - simpl. split.
    + exists failed. split; [|done]. exists message, code.
      rewrite !andb_true_iff, orb_true_iff, !negb_true_iff,
        !bool_decide_eq_true, !bool_decide_eq_false in Hpass.
      destruct Hpass as ((((Hcode & H1) & H2) & H3) & H4).
      repeat split; try done. unfold isSendDataFunctionType. tauto.
    + apply Hfinally. intros s. destruct (_controller d); simpl;
        rewrite ?elem_of_cons, ?elem_of_nil; intros Hin;
        repeat destruct Hin as [->|Hin]; done.
  - assert (forall failed', ~ controllerCommandFailed e failed') as Hno.
    { intros failed' (m & c & Hm & Hcode & Hcf & Hft).
      rewrite He in Hm. rewrite Hc in Hcf. injection Hm as <- <-.
      injection Hcf as <-. unfold isSendDataFunctionType in Hft.
      rewrite !andb_false_iff, orb_false_iff, !negb_false_iff,
        !bool_decide_eq_true, !bool_decide_eq_false in Hpass. tauto. }
    destruct (transactionSource e) as [[|a src]|] eqn:Hs; simpl;
      (split; [rewrite ?He; repeat split; auto; intros; discriminate|]); apply Hfinally; intros s;
      destruct (bool_decide (code = ZWaveErrorCodes.Controller_NodeTimeout)); destruct node; simpl;
      rewrite ?elem_of_cons, ?elem_of_nil; intros Hin;
      repeat destruct Hin as [->|Hin]; done.
Qed.

(** [sendMessage] plans to send a node back to sleep only after a result
    that shows success, for a node that can sleep and is not to be kept
    awake, and for a SendData message only if it was no nonce and no
    Supervision reply. *)
Theorem sendMessage_settle_sleep (msg : Message) (priority : MessagePriority.t)
    (node : option ZWaveNode) (stack : string) (expirationTimeout : bool)
    (settled : option Message + TransactionError) (d : Driver) (nodeId : Z) :
  SetImmediateDebounceSendNodeToSleep nodeId
  ∈ (sendMessage_settle isSendDataTransmitReport isSuccessIndicator isOK msg
       priority node stack expirationTimeout settled d).2 ->
  exists target result,
    node = Some target /\ id target = nodeId /\
    canSleep target = true /\ keepAwake target = false /\
    settled = inl (Some result) /\
    if isSendData msg
    then priority <> MessagePriority.Nonce /\
         priority <> MessagePriority.Supervision /\
         (functionType result = FunctionType_BridgeApplicationCommand
          \/ functionType result = FunctionType_ApplicationCommand
          \/ (isSendDataTransmitReport result = true /\ isOK result = true))
    else isNodeQuery msg = true /\
         isSuccessIndicator result = true /\ isOK result = true.
Proof.
  unfold sendMessage_settle.
  assert (forall steps : list SettleStep,
            SetImmediateDebounceSendNodeToSleep nodeId
            ∈ steps ++ (if expirationTimeout then [ClearExpirationTimeout] else [])
            -> SetImmediateDebounceSendNodeToSleep nodeId ∈ steps) as Hfinally.
  { intros steps Hin. apply elem_of_app in Hin as [Hin|Hin]; [done|].
    destruct expirationTimeout; [|by apply elem_of_nil in Hin].
    apply elem_of_cons in Hin as [Hin|Hin]; [done|by apply elem_of_nil in Hin]. }
  destruct settled as [result|e].
  - simpl. intros Hin. apply Hfinally in Hin.
    destruct node as [target|]; [|by apply elem_of_nil in Hin].
    destruct (canSleep target) eqn:Hcs, (keepAwake target) eqn:Hka;
      rewrite ?andb_false_r in Hin; simpl in Hin;
      try by apply elem_of_nil in Hin.
    rewrite !andb_true_r in Hin.
    destruct result as [result|].
    2: { destruct (isSendData msg); rewrite ?andb_false_r in Hin;
         by apply elem_of_nil in Hin. }
    match type of Hin with
    | _ ∈ (if ?b then _ else _) => destruct b eqn:Hb
    end; [|by apply elem_of_nil in Hin].
    apply elem_of_cons in Hin as [[= ->]|Hin]; [|by apply elem_of_nil in Hin].
    exists target, result. repeat split; try done.
    destruct (isSendData msg).
    + rewrite !andb_true_iff, !orb_true_iff, !negb_true_iff, andb_true_iff,
        !bool_decide_eq_false, !bool_decide_eq_true in Hb. tauto.
    + rewrite !andb_true_iff in Hb. tauto.
  - intros Hin. exfalso. simpl in Hin.
    destruct (thrown e) as [message code|text].
    2: { destruct expirationTimeout; simpl in Hin;
         rewrite ?elem_of_cons, ?elem_of_nil in Hin;
         repeat destruct Hin as [Hin|Hin]; done. }
    match type of Hin with
    | context [match ?p with Some _ => _ | None => _ end] =>
        destruct p as [response|]
    end.
    + simpl in Hin. apply Hfinally in Hin.
      destruct (_controller d); simpl in Hin;
        rewrite ?elem_of_cons, ?elem_of_nil in Hin;
        repeat destruct Hin as [Hin|Hin]; done.
    + destruct (transactionSource e) as [[|a src]|]; simpl in Hin;
        apply Hfinally in Hin; destruct (bool_decide (code = ZWaveErrorCodes.Controller_NodeTimeout)); destruct node; simpl in Hin;
        rewrite ?elem_of_cons, ?elem_of_nil in Hin;
        repeat destruct Hin as [Hin|Hin]; done.
Qed.

End SendMessageSettleFacts.

Lemma handleSerialAPICommandResult_status_witness :
  exists steps,
    handleSerialAPICommandResult isCallback (fun _ => false) (fun _ => true)
      (sendDataMessage 6 basicCommand) MessagePriority.Normal false
      (Some transmitReport) exampleDriver
    = Return steps /\
    (NodeMarkAsAwake (id batteryNode) ∈ steps <->
     communicationSucceeded isCallback (fun _ => true) (Some transmitReport) /\
     canSleep batteryNode = true /\
     MessagePriority.Normal <> MessagePriority.Nonce /\
     MessagePriority.Normal <> MessagePriority.Supervision) /\
    (NodeMarkAsAlive (id batteryNode) ∈ steps <->
     communicationSucceeded isCallback (fun _ => true) (Some transmitReport) /\
     canSleep batteryNode = false /\ status batteryNode <> NodeStatus.Alive) /\
    (SetImmediateDebounceSendNodeToSleep (id batteryNode) ∈ steps <->
     NodeMarkAsAwake (id batteryNode) ∈ steps /\ keepAwake batteryNode = false).
Proof.
  apply (handleSerialAPICommandResult_status isCallback (fun _ => false)
           (fun _ => true) (sendDataMessage 6 basicCommand) MessagePriority.Normal
           false (Some transmitReport) exampleDriver batteryNode).
  - reflexivity.
  - reflexivity.
Defined.

Lemma sendMessage_settle_sleep_witness :
  exists target result,
    Some batteryNode = Some target /\ id target = 6 /\
    canSleep target = true /\ keepAwake target = false /\
    @inl _ TransactionError (Some transmitReport) = inl (Some result) /\
    if isSendData (sendDataMessage 6 basicCommand)
    then MessagePriority.Normal <> MessagePriority.Nonce /\
         MessagePriority.Normal <> MessagePriority.Supervision /\
         (functionType result = FunctionType_BridgeApplicationCommand
          \/ functionType result = FunctionType_ApplicationCommand
          \/ (isCallback result = true /\ (fun _ => true) result = true))
    else isNodeQuery (sendDataMessage 6 basicCommand) = true /\
         (fun _ : Message => false) result = true /\ (fun _ => true) result = true.
Proof.
  apply (sendMessage_settle_sleep isCallback (fun _ => false) (fun _ => true)
           (sendDataMessage 6 basicCommand) MessagePriority.Normal
           (Some batteryNode) "stack" true (inl (Some transmitReport))
           exampleDriver 6).
  vm_compute. apply list_elem_of_here.
Defined.

(** ** Sending nodes back to sleep *)

Section SendNodeToSleepFacts.

Variable scheduledPolls_size : ZWaveNode -> Z.
Variable wakeUpInterval : ZWaveNode -> option Z.

Lemma timersConsistent_lt (s : SleepTimers) handle nodeId ms :
  timersConsistent s ->
  pendingTimeouts s !! handle = Some (nodeId, ms) ->
  (handle < nextTimeout s)%nat.
Proof. intros [HA HB] H. apply HA in H. by apply HB in H as [? _]. Qed.

(** Clearing the timer that the driver remembers for a node leaves no
    timer for that node and the timers of the other nodes as they are. *)
Lemma timersConsistent_clear (s : SleepTimers) (nodeId : Z) :
  timersConsistent s ->
  let s' :=
    match sendNodeToSleepTimers s !! nodeId with
    | Some handle => clearTimeout handle s
    | None => s
    end in
  timersConsistent s' /\
  sendNodeToSleepTimers s' = sendNodeToSleepTimers s /\
  nextTimeout s' = nextTimeout s /\
  noMoreInformation s' = noMoreInformation s /\
  (forall handle n ms, pendingTimeouts s' !! handle = Some (n, ms) ->
     n <> nodeId /\ pendingTimeouts s !! handle = Some (n, ms)) /\
  (forall handle n ms, pendingTimeouts s !! handle = Some (n, ms) -> n <> nodeId ->
     pendingTimeouts s' !! handle = Some (n, ms)).
Proof.
  intros [HA HB].
  destruct (sendNodeToSleepTimers s !! nodeId) as [old|] eqn:Hold; simpl.
  - split; [split|split; [done|split; [done|split; [done|split]]]].
    + intros handle n ms H. simpl in H.
      apply lookup_delete_Some in H as [_ H]. by apply HA in H.
    + intros n handle H. simpl in H. apply HB in H as [Hlt Hown].
      split; [done|]. intros n' ms H'. simpl in H'.
      apply lookup_delete_Some in H' as [_ H']. by apply Hown in H'.
    + intros handle n ms H. apply lookup_delete_Some in H as [Hne H].
      split; [|done]. intros ->. apply HA in H. congruence.
    + intros handle n ms H Hn. apply lookup_delete_Some. split; [|done].
      intros <-. apply HB in Hold as [_ Hown]. by apply Hown in H.
  - split; [done|split; [done|split; [done|split; [done|split]]]].
    + intros handle n ms H. split; [|done].
      intros ->. apply HA in H. congruence.
    + done.
Qed.

(** With consistent timers, [debounceSendNodeToSleep] leaves at most one
    timer for the node, a new one of one second: the timer that was
    running for the node is cleared, and a new one is set exactly when the
    node supports Wake Up, has no pending messages and does not wake up
    manually only. The timers of other nodes are untouched, nobody is
    told to sleep yet, and the timers are consistent again. *)
Theorem debounceSendNodeToSleep_refreshes (node : ZWaveNode) (d : Driver)
    (s : SleepTimers) :
  timersConsistent s ->
  let s' := debounceSendNodeToSleep scheduledPolls_size wakeUpInterval node d s in
  timersConsistent s' /\
  (forall handle nodeId ms,
     pendingTimeouts s' !! handle = Some (nodeId, ms) ->
     if bool_decide (nodeId = id node)
     then handle = nextTimeout s /\ ms = 1000 /\
          supportsCC CommandClasses.WakeUp node = true /\
          hasPendingMessages scheduledPolls_size node d = false /\
          wakeUpInterval node <> Some 0
     else pendingTimeouts s !! handle = Some (nodeId, ms)) /\
  (supportsCC CommandClasses.WakeUp node = true ->
   hasPendingMessages scheduledPolls_size node d = false ->
   wakeUpInterval node <> Some 0 ->
   pendingTimeouts s' !! nextTimeout s = Some (id node, 1000)) /\
  (forall handle nodeId ms,
     pendingTimeouts s !! handle = Some (nodeId, ms) -> nodeId <> id node ->
     pendingTimeouts s' !! handle = Some (nodeId, ms)) /\
  noMoreInformation s' = noMoreInformation s.
Proof.
  intros Hs. unfold debounceSendNodeToSleep.
  destruct (timersConsistent_clear s (id node) Hs)
    as (Hc & Hmap & Hnext & Hno & Hold & Hother).
  set (s1 := match sendNodeToSleepTimers s !! id node with
             | Some handle => clearTimeout handle s
             | None => s
             end) in *.
  destruct (supportsCC CommandClasses.WakeUp node) eqn:Hsup,
    (hasPendingMessages scheduledPolls_size node d) eqn:Hpending; simpl.
  2: case_bool_decide as Hwake; simpl.
  1,2,4,5: (split; [done|]; split;
    [intros handle n ms H; apply Hold in H as [Hn H];
     by rewrite bool_decide_eq_false_2
    |split; [done|]; split; [done|done]]).
  rewrite Hnext, Hno. destruct Hc as [HA HB].
  split; [split|split; [|split; [|split; [|done]]]].
  - intros handle n ms H. simpl in H. simpl.
    apply lookup_insert_Some in H as [[<- [= <- <-]]|[Hne H]].
    + by rewrite lookup_insert_eq.
    + pose proof (Hold _ _ _ H) as [Hn _]. apply HA in H.
      by rewrite lookup_insert_ne.
  - intros n handle H. simpl in H. simpl.
    apply lookup_insert_Some in H as [[<- <-]|[Hne H]].
    + split; [lia|]. intros n' ms H'.
      apply lookup_insert_Some in H' as [[_ [= <- _]]|[Hne' _]]; done.
    + apply HB in H as [Hlt Hown]. split; [lia|]. intros n' ms H'.
      apply lookup_insert_Some in H' as [[<- _]|[_ H']]; [lia|].
      by apply Hown in H'.
  - intros handle n ms H. simpl in H.
    apply lookup_insert_Some in H as [[<- [= <- <-]]|[Hne H]].
    + by rewrite bool_decide_eq_true_2.
    + apply Hold in H as [Hn H]. by rewrite bool_decide_eq_false_2.
  - intros _ _ _. simpl. by rewrite lookup_insert_eq.
  - intros handle n ms H Hn. simpl. rewrite lookup_insert_ne.
    + by apply Hother.
    + intros <-. apply (timersConsistent_lt s) in H; [lia|done].
Qed.

(** When the timer of a node fires, the node is told that there is no more
    information for it exactly if it has no pending messages then; the
    driver forgets the timer, no timer for the node is left, the timers of
    the other nodes are untouched and the timers are consistent again. *)
Theorem fireTimeout_sendNodeToSleep (handle : nat) (ms : Z) (node : ZWaveNode)
    (d : Driver) (s : SleepTimers) :
  timersConsistent s ->
  pendingTimeouts s !! handle = Some (id node, ms) ->
  let s' := fireTimeout scheduledPolls_size handle node d s in
  timersConsistent s' /\
  noMoreInformation s'
  = noMoreInformation s
    ++ (if hasPendingMessages scheduledPolls_size node d then [] else [id node]) /\
  sendNodeToSleepTimers s' !! id node = None /\
  (forall h n ms', pendingTimeouts s' !! h = Some (n, ms') <->
                   pendingTimeouts s !! h = Some (n, ms') /\ n <> id node).
Proof.
  intros [HA HB] Hfire. unfold fireTimeout, sendNodeToSleep. rewrite Hfire.
  assert (forall h n ms',
            delete handle (pendingTimeouts s) !! h = Some (n, ms') <->
            pendingTimeouts s !! h = Some (n, ms') /\ n <> id node) as Hrest.
  { intros h n ms'. rewrite lookup_delete_Some. split.
    - intros [Hne H]. split; [done|]. intros ->.
      apply HA in H. apply HA in Hfire. congruence.
    - intros [H Hn]. split; [|done]. intros <-. congruence. }
  assert (timersConsistent
            (mkSleepTimers (delete (id node) (sendNodeToSleepTimers s))
                           (delete handle (pendingTimeouts s))
                           (nextTimeout s) (noMoreInformation s))) as Hcons.
  { split; simpl.
    - intros h n ms' H. apply Hrest in H as [H Hn].
      rewrite lookup_delete_ne by done. by apply HA in H.
    - intros n h H. apply lookup_delete_Some in H as [Hn H].
      apply HB in H as [Hlt Hown]. split; [done|].
      intros n' ms' H'. apply Hrest in H' as [H' _]. by apply Hown in H'. }
  destruct (hasPendingMessages scheduledPolls_size node d); simpl.
  - split; [done|]. rewrite app_nil_r, lookup_delete_eq. done.
  - split; [done|]. rewrite lookup_delete_eq. done.
Qed.

End SendNodeToSleepFacts.

Lemma timersConsistent_noTimers : timersConsistent noTimers.
Proof. split; intros ? ?; simpl; by rewrite lookup_empty. Qed.

Lemma timersConsistent_oneTimer : timersConsistent oneTimer.
Proof.
  split; simpl.
  - intros handle n ms H. apply lookup_singleton_Some in H as [<- [= <- <-]].
    done.
  - intros n handle H. apply lookup_singleton_Some in H as [<- <-].
    split; [lia|]. intros n' ms H.
    by apply lookup_singleton_Some in H as [_ [= <- _]].
Qed.

Lemma debounceSendNodeToSleep_refreshes_witness :
  let s' :=
    debounceSendNodeToSleep (fun _ => 0) (fun _ => Some 3600) batteryNode
                            idleDriver noTimers in
  timersConsistent s' /\
  (forall handle nodeId ms,
     pendingTimeouts s' !! handle = Some (nodeId, ms) ->
     if bool_decide (nodeId = id batteryNode)
     then handle = nextTimeout noTimers /\ ms = 1000 /\
          supportsCC CommandClasses.WakeUp batteryNode = true /\
          hasPendingMessages (fun _ => 0) batteryNode idleDriver = false /\
          Some 3600 <> Some 0
     else pendingTimeouts noTimers !! handle = Some (nodeId, ms)) /\
  (supportsCC CommandClasses.WakeUp batteryNode = true ->
   hasPendingMessages (fun _ => 0) batteryNode idleDriver = false ->
   Some 3600 <> Some 0 ->
   pendingTimeouts s' !! nextTimeout noTimers = Some (id batteryNode, 1000)) /\
  (forall handle nodeId ms,
     pendingTimeouts noTimers !! handle = Some (nodeId, ms) ->
     nodeId <> id batteryNode ->
     pendingTimeouts s' !! handle = Some (nodeId, ms)) /\
  noMoreInformation s' = noMoreInformation noTimers.
Proof.
  apply (debounceSendNodeToSleep_refreshes (fun _ => 0) (fun _ => Some 3600)
           batteryNode idleDriver noTimers).
  exact timersConsistent_noTimers.
Defined.

Lemma fireTimeout_sendNodeToSleep_witness :
  let s' := fireTimeout (fun _ => 0) 0 batteryNode idleDriver oneTimer in
  timersConsistent s' /\
  noMoreInformation s'
  = noMoreInformation oneTimer
    ++ (if hasPendingMessages (fun _ => 0) batteryNode idleDriver then []
        else [id batteryNode]) /\
  sendNodeToSleepTimers s' !! id batteryNode = None /\
  (forall h n ms', pendingTimeouts s' !! h = Some (n, ms') <->
                   pendingTimeouts oneTimer !! h = Some (n, ms')
                   /\ n <> id batteryNode).
Proof.
  apply (fireTimeout_sendNodeToSleep (fun _ => 0) 0 1000 batteryNode idleDriver
           oneTimer).
  - exact timersConsistent_oneTimer.
  - reflexivity.
Defined.

(** ** Application commands *)

Lemma resolveAwaitedCommand_first (command : CommandClass)
    (pre post : list AwaitedCommandEntry) (entry : AwaitedCommandEntry) :
  Forall (fun e => awaitedPredicate e command = false) pre ->
  awaitedPredicate entry command = true ->
  resolveAwaitedCommand command (pre ++ entry :: post)
  = Some (entry, pre ++ post).
Proof.
  intros Hpre Hentry. induction Hpre as [|e pre He Hpre IH]; simpl.
  - by rewrite Hentry.
  - by rewrite He, IH.
Qed.

Lemma resolveAwaitedCommand_none (command : CommandClass)
    (awaitedCommands : list AwaitedCommandEntry) :
  Forall (fun e => awaitedPredicate e command = false) awaitedCommands ->
  resolveAwaitedCommand command awaitedCommands = None.
Proof.
  induction 1 as [|e l He Hl IH]; simpl; [done|]. by rewrite He, IH.
Qed.

Lemma resolveAwaitedCommand_Some (command : CommandClass)
    (awaitedCommands rest : list AwaitedCommandEntry) (entry : AwaitedCommandEntry) :
  resolveAwaitedCommand command awaitedCommands = Some (entry, rest) ->
  awaitedPredicate entry command = true.
Proof.
  revert rest. induction awaitedCommands as [|e l IH]; intros rest; simpl; [done|].
  destruct (awaitedPredicate e command) eqn:He.
  - by intros [= <- _].
  - destruct (resolveAwaitedCommand command l) as [[found rest']|]; [|done].
    intros [= <- _]. by eapply IH.
Qed.

Section ApplicationCommandFacts.

Variable isDeviceResetLocallyCCNotification : CommandClass -> bool.
Variable sessionId : CommandClass -> Z.
Variable moreUpdatesFollow : CommandClass -> bool.
Variable SupervisionCC_getSessionId : CommandClass -> option Z.
Variable supportsWakeUpOnDemand : ZWaveNode -> bool.
Variable removeFailedNode_error : Z -> option Error.
Variable getErrorMessage : Error -> string.
Variable handleCommand_error : CommandClass -> option Error.
Variable sendReport_error : Z -> Z -> SupervisionStatus.t -> option Error.

#[local] Abbreviation handleApplicationCommand :=
  (handleRequest_applicationCommand isDeviceResetLocallyCCNotification sessionId
     moreUpdatesFollow SupervisionCC_getSessionId supportsWakeUpOnDemand
     removeFailedNode_error getErrorMessage handleCommand_error sendReport_error).

(** The dispatch of a command that the driver does not handle itself. *)
Lemma handleRequest_applicationCommand_dispatch (command : CommandClass)
    (awaitedCommands : list AwaitedCommandEntry) (d : Driver)
    (c : ZWaveController) (node : ZWaveNode) :
  _controller d = Some c ->
  nodes c !! nodeId (fields command) = Some node ->
  forNodeOrWaiter isDeviceResetLocallyCCNotification sessionId command d ->
  handleApplicationCommand command awaitedCommands d
  = let supervisionSessionId := SupervisionCC_getSessionId command in
    let flags := encapsulationFlags (fields command) in
    let report status :=
      SendSupervisionReport (id node) (default 0 supervisionSessionId) status
        (shouldRequestWakeupOnDemand supportsWakeUpOnDemand node d) flags in
    let failed status :=
      sendReport_error (id node) (default 0 supervisionSessionId) status in
    match resolveAwaitedCommand command awaitedCommands with
    | Some (entry, rest) =>
        (d, rest,
         ResolveAwaitedCommand (awaitedId entry) command
         :: match supervisionSessionId with
            | Some _ => [report SupervisionStatus.Success]
            | None => []
            end,
         match supervisionSessionId with
         | Some _ => failed SupervisionStatus.Success
         | None => None
         end)
    | None =>
        let handling := NodeHandleCommand (nodeId (fields command)) command in
        match supervisionSessionId, handleCommand_error command with
        | None, thrown => (d, awaitedCommands, [handling], thrown)
        | Some _, Some e =>
            (d, awaitedCommands, [handling; report SupervisionStatus.Fail],
             Some (default e (failed SupervisionStatus.Fail)))
        | Some _, None =>
            match failed SupervisionStatus.Success with
            | None =>
                (d, awaitedCommands, [handling; report SupervisionStatus.Success],
                 None)
            | Some e =>
                (d, awaitedCommands,
                 [handling; report SupervisionStatus.Success;
                  report SupervisionStatus.Fail],
                 Some (default e (failed SupervisionStatus.Fail)))
            end
        end
    end.
Proof.
  intros Hc Hnode [Hreset Hsession]. unfold handleRequest_applicationCommand.
  rewrite Hc, Hnode.
  assert (bool_decide (ccId (fields command) = CommandClasses.DeviceResetLocally)
          && isDeviceResetLocallyCCNotification command = false) as ->.
  { case_bool_decide as Hid; [|done]. simpl. by apply Hreset. }
  assert ((if bool_decide (ccId (fields command) = CommandClasses.Supervision)
              && bool_decide (ccClass (fields command) = SupervisionCCReport)
           then (nodeSessions d !! nodeId (fields command))
                  ≫= (fun s => supervision s !! sessionId command)
           else None) = None) as ->.
  { do 2 (case_bool_decide; simpl; [|done]). by apply Hsession. }
  cbn zeta.
  destruct (resolveAwaitedCommand command awaitedCommands) as [[entry rest]|].
  - destruct (SupervisionCC_getSessionId command) as [sid|]; [|done].
    unfold sendReport. done.
  - destruct (SupervisionCC_getSessionId command) as [sid|]; [|done].
    unfold sendReport. simpl.
    destruct (handleCommand_error command) as [e|]; [done|].
    by destruct (sendReport_error (id node) sid SupervisionStatus.Success).
Qed.

(** A command that came in a Supervision Get and that the driver hands to
    a waiter or to the node is answered with one Supervision report for
    the session of the command and with the command's encapsulation flags,
    provided that the reports can be sent: Success when a waiter took the
    command or the node handled it, Fail when the node's handler threw, in
    which case the error is thrown on. *)
Theorem handleRequest_supervised_reply (command : CommandClass)
    (awaitedCommands : list AwaitedCommandEntry) (d : Driver)
    (c : ZWaveController) (node : ZWaveNode) (supervisionSessionId : Z) :
  _controller d = Some c ->
  nodes c !! nodeId (fields command) = Some node ->
  forNodeOrWaiter isDeviceResetLocallyCCNotification sessionId command d ->
  SupervisionCC_getSessionId command = Some supervisionSessionId ->
  (forall status, sendReport_error (id node) supervisionSessionId status = None) ->
  let '(d', _, steps, thrown) :=
    handleApplicationCommand command awaitedCommands d in
  d' = d /\
  reportsSent steps
  = [(id node, supervisionSessionId,
      match resolveAwaitedCommand command awaitedCommands,
            handleCommand_error command with
      | None, Some _ => SupervisionStatus.Fail
      | _, _ => SupervisionStatus.Success
      end,
      encapsulationFlags (fields command))] /\
  thrown = match resolveAwaitedCommand command awaitedCommands with
           | Some _ => None
           | None => handleCommand_error command
           end.
Proof.
  intros Hc Hnode Hown Hsid Hsend.
  rewrite (handleRequest_applicationCommand_dispatch _ _ _ c node Hc Hnode Hown).
  rewrite Hsid. cbn zeta. simpl. rewrite !Hsend.
  destruct (resolveAwaitedCommand command awaitedCommands) as [[entry rest]|];
    [done|].
  by destruct (handleCommand_error command).
Qed.

(** A command that the driver does not handle itself is delivered once:
    to the first waiter whose predicate it meets, which then waits no
    longer, while the node and the other waiters do not see the command;
    or, when it meets no waiter's predicate, to the node, and the waiters
    stay. *)
Theorem handleRequest_command_delivery (command : CommandClass)
    (awaitedCommands : list AwaitedCommandEntry) (d : Driver)
    (c : ZWaveController) (node : ZWaveNode) :
  _controller d = Some c ->
  nodes c !! nodeId (fields command) = Some node ->
  forNodeOrWaiter isDeviceResetLocallyCCNotification sessionId command d ->
  let '(_, awaitedCommands', steps, _) :=
    handleApplicationCommand command awaitedCommands d in
  (forall pre entry post,
     awaitedCommands = pre ++ entry :: post ->
     Forall (fun e => awaitedPredicate e command = false) pre ->
     awaitedPredicate entry command = true ->
     deliveries steps = [ResolveAwaitedCommand (awaitedId entry) command] /\
     awaitedCommands' = pre ++ post) /\
  (Forall (fun e => awaitedPredicate e command = false) awaitedCommands ->
   deliveries steps = [NodeHandleCommand (nodeId (fields command)) command] /\
   awaitedCommands' = awaitedCommands).
Proof.
  intros Hc Hnode Hown.
  rewrite (handleRequest_applicationCommand_dispatch _ _ _ c node Hc Hnode Hown).
  cbn zeta.
  destruct (resolveAwaitedCommand command awaitedCommands) as [[found rest]|]
    eqn:Hres.
  - split.
    + intros pre entry post -> Hpre Hentry.
      rewrite (resolveAwaitedCommand_first _ _ _ _ Hpre Hentry) in Hres.
      injection Hres as <- <-.
      by destruct (SupervisionCC_getSessionId command).
    + intros Hall. by rewrite (resolveAwaitedCommand_none _ _ Hall) in Hres.
  - assert (forall pre entry post,
              awaitedCommands = pre ++ entry :: post ->
              Forall (fun e => awaitedPredicate e command = false) pre ->
              awaitedPredicate entry command = true -> False) as Hnone.
    { intros pre entry post -> Hpre Hentry.
      by rewrite (resolveAwaitedCommand_first _ _ _ _ Hpre Hentry) in Hres. }
    destruct (SupervisionCC_getSessionId command) as [sid|],
      (handleCommand_error command) as [e|]; simpl;
      try destruct (sendReport_error (id node) sid SupervisionStatus.Success);
      (split; [intros pre entry post H1 H2 H3; by destruct (Hnone _ _ _ H1 H2 H3)
              |done]).
Qed.

(** A Supervision report for a session that the driver listens to goes to
    the update handler of the session and to nobody else; the handler
    stays for a report that announces more updates and is removed by a
    final report, and the other sessions of the node stay as they are. *)
Theorem handleRequest_supervision_update (command : CommandClass)
    (awaitedCommands : list AwaitedCommandEntry) (d : Driver)
    (c : ZWaveController) (node : ZWaveNode) (s : Sessions) (handler : nat) :
  _controller d = Some c ->
  nodes c !! nodeId (fields command) = Some node ->
  ccId (fields command) = CommandClasses.Supervision ->
  ccClass (fields command) = SupervisionCCReport ->
  nodeSessions d !! nodeId (fields command) = Some s ->
  supervision s !! sessionId command = Some handler ->
  let '(d', awaitedCommands', steps, thrown) :=
    handleApplicationCommand command awaitedCommands d in
  awaitedCommands' = awaitedCommands /\ thrown = None /\
  steps = [CommandLog (ControllerLogNode (nodeId (fields command))
                         "Received update for a Supervision session" LInfo);
           SupervisionUpdate handler command] /\
  exists s',
    nodeSessions d' !! nodeId (fields command) = Some s' /\
    transportService s' = transportService s /\
    supervision s' !! sessionId command
    = (if moreUpdatesFollow command then Some handler else None) /\
    forall other, other <> sessionId command ->
                  supervision s' !! other = supervision s !! other.
Proof.
  intros Hc Hnode Hid Hclass Hs Hhandler.
  unfold handleRequest_applicationCommand. rewrite Hc, Hnode, Hid, Hclass, Hs.
  simpl. rewrite Hhandler.
  repeat split. destruct (moreUpdatesFollow command); simpl.
  - exists s. by rewrite Hs.
  - eexists. rewrite lookup_insert_eq. split; [done|]. simpl.
    split; [done|]. rewrite lookup_delete_eq. split; [done|].
    intros other Hne. by rewrite lookup_delete_ne.
Qed.

End ApplicationCommandFacts.

Lemma handleRequest_supervised_reply_witness :
  let '(d', _, steps, thrown) :=
    handleApplicationCommand_example basicCommand twoWaiters exampleDriver in
  d' = exampleDriver /\
  reportsSent steps
  = [(id mainsNode, 3,
      match resolveAwaitedCommand basicCommand twoWaiters,
            @None Error with
      | None, Some _ => SupervisionStatus.Fail
      | _, _ => SupervisionStatus.Success
      end,
      encapsulationFlags (fields basicCommand))] /\
  thrown = match resolveAwaitedCommand basicCommand twoWaiters with
           | Some _ => None
           | None => None
           end.
Proof.
  apply (handleRequest_supervised_reply (fun _ => false) (fun _ => 9)
           (fun _ => false) (fun _ => Some 3) (fun _ => false) (fun _ => None)
           errorMessage (fun _ => None) (fun _ _ _ => None)
           basicCommand twoWaiters exampleDriver exampleController mainsNode 3).
  - reflexivity.
  - reflexivity.
  - split; intros H; discriminate H.
  - reflexivity.
  - reflexivity.
Defined.

Lemma handleRequest_command_delivery_witness :
  let '(_, awaitedCommands', steps, _) :=
    handleApplicationCommand_example basicCommand twoWaiters exampleDriver in
  (forall pre entry post,
     twoWaiters = pre ++ entry :: post ->
     Forall (fun e => awaitedPredicate e basicCommand = false) pre ->
     awaitedPredicate entry basicCommand = true ->
     deliveries steps = [ResolveAwaitedCommand (awaitedId entry) basicCommand] /\
     awaitedCommands' = pre ++ post) /\
  (Forall (fun e => awaitedPredicate e basicCommand = false) twoWaiters ->
   deliveries steps
   = [NodeHandleCommand (nodeId (fields basicCommand)) basicCommand] /\
   awaitedCommands' = twoWaiters).
Proof.
  apply (handleRequest_command_delivery (fun _ => false) (fun _ => 9)
           (fun _ => false) (fun _ => Some 3) (fun _ => false) (fun _ => None)
           errorMessage (fun _ => None) (fun _ _ _ => None)
           basicCommand twoWaiters exampleDriver exampleController mainsNode).
  - reflexivity.
  - reflexivity.
  - split; intros H; discriminate H.
Defined.

Lemma handleRequest_supervision_update_witness :
  let '(d', awaitedCommands', steps, thrown) :=
    handleApplicationCommand_example supervisionReport twoWaiters listening in
  awaitedCommands' = twoWaiters /\ thrown = None /\
  steps = [CommandLog (ControllerLogNode (nodeId (fields supervisionReport))
                         "Received update for a Supervision session" LInfo);
           SupervisionUpdate 1 supervisionReport] /\
  exists s',
    nodeSessions d' !! nodeId (fields supervisionReport) = Some s' /\
    transportService s' = transportService (mkSessions ∅ {[ 9 := 1%nat ]}) /\
    supervision s' !! 9 = (if false then Some 1%nat else None) /\
    forall other, other <> 9 ->
                  supervision s' !! other
                  = supervision (mkSessions ∅ {[ 9 := 1%nat ]}) !! other.
Proof.
  apply (handleRequest_supervision_update (fun _ => false) (fun _ => 9)
           (fun _ => false) (fun _ => Some 3) (fun _ => false) (fun _ => None)
           errorMessage (fun _ => None) (fun _ _ _ => None)
           supervisionReport twoWaiters listening exampleController mainsNode
           (mkSessions ∅ {[ 9 := 1%nat ]}) 1%nat).
  - reflexivity.
  - reflexivity.
  - reflexivity.
  - reflexivity.
  - reflexivity.
  - reflexivity.
Defined.

(** ** Shutting down *)

Lemma clearTimeout_fold (handles : list nat) :
  forall (s : SleepTimers),
    let s' := fold_left (fun s handle => clearTimeout handle s) handles s in
    sendNodeToSleepTimers s' = sendNodeToSleepTimers s /\
    forall handle,
      pendingTimeouts s' !! handle
      = if bool_decide (handle ∈ handles) then None
        else pendingTimeouts s !! handle.
Proof.
  induction handles as [|h handles IH]; intros s.
  - split; [done|]. intros handle.
    case_bool_decide as H; [by apply elem_of_nil in H|done].
  - simpl. destruct (IH (clearTimeout h s)) as [Hmap Hpending]. split; [done|].
    intros handle. rewrite Hpending. simpl.
    destruct (decide (handle = h)) as [->|Hne].
    + rewrite (bool_decide_eq_true_2 (h ∈ h :: handles))
        by apply list_elem_of_here.
      rewrite lookup_delete_eq. by destruct (bool_decide _).
    + rewrite lookup_delete_ne by done. apply (f_equal (fun b : bool =>
        if b then None else pendingTimeouts s !! handle)).
      apply bool_decide_ext. rewrite elem_of_cons. tauto.
Qed.

Section DestroyFacts.

Variable sendThread_initialized : bool.
Variable serial_close_error : option Error.
Variables _valueDB_close _metadataDB_close _networkCache_close
  : option (option Error).
Variable saveToCacheTimer statisticsTimeout : option nat.
Variable retryNodeInterviewTimeouts awaitedTimeouts : list nat.
Variable getErrorMessage : Error -> string.

#[local] Abbreviation destroyed d s :=
  (destroy sendThread_initialized serial_close_error _valueDB_close
           _metadataDB_close _networkCache_close saveToCacheTimer
           statisticsTimeout retryNodeInterviewTimeouts awaitedTimeouts
           getErrorMessage d s).

(** The result of [destroy] when the serial port can be closed. *)
Lemma destroy_result (d : Driver) (s : SleepTimers) :
  wasDestroyed d = false ->
  (serial d = Some true -> serial_close_error = None) ->
  exists steps,
    destroyed d s
    = (setController None (setSerial None (setDestroyed d)),
       fold_left (fun s handle => clearTimeout handle s)
                 (map_to_list (sendNodeToSleepTimers s)).*2 s,
       steps ++ [DestroyLog (DriverPrint "driver instance destroyed" LInfo);
                 LogContainerDestroy; DestroyPromiseResolve],
       None) /\
    forall n, is_Some (nodeOf n d) -> NodeDestroy n ∈ steps.
Proof.
  intros Hd Hclose. unfold destroy. rewrite Hd.
  assert (exists closed,
    match serial (setDestroyed d) with
    | Some isOpen =>
        if isOpen then
          match serial_close_error with
          | Some e => ([SerialRemoveAllListeners; SerialClose], Some e)
          | None => ([SerialRemoveAllListeners; SerialClose], None)
          end
        else ([SerialRemoveAllListeners], None)
    | None => ([], None)
    end = (closed, None)) as [closed ->].
  { simpl. destruct (serial d) as [[|]|]; try by eexists.
    rewrite Hclose by done. by eexists. }
  eexists. split; [done|].
  intros n [node Hn]. unfold nodeOf in Hn. simpl.
  destruct (_controller d) as [c|]; [|done].
  apply list_elem_of_further. rewrite !elem_of_app. right. left.
  apply list_elem_of_fmap. exists n. split; [done|].
  apply list_elem_of_fmap. exists (n, node). split; [done|].
  by apply elem_of_map_to_list.
Qed.

(** [destroy] shuts the driver down whatever happens when the databases
    are closed: the driver is marked as destroyed, has neither serial port
    nor controller, every node of the controller has been destroyed, and
    with consistent timers no timer is left that would send a node to
    sleep. The last thing it does is to resolve the promise of the
    destruction. *)
Theorem destroy_shuts_down (d : Driver) (s : SleepTimers) :
  wasDestroyed d = false ->
  (serial d = Some true -> serial_close_error = None) ->
  timersConsistent s ->
  let '(d', s', steps, thrown) := destroyed d s in
  thrown = None /\
  wasDestroyed d' = true /\ serial d' = None /\ _controller d' = None /\
  pendingTimeouts s' = ∅ /\
  (forall n, is_Some (nodeOf n d) -> NodeDestroy n ∈ steps) /\
  last steps = Some DestroyPromiseResolve.
Proof.
  intros Hd Hclose [HA _].
  destruct (destroy_result d s Hd Hclose) as (steps & -> & Hnodes).
  repeat split; try done.
  - apply map_eq. intros handle. rewrite lookup_empty.
    destruct (clearTimeout_fold (map_to_list (sendNodeToSleepTimers s)).*2 s)
      as [_ ->].
    case_bool_decide as Hin; [done|].
    destruct (pendingTimeouts s !! handle) as [[n ms]|] eqn:Hp; [|done].
    exfalso. apply Hin. apply HA in Hp.
    apply list_elem_of_fmap. exists (n, handle). split; [done|].
    by apply elem_of_map_to_list.
  - intros n Hn. apply elem_of_app. left. by apply Hnodes.
  - rewrite !last_app. done.
Qed.

(** Once the driver is destroyed it stays so: it is not ready, a message
    handed to [sendMessage] is refused with [Driver_NotReady] and not
    queued, and another call of [destroy] does nothing. *)
Theorem destroy_is_final (d : Driver) (s : SleepTimers) (ping : Z -> bool)
    (msg : Message) (options : SendMessageOptions.t) :
  wasDestroyed d = false ->
  (serial d = Some true -> serial_close_error = None) ->
  let '(d', s', _, _) := destroyed d s in
  let notReady :=
    ZWaveError "The driver is not ready or has been destroyed"
               ZWaveErrorCodes.Driver_NotReady in
  ensureReady d' = Throw notReady /\
  sendMessage ping msg options d' = (d', Throw notReady) /\
  destroyed d' s' = (d', s', [], None).
Proof.
  intros Hd Hclose.
  destruct (destroy_result d s Hd Hclose) as (steps & -> & _).
  cbn zeta.
  assert (ensureReady (setController None (setSerial None (setDestroyed d)))
          = Throw (ZWaveError "The driver is not ready or has been destroyed"
                              ZWaveErrorCodes.Driver_NotReady)) as Hready.
  { unfold ensureReady. simpl. by rewrite !orb_true_r. }
  split; [done|]. split.
  - unfold sendMessage. by rewrite Hready.
  - done.
Qed.

End DestroyFacts.

Lemma destroy_shuts_down_witness :
  let '(d', s', steps, thrown) :=
    destroy true None (Some None) None (Some (Some serialPortNotOpen)) None None
            [] [] errorMessage exampleDriver oneTimer in
  thrown = None /\
  wasDestroyed d' = true /\ serial d' = None /\ _controller d' = None /\
  pendingTimeouts s' = ∅ /\
  (forall n, is_Some (nodeOf n exampleDriver) -> NodeDestroy n ∈ steps) /\
  last steps = Some DestroyPromiseResolve.
Proof.
  apply (destroy_shuts_down true None (Some None) None
           (Some (Some serialPortNotOpen)) None None [] [] errorMessage
           exampleDriver oneTimer).
  - reflexivity.
  - reflexivity.
  - exact timersConsistent_oneTimer.
Defined.

Lemma destroy_is_final_witness :
  let '(d', s', _, _) :=
    destroy true None (Some None) None None None None [] [] errorMessage
            exampleDriver oneTimer in
  let notReady :=
    ZWaveError "The driver is not ready or has been destroyed"
               ZWaveErrorCodes.Driver_NotReady in
  ensureReady d' = Throw notReady /\
  sendMessage (fun _ => true) (sendDataMessage 5 basicCommand) noOptions d'
  = (d', Throw notReady) /\
  destroy true None (Some None) None None None None [] [] errorMessage d' s'
  = (d', s', [], None).
Proof.
  apply (destroy_is_final true None (Some None) None None None None [] []
           errorMessage exampleDriver oneTimer (fun _ => true)
           (sendDataMessage 5 basicCommand) noOptions).
  - reflexivity.
  - reflexivity.
Defined.

(** ** After a soft reset *)

Section EnsureSerialAPIFacts.

Variable started_first started_second : bool.
Variable serial_open : Z -> option Error.
Variable getErrorMessage : option Error -> string.
Variable controllerResponds : nat -> bool.

(** When the Serial API started message does not arrive and the serial
    port is open, [ensureSerialAPI] polls the controller at most five
    times, pausing 2, 5, 10 and 15 seconds between the polls, and answers
    whether one of the polls was answered. After the first answered poll
    it polls no more and the send thread is paused again; when it gives
    up after five polls, the send thread has not been paused again. *)
Theorem ensureSerialAPI_backoff (serialAPIStarted openSerialPort : Z) (d : Driver) :
  started_first = false ->
  serial d = Some true ->
  started_second = false ->
  let '(result, steps) :=
    ensureSerialAPI started_first started_second serial_open getErrorMessage
                    controllerResponds serialAPIStarted openSerialPort d in
  match firstResponse controllerResponds with
  | Some k =>
      result = Return true /\
      pausesOf steps = take k [2000; 5000; 10000; 15000] /\
      pollsOf steps = S k /\
      pausesSendThread steps = true
  | None =>
      result = Return false /\
      pausesOf steps = [2000; 5000; 10000; 15000] /\
      pollsOf steps = 5%nat /\
      pausesSendThread steps = false
  end.
Proof.
  intros -> Hserial ->. unfold ensureSerialAPI, firstResponse.
  rewrite Hserial. simpl. unfold pollController.
  destruct (controllerResponds 0) eqn:H0; [done|].
  destruct (controllerResponds 1) eqn:H1; [done|].
  destruct (controllerResponds 2) eqn:H2; [done|].
  destruct (controllerResponds 3) eqn:H3; [done|].
  destruct (controllerResponds 4) eqn:H4; done.
Qed.

End EnsureSerialAPIFacts.

Lemma ensureSerialAPI_backoff_witness :
  let '(result, steps) :=
    ensureSerialAPI false false (fun _ => None) (fun _ => "busy")
                    (fun poll => bool_decide (poll = 2%nat)) 5000 10 exampleDriver in
  match firstResponse (fun poll => bool_decide (poll = 2%nat)) with
  | Some k =>
      result = Return true /\
      pausesOf steps = take k [2000; 5000; 10000; 15000] /\
      pollsOf steps = S k /\
      pausesSendThread steps = true
  | None =>
      result = Return false /\
      pausesOf steps = [2000; 5000; 10000; 15000] /\
      pollsOf steps = 5%nat /\
      pausesSendThread steps = false
  end.
Proof.
  apply (ensureSerialAPI_backoff false false (fun _ => None) (fun _ => "busy")
           (fun poll => bool_decide (poll = 2%nat)) 5000 10 exampleDriver).
  - reflexivity.
  - reflexivity.
  - reflexivity.
Defined.

(** ** Partial commands *)

Lemma plug_app (layers : list CCFields) (cc : CCFields) (e : CommandClass) :
  plug (layers ++ [cc]) e = plug layers (Encapsulating cc e).
Proof. induction layers as [|f layers IH]; simpl; [done|]. by rewrite IH. Qed.

Section AssemblePartialCCsFacts.

Variable partialSessionKey : CommandClass -> option string.
Variable expectMoreMessages : CommandClass -> list CommandClass -> bool.
Variable mergePartialCCs : CommandClass -> list CommandClass -> Completion CommandClass.
Variable assertValidCCs : CommandClass -> option Error.
Variable isTransportServiceEncapsulation : CommandClass -> bool.

#[local] Abbreviation loop :=
  (assemblePartialCCs_loop partialSessionKey expectMoreMessages mergePartialCCs
                           assertValidCCs isTransportServiceEncapsulation).

#[local] Abbreviation assemble :=
  (assemblePartialCCs partialSessionKey expectMoreMessages mergePartialCCs
                      assertValidCCs isTransportServiceEncapsulation).

(** The loop passes a stack without partial commands and leaves
    everything as it is. *)
Lemma assemblePartialCCs_loop_complete (msg : Message)
    (sessions : gmap string (list CommandClass)) (command : CommandClass) :
  forall (layers : list CCFields) (fuel : nat),
    Forall (fun c => partialSessionKey c = None) (stack command) ->
    (depth command < fuel)%nat ->
    loop fuel msg layers command sessions
    = Some (mkAssembled (Return true) (plug layers command) sessions []).
Proof.
  induction command as [cc|cc e IH|cc l]; intros layers fuel Hkeys Hfuel;
    (destruct fuel as [|fuel]; [simpl in Hfuel; lia|]);
    inversion Hkeys as [|? ? Hkey Hrest]; subst; simpl;
    unfold getPartialCCSession; rewrite Hkey; [done| |done].
  rewrite IH; [|done|simpl in Hfuel; lia]. by rewrite plug_app.
Qed.

(** The loop goes down through layers that belong to no partial
    session. *)
Lemma assemblePartialCCs_loop_descend (msg : Message)
    (sessions : gmap string (list CommandClass)) (inner : CommandClass)
    (layers : list CCFields) :
  forall (passed : list CCFields) (fuel : nat),
    Forall (fun c => partialSessionKey c = None) (outerCommands layers inner) ->
    loop (length layers + fuel) msg passed (plug layers inner) sessions
    = loop fuel msg (passed ++ layers) inner sessions.
Proof.
  induction layers as [|cc layers IH]; intros passed fuel Hkeys; simpl.
  - by rewrite app_nil_r.
  - inversion Hkeys as [|? ? Hkey Hrest]; subst.
    unfold getPartialCCSession. rewrite Hkey.
    rewrite IH by done. by rewrite <- (assoc_L (++)).
Qed.

(** A message whose encapsulation stack holds no command of a partial
    session is complete: [assemblePartialCCs] answers [true] and leaves
    the command and the sessions as they are, logging nothing. *)
Theorem assemblePartialCCs_complete (msg : Message) (command : CommandClass)
    (sessions : gmap string (list CommandClass)) (fuel : nat) :
  Forall (fun c => partialSessionKey c = None) (stack command) ->
  (depth command < fuel)%nat ->
  assemble fuel msg command sessions
  = Some (mkAssembled (Return true) command sessions []).
Proof.
  intros Hkeys Hfuel. unfold assemblePartialCCs.
  by rewrite assemblePartialCCs_loop_complete.
Qed.

(** The outermost command of a partial session that expects more
    messages is stored: [assemblePartialCCs] answers [false], the command
    is appended to its session, started if need be, and the other
    sessions and the message stay as they are. *)
Theorem assemblePartialCCs_stores_part (msg : Message) (layers : list CCFields)
    (inner : CommandClass) (sessions : gmap string (list CommandClass))
    (key : string) (fuel : nat) :
  Forall (fun c => partialSessionKey c = None) (outerCommands layers inner) ->
  partialSessionKey inner = Some key ->
  expectMoreMessages inner (default [] (sessions !! key)) = true ->
  (length layers < fuel)%nat ->
  exists log,
    assemble fuel msg (plug layers inner) sessions
    = Some (mkAssembled (Return false) (plug layers inner)
              (<[key := default [] (sessions !! key) ++ [inner]]> sessions) log) /\
    log = if isTransportServiceEncapsulation (plug layers inner) then []
          else [DriverLogMessage (setCommand (plug layers inner) msg) ["partial"]].
Proof.
  intros Hkeys Hkey Hmore Hfuel. unfold assemblePartialCCs.
  replace fuel with (length layers + S (fuel - length layers - 1))%nat by lia.
  rewrite assemblePartialCCs_loop_descend by done. simpl.
  unfold getPartialCCSession. rewrite Hkey.
  destruct (sessions !! key) as [session|] eqn:Hs; simpl in Hmore.
  - assert (bool_decide (is_Some (Some session)) = true) as ->
      by (by apply bool_decide_eq_true_2).
    simpl. rewrite Hs, Hmore.
    eexists. split; [done|].
    by destruct (isTransportServiceEncapsulation (plug layers inner)).
  - assert (bool_decide (is_Some (@None (list CommandClass))) = false) as ->
      by (apply bool_decide_eq_false_2; by intros [? ?]).
    simpl. rewrite lookup_insert_eq, Hmore, insert_insert_eq.
    eexists. split; [done|].
    by destruct (isTransportServiceEncapsulation (plug layers inner)).
Qed.

(** The outermost command of a partial session that expects no more
    messages ends its session, however the merge goes: the session is
    removed. When merging and validating succeed and the merged command
    holds no further partial commands, the message is complete with the
    merged command in the place of the partial one. When they throw an
    error of one of the four codes for input that cannot be used, the
    message is dropped with one warning and [false] is answered; any other
    error is thrown on. *)
Theorem assemblePartialCCs_final_part (msg : Message) (layers : list CCFields)
    (inner : CommandClass) (sessions : gmap string (list CommandClass))
    (key : string) (fuel : nat) :
  Forall (fun c => partialSessionKey c = None) (outerCommands layers inner) ->
  partialSessionKey inner = Some key ->
  expectMoreMessages inner (default [] (sessions !! key)) = false ->
  (length layers < fuel)%nat ->
  match
    match mergePartialCCs inner (default [] (sessions !! key)) with
    | Throw e => inr (inner, e)
    | Return merged =>
        match assertValidCCs (plug layers merged) with
        | Some e => inr (merged, e)
        | None => inl merged
        end
    end
  with
  | inl merged =>
      Forall (fun c => partialSessionKey c = None) (tail (stack merged)) ->
      (length layers + depth merged < fuel)%nat ->
      assemble fuel msg (plug layers inner) sessions
      = Some (mkAssembled (Return true) (plug layers merged)
                          (delete key sessions) [])
  | inr (command, e) =>
      exists log,
        assemble fuel msg (plug layers inner) sessions
        = Some (mkAssembled (if dropsPartialCCs e then Return false else Throw e)
                            (plug layers command) (delete key sessions) log) /\
        length log = (if dropsPartialCCs e then 1 else 0)%nat
  end.
Proof.
  intros Hkeys Hkey Hfinal Hfuel. unfold assemblePartialCCs.
  replace fuel with (length layers + S (fuel - length layers - 1))%nat by lia.
  rewrite assemblePartialCCs_loop_descend by done. simpl.
  unfold getPartialCCSession. rewrite Hkey.
  assert (exists sessions',
    (if true && negb (bool_decide (is_Some (sessions !! key)))
     then <[key := []]> sessions else sessions) = sessions' /\
    sessions' !! key = Some (default [] (sessions !! key)) /\
    delete key sessions' = delete key sessions) as (sessions' & -> & Hs & Hdel).
  { destruct (sessions !! key) as [session|] eqn:Hs; eexists; (split; [done|]).
    - rewrite bool_decide_eq_true_2 by done. by simpl.
    - rewrite bool_decide_eq_false_2 by (by intros [? ?]). simpl.
      by rewrite lookup_insert_eq, delete_insert_eq. }
  rewrite Hs, Hfinal, Hdel.
  assert (forall command e, exists log,
    match e with
    | ZWaveError message ZWaveErrorCodes.Deserialization_NotImplemented
    | ZWaveError message ZWaveErrorCodes.CC_NotImplemented =>
        Some (mkAssembled (Return false) (plug layers command)
                (delete key sessions)
                [DriverPrint
                   ("Dropping message because it could not be deserialized: "
                    +:+ message) LWarn])
    | ZWaveError _ ZWaveErrorCodes.PacketFormat_InvalidPayload =>
        Some (mkAssembled (Return false) (plug layers command)
                (delete key sessions)
                [DriverPrint
                   "Could not assemble partial CCs because the payload is invalid. Dropping them."
                   LWarn])
    | ZWaveError _ ZWaveErrorCodes.Driver_NotReady =>
        Some (mkAssembled (Return false) (plug layers command)
                (delete key sessions)
                [DriverPrint
                   "Could not assemble partial CCs because the driver is not ready yet. Dropping them"
                   LWarn])
    | _ => Some (mkAssembled (Throw e) (plug layers command)
                             (delete key sessions) [])
    end
    = Some (mkAssembled (if dropsPartialCCs e then Return false else Throw e)
                        (plug layers command) (delete key sessions) log) /\
    length log = (if dropsPartialCCs e then 1 else 0)%nat) as Hfailed.
  { intros command [message []|text]; simpl; by eexists. }
  destruct (mergePartialCCs inner (default [] (sessions !! key)))
    as [merged|e]; [|apply Hfailed].
  destruct (assertValidCCs (plug layers merged)) as [e|]; [apply Hfailed|].
  intros Hmerged Hdepth.
  destruct merged as [cc|cc e|cc l]; [done| |done].
  simpl in Hmerged, Hdepth.
  rewrite (assemblePartialCCs_loop_complete msg (delete key sessions) e);
    [|exact Hmerged|lia].
  by rewrite plug_app.
Qed.

End AssemblePartialCCsFacts.

Lemma assemblePartialCCs_complete_witness :
  assemble_example 2 (exampleMessage multiChannelWrapped) multiChannelWrapped ∅
  = Some (mkAssembled (Return true) multiChannelWrapped ∅ []).
Proof.
  apply (assemblePartialCCs_complete securityKey firstExpectsMore
           (fun c _ => Return c) (fun _ => None) (fun _ => false)
           (exampleMessage multiChannelWrapped) multiChannelWrapped ∅ 2).
  - repeat constructor.
  - simpl. lia.
Defined.

Lemma assemblePartialCCs_stores_part_witness :
  exists log,
    assemble_example 2 (exampleMessage basicCommand)
                     (plug [multiChannelLayer] securityPart) ∅
    = Some (mkAssembled (Return false) (plug [multiChannelLayer] securityPart)
              (<["5-security" :=
                   default [] ((∅ : gmap string (list CommandClass)) !! "5-security")
                   ++ [securityPart]]> ∅)
              log) /\
    log = if false then []
          else [DriverLogMessage
                  (setCommand (plug [multiChannelLayer] securityPart)
                              (exampleMessage basicCommand)) ["partial"]].
Proof.
  apply (assemblePartialCCs_stores_part securityKey firstExpectsMore
           (fun c _ => Return c) (fun _ => None) (fun _ => false)
           (exampleMessage basicCommand) [multiChannelLayer] securityPart ∅
           "5-security" 2).
  - repeat constructor.
  - reflexivity.
  - reflexivity.
  - simpl. lia.
Defined.

Lemma assemblePartialCCs_final_part_witness :
  assemble_example 2 (exampleMessage basicCommand)
                   (plug [multiChannelLayer] securityPart)
                   {[ "5-security" := [securityPart] ]}
  = Some (mkAssembled (Return true) (plug [multiChannelLayer] securityPart)
            (delete "5-security" {[ "5-security" := [securityPart] ]}) []).
Proof.
  refine (assemblePartialCCs_final_part securityKey firstExpectsMore
            (fun c _ => Return c) (fun _ => None) (fun _ => false)
            (exampleMessage basicCommand) [multiChannelLayer] securityPart
            {[ "5-security" := [securityPart] ]} "5-security" 2 _ _ _ _ _ _).
  - repeat constructor.
  - reflexivity.
  - reflexivity.
  - simpl. lia.
  - constructor.
  - simpl. lia.
Defined.
